(** * WATA payment integration: order intake and webhook handler

    A shallow embedding of the two HTTP functions of the repository,
    [backend/wata/index.py] (order intake) and
    [backend/wata-webhook/index.py] (webhook verifier and order
    resolver), and the properties of their specification.

    Conventions of the model.
    - A Python [str] is a [string]: the sequence of bytes of its UTF-8
      encoding, so [s.encode()] is the identity and an ASCII string is
      one whose bytes are all below 128.
    - A Python call either returns or raises: [result A].
    - Module-level state ([_public_key_cache]) and the order store are
      threaded explicitly; an exception keeps the state reached so far.
    - Libraries outside the repository (json, cryptography, the Unicode
      tables, float arithmetic, the quoting of text by [psycopg2], the
      encoding of a request body by [httpx]) are the interface
      [PyRuntime]; the
      network, the clock, the environment and the random source of one
      invocation are the record [world]. *)

From Stdlib Require Import ZArith String Ascii List Bool Lia Floats.
From stdpp Require Import base option list gmap strings pretty.
Import ListNotations.

Local Open Scope string_scope.
Local Open Scope list_scope.
Local Open Scope Z_scope.

Set Warnings "-register-all".

(** ** Python values and exceptions *)

(** The exception classes the two handlers can meet. *)
Inductive exn : Type :=
  | JSONDecodeError
  | ValueError
  | TypeError
  | AttributeError
  | OverflowError
  | BinasciiError
  | UnicodeDecodeError
  | TransportError      (* httpx: connection refused, timeout, ... *)
  | OperationalError    (* psycopg2.connect failed *)
  | ProgrammingError.   (* psycopg2: can't adapt type 'dict' *)

Inductive result (A : Type) : Type :=
  | Ok (a : A)
  | Raise (e : exn).
Arguments Ok {A} a.
Arguments Raise {A} e.

(** What [json.loads] builds. An object keeps its members as a list
    of bindings; the binding of a key is its first occurrence. *)
Inductive json : Type :=
  | JNull
  | JBool (b : bool)
  | JInt (n : Z)
  | JFloat (f : float)
  | JString (s : string)
  | JArray (items : list json)
  | JObject (members : list (string * json)).

(** Python truth value of a JSON value ([if v:], [not v], [v or w]). *)
Definition truthy (v : json) : bool :=
  match v with
  | JNull => false
  | JBool b => b
  | JInt n => negb (n =? 0)
  | JFloat f => negb (PrimFloat.eqb f 0%float)
  | JString s => negb (String.eqb s "")
  | JArray items => match items with [] => false | _ => true end
  | JObject members => match members with [] => false | _ => true end
  end.

(** [a or b] *)
Definition py_or (a b : json) : json := if truthy a then a else b.

Fixpoint assoc (k : string) (members : list (string * json)) : option json :=
  match members with
  | [] => None
  | (k', v) :: rest => if String.eqb k k' then Some v else assoc k rest
  end.

(** [d.get(k, dflt)]; only a dict has the method. *)
Definition dict_get_default (d : json) (k : string) (dflt : json) : result json :=
  match d with
  | JObject members => Ok (default dflt (assoc k members))
  | _ => Raise AttributeError
  end.

(** [d.get(k)] *)
Definition dict_get (d : json) (k : string) : result json :=
  dict_get_default d k JNull.

(** ** Strings *)

Definition code (c : ascii) : Z := Z.of_N (N_of_ascii c).

Definition bytes_of (s : string) : list Z := map code (list_ascii_of_string s).

Definition string_of (bs : list Z) : string :=
  string_of_list_ascii (map (fun b => ascii_of_N (Z.to_N b)) bs).

Definition is_ascii (s : string) : bool := forallb (fun b => b <? 128) (bytes_of s).

Definition ascii_lower (c : ascii) : ascii :=
  let n := code c in
  if (65 <=? n) && (n <=? 90) then ascii_of_N (Z.to_N (n + 32)) else c.

Definition ascii_upper (c : ascii) : ascii :=
  let n := code c in
  if (97 <=? n) && (n <=? 122) then ascii_of_N (Z.to_N (n - 32)) else c.

Fixpoint map_string (f : ascii -> ascii) (s : string) : string :=
  match s with
  | EmptyString => EmptyString
  | String c rest => String (f c) (map_string f rest)
  end.

(** The number of positions at which two byte strings of one length
    differ. *)
Fixpoint differences (a b : list Z) : option nat :=
  match a, b with
  | [], [] => Some 0%nat
  | x :: a', y :: b' =>
      option_map (fun n => if x =? y then n else S n) (differences a' b')
  | _, _ => None
  end.

(** [s'] is [s] with exactly one byte changed. *)
Definition one_byte_changed (s s' : string) : bool :=
  match differences (bytes_of s) (bytes_of s') with
  | Some 1%nat => true
  | _ => false
  end.

(** ** base64.b64decode

    [base64.b64decode(s)] with its default [validate=False]: a [str]
    argument is first encoded as ASCII ([ValueError] otherwise), then
    [binascii.a2b_base64] runs in its lenient mode. *)

(** [table_a2b_base64]: the value of a base64 symbol. *)
Definition b64_value (c : Z) : option Z :=
  if (65 <=? c) && (c <=? 90) then Some (c - 65)
  else if (97 <=? c) && (c <=? 122) then Some (c - 71)
  else if (48 <=? c) && (c <=? 57) then Some (c + 4)
  else if c =? 43 then Some 62
  else if c =? 47 then Some 63
  else None.

Definition u8 (x : Z) : Z := Z.land x 255.

Definition BASE64_PAD : Z := 61.

(** The decoding loop. [quad_pos] counts the symbols of the current
    quad, [leftchar] holds the bits not yet written, [pads] the pad
    characters seen since the last symbol. A complete pad sequence
    stops the loop and whatever follows is not read; characters outside
    the alphabet are skipped; the bits left in [leftchar] when the pad
    sequence arrives are dropped without a check. *)
Fixpoint a2b_base64_loop (data : list Z) (quad_pos leftchar pads : Z)
    (bin_data : list Z) : option (list Z) :=
  match data with
  | [] => if quad_pos =? 0 then Some bin_data else None
  | this_ch :: rest =>
      if this_ch =? BASE64_PAD then
        if 2 <=? quad_pos then
          if 4 <=? quad_pos + (pads + 1) then Some bin_data
          else a2b_base64_loop rest quad_pos leftchar (pads + 1) bin_data
        else a2b_base64_loop rest quad_pos leftchar pads bin_data
      else
        match b64_value this_ch with
        | None => a2b_base64_loop rest quad_pos leftchar pads bin_data
        | Some v =>
            if quad_pos =? 0 then
              a2b_base64_loop rest 1 v 0 bin_data
            else if quad_pos =? 1 then
              a2b_base64_loop rest 2 (Z.land v 15) 0
                (bin_data ++ [u8 (Z.lor (Z.shiftl leftchar 2) (Z.shiftr v 4))])
            else if quad_pos =? 2 then
              a2b_base64_loop rest 3 (Z.land v 3) 0
                (bin_data ++ [u8 (Z.lor (Z.shiftl leftchar 4) (Z.shiftr v 2))])
            else
              a2b_base64_loop rest 0 0 0
                (bin_data ++ [u8 (Z.lor (Z.shiftl leftchar 6) v)])
        end
  end.

Definition a2b_base64 (data : list Z) : result (list Z) :=
  match a2b_base64_loop data 0 0 0 [] with
  | Some bin_data => Ok bin_data
  | None => Raise BinasciiError
  end.

Definition b64decode (s : string) : result (list Z) :=
  if is_ascii s then a2b_base64 (bytes_of s) else Raise ValueError.

(** ** int(str) on ASCII text

    Optional surrounding whitespace, an optional sign, then decimal
    digits in which single underscores may separate digits; at most
    4300 digits (the interpreter's default limit). *)

Definition is_space (c : Z) : bool :=
  (c =? 32) || ((9 <=? c) && (c <=? 13)).

Definition is_digit (c : Z) : bool := (48 <=? c) && (c <=? 57).

Fixpoint lstrip (cs : list Z) : list Z :=
  match cs with
  | c :: rest => if is_space c then lstrip rest else cs
  | [] => []
  end.

Definition strip (cs : list Z) : list Z := rev (lstrip (rev (lstrip cs))).

(** Digits with separators: [prev_digit] tells whether the previous
    character was a digit, [acc] is the value so far, [n] the number
    of digits read. *)
Fixpoint digits_value (cs : list Z) (prev_digit : bool) (acc : Z) (n : nat)
    : option (Z * nat) :=
  match cs with
  | [] => if prev_digit then Some (acc, n) else None
  | c :: rest =>
      if is_digit c then digits_value rest true (10 * acc + (c - 48)) (S n)
      else if (c =? 95) && prev_digit then digits_value rest false acc n
      else None
  end.

Definition MAX_STR_DIGITS : nat := 4300.

Definition unsigned_value (cs : list Z) : option Z :=
  match digits_value cs false 0 0%nat with
  | Some (v, n) => if (n <=? MAX_STR_DIGITS)%nat then Some v else None
  | None => None
  end.

Definition int_of_ascii (s : string) : option Z :=
  match strip (bytes_of s) with
  | 45 :: rest => option_map Z.opp (unsigned_value rest)
  | 43 :: rest => unsigned_value rest
  | cs => unsigned_value cs
  end.

(** ** The libraries outside the repository

    The functions of [json], [cryptography] and the interpreter that
    the handlers call and whose code is not part of the repository.
    Every statement below holds for each implementation of them. *)
Class PyRuntime : Type := {
  (** [json.loads]; [None] stands for [JSONDecodeError]. *)
  json_loads : string -> option json;
  (** [serialization.load_pem_public_key(pem.encode())]; [None] stands
      for any exception it raises. *)
  public_key : Type;
  load_pem_public_key : string -> option public_key;
  (** [key.verify(signature, data, padding.PKCS1v15(), hashes.SHA512())]:
      [true] when the call returns, [false] when it raises
      [InvalidSignature] or anything else. *)
  verify_pkcs1v15_sha512 : public_key -> list Z -> string -> bool;
  (** [bytes.decode('utf-8')] succeeds on exactly these byte strings. *)
  utf8_valid : list Z -> bool;
  (** [str.lower], [str.upper] and [int] on text that is not ASCII. *)
  unicode_lower : string -> string;
  unicode_upper : string -> string;
  unicode_int : string -> option Z;
  (** Float arithmetic: [float(n)], [float(s)], [int(f)], [round(f, 2)]. *)
  float_of_int : Z -> option float;
  float_of_str : string -> option float;
  int_of_float : float -> result Z;
  round2 : float -> float;
  (** [str(v)] for a value that is neither a string, [None], a bool
      nor an int. *)
  repr : json -> string;
  (** [psycopg2]'s quoting of a [str] query parameter: [None] when the
      text is quoted, the exception otherwise (a NUL character, text
      that the connection's encoding cannot hold). *)
  adapt_text : string -> option exn;
  (** [httpx]'s encoding of the [json=] argument of a request, before
      anything is sent: [None] when the body is encoded, the exception
      otherwise (a float that is not finite under [allow_nan=False]). *)
  encode_json : json -> option exn;
}.

(** [s.lower()] *)
Definition lower `{PyRuntime} (s : string) : string :=
  if is_ascii s then map_string ascii_lower s else unicode_lower s.

(** [s.upper()] *)
Definition upper `{PyRuntime} (s : string) : string :=
  if is_ascii s then map_string ascii_upper s else unicode_upper s.

(** [int(v)] *)
Definition py_int `{PyRuntime} (v : json) : result Z :=
  match v with
  | JString s =>
      match (if is_ascii s then int_of_ascii s else unicode_int s) with
      | Some n => Ok n
      | None => Raise ValueError
      end
  | JInt n => Ok n
  | JBool b => Ok (if b then 1 else 0)
  | JFloat f => int_of_float f
  | JNull | JArray _ | JObject _ => Raise TypeError
  end.

(** [bs.decode('utf-8')] *)
Definition decode_utf8 `{PyRuntime} (bs : list Z) : result string :=
  if utf8_valid bs then Ok (string_of bs) else Raise UnicodeDecodeError.

(** ** Query parameters

    [cur.execute(query, params)] adapts the parameters in order before
    the query is sent; the first one that cannot be adapted raises and
    the store sees nothing. *)

(** The adaptation of one parameter: [None] when it is adapted, the
    exception otherwise. [None], booleans and numbers always adapt;
    text is quoted; a list adapts, as an array, when its elements do;
    no adapter is registered for a dict. *)
Fixpoint adapt `{PyRuntime} (v : json) : option exn :=
  match v with
  | JNull | JBool _ | JInt _ | JFloat _ => None
  | JString s => adapt_text s
  | JArray items =>
      (fix adapt_items (l : list json) : option exn :=
         match l with
         | [] => None
         | x :: rest =>
             match adapt x with
             | Some e => Some e
             | None => adapt_items rest
             end
         end) items
  | JObject _ => Some ProgrammingError
  end.

Fixpoint adapt_all `{PyRuntime} (params : list json) : option exn :=
  match params with
  | [] => None
  | v :: rest =>
      match adapt v with
      | Some e => Some e
      | None => adapt_all rest
      end
  end.

(** What [cur.execute(query, params)] does before the query is sent. *)
Definition execute `{PyRuntime} (params : list json) : result unit :=
  match adapt_all params with
  | Some e => Raise e
  | None => Ok tt
  end.

(** ** The world of one invocation *)

(** What an [httpx] request comes to: the call raises, or a response
    arrives with its status and body text. *)
Inductive http_outcome : Type :=
  | Transport_failure
  | Response (status_code : Z) (text : string).

Record world : Type := {
  (** [os.environ] *)
  environ : gmap string string;
  (** [client.get(url, ...)] *)
  http_get : string -> http_outcome;
  (** [client.post(url, json=request_data, headers={Authorization: Bearer token})] *)
  http_post : string -> string -> json -> http_outcome;
  (** whether [psycopg2.connect(dsn)] succeeds *)
  db_connect : string -> bool;
  (** the store's [CURRENT_TIMESTAMP] *)
  CURRENT_TIMESTAMP : Z;
  (** [datetime.now().strftime('%Y%m%d')] *)
  today : string;
  (** [(datetime.utcnow() + timedelta(hours=24)).strftime(...)] *)
  expiration_time : string;
  (** the successive values of [random.randint(100000, 2147483647)] *)
  randint : nat -> Z;
}.

(** [json.loads(text)], and [response.json()] on a body [text]. *)
Definition loads `{PyRuntime} (text : string) : result json :=
  match json_loads text with
  | Some v => Ok v
  | None => Raise JSONDecodeError
  end.

(** ** The order store

    The columns of [orders] and [order_items] that the two handlers
    name. The schema is not part of the repository: a column absent
    from an [INSERT] is taken to be [NULL], and a column takes every
    value that the driver adapts. *)
Record order : Type := {
  o_id : Z;
  o_order_number : string;
  o_user_name : string;
  o_user_email : string;
  o_user_phone : string;
  o_amount : float;
  o_wata_order_id : Z;
  o_status : string;
  o_delivery_address : string;
  o_order_comment : string;
  o_payment_url : json;
  o_wata_transaction_id : json;
  o_paid_at : option Z;
  o_updated_at : option Z;
}.

Record order_item : Type := {
  i_order_id : Z;
  i_product_id : json;
  i_product_name : json;
  i_product_price : json;
  i_quantity : json;
}.

(** The two tables as one transaction sees them. *)
Record tables : Type := {
  orders : list order;
  order_items : list order_item;
}.

(** The store between transactions: the committed tables and the
    sequence behind [orders.id], which a rollback does not rewind. *)
Record store : Type := {
  committed : tables;
  orders_id_seq : Z;
}.

(** The first row with the provider order id [wata_id]. *)
Definition find_order (wata_id : Z) (s : tables) : option order :=
  find (fun o => o_wata_order_id o =? wata_id) (orders s).

(** [SELECT id, status FROM orders WHERE wata_order_id = %s] followed
    by [fetchone()]. *)
Definition select_order (wata_id : Z) (s : tables) : option (Z * string) :=
  match find_order wata_id s with
  | Some o => Some (o_id o, o_status o)
  | None => None
  end.

(** [SELECT COUNT( * ) FROM orders WHERE wata_order_id = %s] *)
Definition count_orders (wata_id : Z) (s : tables) : nat :=
  List.length (List.filter (fun o => o_wata_order_id o =? wata_id) (orders s)).

(** [UPDATE orders SET ... WHERE id = %s] *)
Definition update_order (set : order -> order) (id : Z) (s : tables) : tables :=
  {| orders := map (fun o => if o_id o =? id then set o else o) (orders s);
     order_items := order_items s |}.

(** [SET status = 'paid', paid_at = CURRENT_TIMESTAMP, updated_at = CURRENT_TIMESTAMP] *)
Definition set_paid (now : Z) (o : order) : order :=
  {| o_id := o_id o; o_order_number := o_order_number o;
     o_user_name := o_user_name o; o_user_email := o_user_email o;
     o_user_phone := o_user_phone o; o_amount := o_amount o;
     o_wata_order_id := o_wata_order_id o;
     o_status := "paid";
     o_delivery_address := o_delivery_address o;
     o_order_comment := o_order_comment o;
     o_payment_url := o_payment_url o;
     o_wata_transaction_id := o_wata_transaction_id o;
     o_paid_at := Some now;
     o_updated_at := Some now |}.

(** [SET status = 'failed', updated_at = CURRENT_TIMESTAMP] *)
Definition set_failed (now : Z) (o : order) : order :=
  {| o_id := o_id o; o_order_number := o_order_number o;
     o_user_name := o_user_name o; o_user_email := o_user_email o;
     o_user_phone := o_user_phone o; o_amount := o_amount o;
     o_wata_order_id := o_wata_order_id o;
     o_status := "failed";
     o_delivery_address := o_delivery_address o;
     o_order_comment := o_order_comment o;
     o_payment_url := o_payment_url o;
     o_wata_transaction_id := o_wata_transaction_id o;
     o_paid_at := o_paid_at o;
     o_updated_at := Some now |}.

(** [SET payment_url = %s, wata_transaction_id = %s] *)
Definition set_link (url transaction : json) (o : order) : order :=
  {| o_id := o_id o; o_order_number := o_order_number o;
     o_user_name := o_user_name o; o_user_email := o_user_email o;
     o_user_phone := o_user_phone o; o_amount := o_amount o;
     o_wata_order_id := o_wata_order_id o;
     o_status := o_status o;
     o_delivery_address := o_delivery_address o;
     o_order_comment := o_order_comment o;
     o_payment_url := url;
     o_wata_transaction_id := transaction;
     o_paid_at := o_paid_at o;
     o_updated_at := o_updated_at o |}.

(** [get_db_connection()]. A connection of [psycopg2] is not in
    autocommit mode: its statements act on the transaction's copy of
    the tables, [conn.commit()] publishes the copy, and [conn.close()]
    (or dropping the connection) without a commit discards it. The
    value returned is the transaction's copy. *)
Definition get_db_connection (w : world) (s : store) : result tables :=
  match environ w !! "DATABASE_URL" with
  | Some dsn =>
      if String.eqb dsn "" then Raise ValueError
      else if db_connect w dsn then Ok (committed s)
      else Raise OperationalError
  | None => Raise ValueError
  end.

(** The store can be reached: [DATABASE_URL] is set and the
    connection opens. *)
Definition store_reachable (w : world) : Prop :=
  exists dsn,
    environ w !! "DATABASE_URL" = Some dsn /\ dsn <> "" /\ db_connect w dsn = true.

(** The ids of the order rows are distinct and below the next value
    of the sequence. *)
Definition ids_fresh (s : store) : Prop :=
  NoDup (map o_id (orders (committed s))) /\
  Forall (fun o => o_id o < orders_id_seq s) (orders (committed s)).

(** ** The HTTP interface of a cloud function *)

Record event : Type := {
  httpMethod : option string;
  body : option string;
  isBase64Encoded : option bool;
  headers : option (gmap string string);
}.

Inductive response_body : Type :=
  | Empty_body                 (* the empty string *)
  | Dumps (v : json).          (* [json.dumps(v)] *)

Record response : Type := {
  statusCode : Z;
  response_headers : list (string * string);
  response_body_of : response_body;
}.

(** ** Calls that return or raise, over a state *)

Definition M (S A : Type) : Type := S -> result A * S.

Definition ret {S A} (a : A) : M S A := fun s => (Ok a, s).

Definition raise {S A} (e : exn) : M S A := fun s => (Raise e, s).

Definition bind {S A B} (c : M S A) (k : A -> M S B) : M S B :=
  fun s =>
    match c s with
    | (Ok a, s') => k a s'
    | (Raise e, s') => (Raise e, s')
    end.

(** A call that does not touch the state. *)
Definition lift {S A} (r : result A) : M S A := fun s => (r, s).

Notation "'do' x <- c ; k" := (bind c (fun x => k))
  (at level 10, x name, c at level 100, k at level 200).
Notation "'run' c ; k" := (bind c (fun _ => k))
  (at level 10, c at level 100, k at level 200).

(** * The webhook handler, [backend/wata-webhook/index.py] *)

Module Webhook.

(** The state of the process that serves webhooks: the module-level
    [_public_key_cache] ([JNull] is [None]) and the committed store. *)
Record process : Type := {
  public_key_cache : json;
  db : store;
}.

Definition get_cache : M process json :=
  fun p => (Ok (public_key_cache p), p).

Definition set_cache (v : json) : M process unit :=
  fun p => (Ok tt, {| public_key_cache := v; db := db p |}).

Definition get_db : M process store :=
  fun p => (Ok (db p), p).

(** The process with the tables of its store replaced. *)
Definition with_tables (p : process) (t : tables) : process :=
  {| public_key_cache := public_key_cache p;
     db := {| committed := t; orders_id_seq := orders_id_seq (db p) |} |}.

(** [conn.commit()] *)
Definition commit (transaction : tables) : M process unit :=
  fun p => (Ok tt, with_tables p transaction).

Definition HEADERS : list (string * string) :=
  [ ("Access-Control-Allow-Origin", "*");
    ("Access-Control-Allow-Methods", "GET, POST, OPTIONS");
    ("Access-Control-Allow-Headers", "Content-Type, X-Signature, X-Wata-Signature");
    ("Content-Type", "application/json") ].

Definition respond (status : Z) (b : response_body) : response :=
  {| statusCode := status; response_headers := HEADERS; response_body_of := b |}.

Definition error_response (status : Z) (message : string) : response :=
  respond status (Dumps (JObject [("error", JString message)])).

Definition ok_response : response :=
  respond 200 (Dumps (JObject [("status", JString "ok")])).

Definition WATA_API_URL_DEFAULT : string := "https://api.wata.pro/api/h2h".

(** The address [f"{base_url}/public-key"]. *)
Definition public_key_url (w : world) : string :=
  let base_url := default WATA_API_URL_DEFAULT (environ w !! "WATA_API_URL") in
  base_url +:+ "/public-key".

(** [get_wata_public_key()]. No statement of it is guarded: a failing
    request, a body that is not JSON and a JSON value that is not an
    object all raise. *)
Definition get_wata_public_key `{PyRuntime} (w : world) : M process json :=
  do cache <- get_cache ;
  if truthy cache then ret cache
  else
    match http_get w (public_key_url w) with
    | Transport_failure => raise TransportError
    | Response status_code text =>
        if negb (status_code =? 200) then ret JNull
        else
          do data <- lift (loads text) ;
          do public_key <- lift (dict_get data "value") ;
          if truthy public_key then
            run set_cache public_key ; ret public_key
          else ret JNull
    end.

(** [load_pem_public_key(public_key_pem.encode())] inside its [try]:
    a cached value that is not a string has no [encode]. *)
Definition load_key `{PyRuntime} (public_key_pem : json) : option public_key :=
  match public_key_pem with
  | JString pem => load_pem_public_key pem
  | _ => None
  end.

(** [verify_webhook_signature(payload, signature)] *)
Definition verify_webhook_signature `{PyRuntime} (w : world)
    (payload signature : string) : M process bool :=
  do public_key_pem <- get_wata_public_key w ;
  if negb (truthy public_key_pem) then ret false
  else
    match load_key public_key_pem with
    | None => ret false
    | Some key =>
        match b64decode signature with
        | Raise _ => ret false
        | Ok signature_bytes =>
            ret (verify_pkcs1v15_sha512 key signature_bytes payload)
        end
    end.

(** The dict [parse_webhook_data] returns. *)
Record webhook_data : Type := {
  transaction_id : json;
  order_id : json;
  status : json;
  amount : json;
  currency : json;
  error_code : json;
  error_message : json;
  payment_method : json;
  payment_time : json;
  terminal_name : json;
  terminal_public_id : json;
  commission : json;
  email : json;
}.

(** [parse_webhook_data(data)] *)
Definition parse_webhook_data (data : json) : result webhook_data :=
  match data with
  | JObject members =>
      let get k := default JNull (assoc k members) in
      Ok {| transaction_id := get "transactionId";
            order_id := get "orderId";
            status := get "transactionStatus";
            amount := get "amount";
            currency := get "currency";
            error_code := get "errorCode";
            error_message := get "errorDescription";
            payment_method := get "transactionType";
            payment_time := get "paymentTime";
            terminal_name := get "terminalName";
            terminal_public_id := get "terminalPublicId";
            commission := get "commission";
            email := get "email" |}
  | _ => Raise AttributeError
  end.

(** The [or] chain over the four header names of the handler. *)
Definition header_truthy (v : option string) : bool :=
  match v with
  | Some s => negb (String.eqb s "")
  | None => false
  end.

Definition header_or (a b : option string) : option string :=
  if header_truthy a then a else b.

Definition get_signature (hs : gmap string string) : string :=
  default ""
    (header_or
       (header_or
          (header_or
             (header_or (hs !! "X-Signature") (hs !! "x-signature"))
             (hs !! "X-Wata-Signature"))
          (hs !! "x-wata-signature"))
       (Some "")).

(** [(webhook_data.get("status") or "").lower()] *)
Definition normalized_status `{PyRuntime} (v : json) : result string :=
  match py_or v (JString "") with
  | JString s => Ok (lower s)
  | _ => Raise AttributeError
  end.

Definition is_success (s : string) : bool :=
  String.eqb s "success" || String.eqb s "completed" || String.eqb s "paid".

Definition is_failure (s : string) : bool :=
  String.eqb s "failed" || String.eqb s "error" || String.eqb s "rejected".

(** Lines 177 to 241: from the order id of the parsed callback to the
    response. *)
Definition resolve_order `{PyRuntime} (w : world) (data : webhook_data)
    : M process response :=
  let order_id_str := order_id data in
  if negb (truthy order_id_str) then ret (error_response 400 "Missing order_id")
  else
    do current <- get_db ;
    do conn <- lift (get_db_connection w current) ;
    do wata_id <- lift (py_int order_id_str) ;
    match select_order wata_id conn with
    | None => ret (error_response 404 "Order not found")
    | Some (db_order_id, current_status) =>
        do new_status <- lift (normalized_status (status data)) ;
        if is_success new_status then
          run (if negb (String.eqb current_status "paid") then
                 commit (update_order (set_paid (CURRENT_TIMESTAMP w)) db_order_id conn)
               else ret tt) ;
          ret ok_response
        else if is_failure new_status then
          run commit (update_order (set_failed (CURRENT_TIMESTAMP w)) db_order_id conn) ;
          ret ok_response
        else ret ok_response
    end.

(** The body as the verifier and the parser see it. *)
Definition request_body `{PyRuntime} (ev : event) : result string :=
  let b := default "" (body ev) in
  if default false (isBase64Encoded ev) then
    match b64decode b with
    | Ok bs => decode_utf8 bs
    | Raise e => Raise e
    end
  else Ok b.

(** [handler(event, context)] *)
Definition handler `{PyRuntime} (w : world) (ev : event) : M process response :=
  let method := upper (default "GET" (httpMethod ev)) in
  if String.eqb method "OPTIONS" then ret (respond 200 Empty_body)
  else
    do payload <- lift (request_body ev) ;
    let signature := get_signature (default ∅ (headers ev)) in
    do verified <- verify_webhook_signature w payload signature ;
    if negb verified then ret (error_response 401 "Invalid signature")
    else
      match json_loads payload with
      | None => ret (error_response 400 "Invalid JSON")
      | Some data =>
          do parsed <- lift (parse_webhook_data data) ;
          resolve_order w parsed
      end.

(** ** Vocabulary of the statements *)

(** The delivery [ev] reaches the resolver: it is not a preflight, its
    signature verifies (leaving the process in [p']) and its body
    parses to the callback [data]. *)
Definition delivered `{PyRuntime} (w : world) (ev : event) (p p' : process)
    (data : webhook_data) : Prop :=
  upper (default "GET" (httpMethod ev)) <> "OPTIONS" /\
  exists payload document,
    request_body ev = Ok payload /\
    verify_webhook_signature w payload (get_signature (default ∅ (headers ev))) p
      = (Ok true, p') /\
    json_loads payload = Some document /\
    parse_webhook_data document = Ok data.

(** The callback names the provider order id [wata_id]. *)
Definition names_order `{PyRuntime} (data : webhook_data) (wata_id : Z) : Prop :=
  truthy (order_id data) = true /\ py_int (order_id data) = Ok wata_id.

(** A status that is neither a success nor a failure. *)
Definition is_unrecognized (s : string) : bool :=
  negb (is_success s) && negb (is_failure s).

(** The status of the callback, lower-cased, is in the class. *)
Definition classified `{PyRuntime} (data : webhook_data) (class : string -> bool) : Prop :=
  exists s, normalized_status (status data) = Ok s /\ class s = true.

(** A verified callback of the given class for the provider order id
    [wata_id], delivered while the store can be reached. *)
Definition callback_for `{PyRuntime} (w : world) (ev : event) (p p' : process)
    (wata_id : Z) (class : string -> bool) : Prop :=
  store_reachable w /\
  exists data,
    delivered w ev p p' data /\ names_order data wata_id /\ classified data class.

(** Two rows that agree on every column but [status] and [updated_at]. *)
Definition same_but_status (o o' : order) : Prop :=
  o_id o' = o_id o /\
  o_order_number o' = o_order_number o /\
  o_user_name o' = o_user_name o /\
  o_user_email o' = o_user_email o /\
  o_user_phone o' = o_user_phone o /\
  o_amount o' = o_amount o /\
  o_wata_order_id o' = o_wata_order_id o /\
  o_delivery_address o' = o_delivery_address o /\
  o_order_comment o' = o_order_comment o /\
  o_payment_url o' = o_payment_url o /\
  o_wata_transaction_id o' = o_wata_transaction_id o /\
  o_paid_at o' = o_paid_at o.

(** The header names the handler reads, in the order it reads them. *)
Definition signature_headers : list string :=
  ["X-Signature"; "x-signature"; "X-Wata-Signature"; "x-wata-signature"].

(** The first header of [names] that is present with a value that is
    not empty, the empty string when there is none. *)
Fixpoint first_present (names : list string) (hs : gmap string string) : string :=
  match names with
  | [] => ""
  | name :: rest =>
      match hs !! name with
      | Some v => if String.eqb v "" then first_present rest hs else v
      | None => first_present rest hs
      end
  end.

(** What a call may do to the key cache: leave it, or fill it when it
    was empty. It is never cleared and a cached key is never
    replaced. *)
Definition cache_kept (p p' : process) : Prop :=
  public_key_cache p' = public_key_cache p \/
  (truthy (public_key_cache p) = false /\ truthy (public_key_cache p') = true).

(** The responses of the handler. *)
Definition responses : list response :=
  [ respond 200 Empty_body;
    error_response 401 "Invalid signature";
    error_response 400 "Invalid JSON";
    error_response 400 "Missing order_id";
    error_response 404 "Order not found";
    ok_response ].

(** What one callback may do to a row: nothing, or the [SET] of the
    success branch, or the [SET] of the failure branch. *)
Definition row_step (now : Z) (o o' : order) : Prop :=
  o' = o \/ o' = set_paid now o \/ o' = set_failed now o.

(** The key request makes [get_wata_public_key] raise [e]: it fails
    in transport, or it is answered with status 200 and a body that is
    not JSON or is JSON but not an object. *)
Definition fetch_raises `{PyRuntime} (w : world) (e : exn) : Prop :=
  match http_get w (public_key_url w) with
  | Transport_failure => e = TransportError
  | Response status_code text =>
      status_code = 200 /\
      match json_loads text with
      | None => e = JSONDecodeError
      | Some (JObject _) => False
      | Some _ => e = AttributeError
      end
  end.

(** The key request is answered, and not with a key: the status is
    not 200, or the body is a JSON object whose [value] is absent or
    falsy. *)
Definition key_unavailable `{PyRuntime} (w : world) : Prop :=
  match http_get w (public_key_url w) with
  | Transport_failure => False
  | Response status_code text =>
      status_code <> 200 \/
      exists members,
        json_loads text = Some (JObject members) /\
        truthy (default JNull (assoc "value" members)) = false
  end.

(** The process once [v] is cached. *)
Definition caching (v : json) (p : process) : process :=
  {| public_key_cache := v; db := db p |}.

End Webhook.

(** * Order intake, [backend/wata/index.py] *)

Module Intake.

Definition HEADERS : list (string * string) :=
  [ ("Access-Control-Allow-Origin", "*");
    ("Access-Control-Allow-Methods", "POST, OPTIONS");
    ("Access-Control-Allow-Headers", "Content-Type, X-User-Id, X-Session-Id, X-Auth-Token");
    ("Access-Control-Max-Age", "86400");
    ("Content-Type", "application/json") ].

Definition WATA_API_URL : string := "https://api.wata.pro/api/h2h".

Definition respond (status : Z) (b : response_body) : response :=
  {| statusCode := status; response_headers := HEADERS; response_body_of := b |}.

Definition error_response (status : Z) (message : string) : response :=
  respond status (Dumps (JObject [("error", JString message)])).

(** [float(v)] *)
Definition py_float `{PyRuntime} (v : json) : result float :=
  match v with
  | JFloat f => Ok f
  | JInt n =>
      match float_of_int n with
      | Some f => Ok f
      | None => Raise OverflowError
      end
  | JBool b => Ok (if b then 1%float else 0%float)
  | JString s =>
      match float_of_str s with
      | Some f => Ok f
      | None => Raise ValueError
      end
  | JNull | JArray _ | JObject _ => Raise TypeError
  end.

(** [str(v)] *)
Definition py_str `{PyRuntime} (v : json) : string :=
  match v with
  | JString s => s
  | JNull => "None"
  | JBool true => "True"
  | JBool false => "False"
  | JInt n => pretty n
  | JFloat _ | JArray _ | JObject _ => repr v
  end.

(** The values [for item in v] visits: the elements of a list, the
    keys of a dict, the characters of a string (here one per byte);
    anything else is not iterable. *)
Definition py_iter (v : json) : result (list json) :=
  match v with
  | JArray items => Ok items
  | JObject members => Ok (map (fun kv => JString (fst kv)) members)
  | JString s => Ok (map (fun c => JString (String c EmptyString)) (list_ascii_of_string s))
  | JNull | JBool _ | JInt _ | JFloat _ => Raise TypeError
  end.

(** The [for _ in range(10)] loop: [i] is the number of values drawn
    so far and [n] the number of draws left after this one. The value
    of the last draw is kept whether or not it is free. *)
Fixpoint generate_order_id (w : world) (conn : tables) (i n : nat) : Z :=
  let wata_order_id := randint w i in
  match n with
  | O => wata_order_id
  | S n' =>
      if (count_orders wata_order_id conn =? 0)%nat then wata_order_id
      else generate_order_id w conn (S i) n'
  end.

(** [nextval] of the sequence behind [orders.id]. *)
Definition nextval : M store Z :=
  fun s => (Ok (orders_id_seq s),
            {| committed := committed s; orders_id_seq := orders_id_seq s + 1 |}).

(** [conn.commit()] *)
Definition commit (transaction : tables) : M store unit :=
  fun s => (Ok tt, {| committed := transaction; orders_id_seq := orders_id_seq s |}).

(** The parameters of the [INSERT INTO orders], in the order of the
    tuple. *)
Definition order_parameters `{PyRuntime} (order_number user_name user_email user_phone : string)
    (amount : float) (wata_order_id : Z) (user_address order_comment : string)
    : list json :=
  [ JString order_number; JString user_name; JString user_email; JString user_phone;
    JFloat (round2 amount); JInt wata_order_id; JString "pending";
    JString user_address; JString order_comment ].

(** [INSERT INTO orders (...) VALUES (...)] with status ['pending'],
    once its parameters are adapted. *)
Definition insert_order `{PyRuntime} (id : Z) (order_number user_name user_email user_phone : string)
    (amount : float) (wata_order_id : Z) (user_address order_comment : string)
    (conn : tables) : tables :=
  {| orders := orders conn ++
       [ {| o_id := id;
            o_order_number := order_number;
            o_user_name := user_name;
            o_user_email := user_email;
            o_user_phone := user_phone;
            o_amount := round2 amount;
            o_wata_order_id := wata_order_id;
            o_status := "pending";
            o_delivery_address := user_address;
            o_order_comment := order_comment;
            o_payment_url := JNull;
            o_wata_transaction_id := JNull;
            o_paid_at := None;
            o_updated_at := None |} ];
     order_items := order_items conn |}.

(** The parameters of the [INSERT INTO order_items] after [order_id]:
    what [item.get] gives for the four keys. *)
Definition item_values (members : list (string * json)) : list json :=
  let get k := default JNull (assoc k members) in
  [get "id"; get "name"; get "price"; get "quantity"].

(** One turn of [for item in cart_items: cur.execute(INSERT INTO order_items ...)]:
    [item.get] needs a dict, and the row is written once the
    parameters are adapted. *)
Definition insert_item `{PyRuntime} (order_id : Z) (item : json) (conn : tables)
    : result tables :=
  match item with
  | JObject members =>
      let get k := default JNull (assoc k members) in
      match execute (JInt order_id :: item_values members) with
      | Raise e => Raise e
      | Ok _ =>
          Ok {| orders := orders conn;
                order_items := order_items conn ++
                  [ {| i_order_id := order_id;
                       i_product_id := get "id";
                       i_product_name := get "name";
                       i_product_price := get "price";
                       i_quantity := get "quantity" |} ] |}
      end
  | _ => Raise AttributeError
  end.

Fixpoint insert_items `{PyRuntime} (order_id : Z) (items : list json) (conn : tables) : result tables :=
  match items with
  | [] => Ok conn
  | item :: rest =>
      match insert_item order_id item conn with
      | Ok conn' => insert_items order_id rest conn'
      | Raise e => Raise e
      end
  end.

(** An optional member of [request_data]. *)
Definition optional (k v : string) : list (string * json) :=
  if String.eqb v "" then [] else [(k, JString v)].

(** [f"ORD-{datetime.now().strftime('%Y%m%d')}-{wata_order_id}"] *)
Definition order_number_of (w : world) (wata_order_id : Z) : string :=
  "ORD-" +:+ today w +:+ "-" +:+ pretty wata_order_id.

(** The dict [request_data] sent to the provider. *)
Definition link_request (w : world) (amount : float) (wata_order_id : Z)
    (order_number success_url fail_url user_email user_phone : string) : json :=
  JObject ([ ("amount", JFloat amount);
             ("currency", JString "RUB");
             ("orderId", JString (pretty wata_order_id));
             ("description", JString ("Order " +:+ order_number));
             ("expirationDateTime", JString (expiration_time w +:+ "Z")) ]
           ++ optional "successRedirectUrl" success_url
           ++ optional "failRedirectUrl" fail_url
           ++ optional "customerEmail" user_email
           ++ optional "customerPhone" user_phone).

(** [handler(event, context)] *)
Definition handler `{PyRuntime} (w : world) (ev : event) : M store response :=
  let method := upper (default "GET" (httpMethod ev)) in
  if String.eqb method "OPTIONS" then ret (respond 200 Empty_body)
  else if negb (String.eqb method "POST") then ret (error_response 405 "Method not allowed")
  else
    let wata_token := default "" (environ w !! "WATA_API_TOKEN") in
    if String.eqb wata_token "" then ret (error_response 500 "WATA credentials not configured")
    else
      let body_str := default "{}" (body ev) in
      do payload <- lift (loads body_str) ;
      do amount_v <- lift (dict_get_default payload "amount" (JInt 0)) ;
      do amount <- lift (py_float amount_v) ;
      do user_name_v <- lift (dict_get_default payload "user_name" (JString "")) ;
      do user_email_v <- lift (dict_get_default payload "user_email" (JString "")) ;
      do user_phone_v <- lift (dict_get_default payload "user_phone" (JString "")) ;
      do user_address_v <- lift (dict_get_default payload "user_address" (JString "")) ;
      do order_comment_v <- lift (dict_get_default payload "order_comment" (JString "")) ;
      do cart_items <- lift (dict_get_default payload "cart_items" (JArray [])) ;
      do success_url_v <- lift (dict_get_default payload "success_url" (JString "")) ;
      do fail_url_v <- lift (dict_get_default payload "fail_url" (JString "")) ;
      let user_name := py_str user_name_v in
      let user_email := py_str user_email_v in
      let user_phone := py_str user_phone_v in
      let user_address := py_str user_address_v in
      let order_comment := py_str order_comment_v in
      let success_url := py_str success_url_v in
      let fail_url := py_str fail_url_v in
      if PrimFloat.leb amount 0%float then
        ret (error_response 400 "Amount must be greater than 0")
      else if String.eqb user_name "" || String.eqb user_email "" then
        ret (error_response 400 "user_name and user_email required")
      else
        do conn <- (fun s => (get_db_connection w s, s)) ;
        let wata_order_id := generate_order_id w conn 0 9 in
        let order_number := order_number_of w wata_order_id in
        run lift (execute (order_parameters order_number user_name user_email user_phone
                             amount wata_order_id user_address order_comment)) ;
        do order_id <- nextval ;
        let conn := insert_order order_id order_number user_name user_email user_phone
                      amount wata_order_id user_address order_comment conn in
        do items <- lift (py_iter cart_items) ;
        do conn <- lift (insert_items order_id items conn) ;
        let request_data :=
          link_request w amount wata_order_id order_number
            success_url fail_url user_email user_phone in
        match encode_json request_data with
        | Some e => raise e
        | None =>
        match http_post w (WATA_API_URL +:+ "/links") wata_token request_data with
        | Transport_failure => raise TransportError
        | Response status_code text =>
            if negb (status_code =? 200) then
              (* cur.close(); conn.close(): nothing was committed *)
              ret (error_response 500 ("WATA API error: " +:+ text))
            else
              do data <- lift (loads text) ;
              do payment_url_1 <- lift (dict_get data "paymentUrl") ;
              do payment_url_2 <- lift (dict_get data "url") ;
              let payment_url := py_or payment_url_1 payment_url_2 in
              do wata_transaction_id <- lift (dict_get data "id") ;
              if negb (truthy payment_url) then
                (* cur.close(); conn.close(): nothing was committed *)
                ret (error_response 500 "Invalid response from WATA API")
              else
                run lift (execute [payment_url; wata_transaction_id; JInt order_id]) ;
                let conn := update_order (set_link payment_url wata_transaction_id) order_id conn in
                run commit conn ;
                ret (respond 200 (Dumps (JObject
                       [ ("payment_url", payment_url);
                         ("order_id", JInt order_id);
                         ("order_number", JString order_number);
                         ("wata_transaction_id", wata_transaction_id) ])))
        end
        end.

(** ** Vocabulary of the statements *)

(** The status codes of the handler's responses. *)
Definition statuses : list Z := [200; 400; 405; 500].

(** The row that [INSERT INTO order_items] writes for one cart item. *)
Definition item_row (order_id : Z) (members : list (string * json)) : order_item :=
  {| i_order_id := order_id;
     i_product_id := default JNull (assoc "id" members);
     i_product_name := default JNull (assoc "name" members);
     i_product_price := default JNull (assoc "price" members);
     i_quantity := default JNull (assoc "quantity" members) |}.

(** [str(payload.get(k, ''))] for the members of the request body. *)
Definition field `{PyRuntime} (members : list (string * json)) (k : string) : string :=
  py_str (default (JString "") (assoc k members)).

(** The request is a POST with the provider credential [token]
    configured, and its body is the JSON object [members]. *)
Definition posted `{PyRuntime} (w : world) (ev : event) (token : string)
    (members : list (string * json)) : Prop :=
  upper (default "GET" (httpMethod ev)) = "POST" /\
  environ w !! "WATA_API_TOKEN" = Some token /\
  token <> "" /\
  json_loads (default "{}" (body ev)) = Some (JObject members).

(** The posted request passes validation and reaches the store: its
    amount converts to the float [amount] above zero, its name and
    email are not empty, and the store can be reached. *)
Definition admitted `{PyRuntime} (w : world) (ev : event) (token : string)
    (members : list (string * json)) (amount : float) : Prop :=
  posted w ev token members /\
  py_float (default (JInt 0) (assoc "amount" members)) = Ok amount /\
  PrimFloat.leb amount 0%float = false /\
  field members "user_name" <> "" /\
  field members "user_email" <> "" /\
  store_reachable w.

(** The parameters of the [INSERT INTO orders] for an admitted
    request. *)
Definition order_parameters_of `{PyRuntime} (w : world) (s : store)
    (members : list (string * json)) (amount : float) : list json :=
  let wata_order_id := generate_order_id w (committed s) 0 9 in
  order_parameters (order_number_of w wata_order_id)
    (field members "user_name") (field members "user_email") (field members "user_phone")
    amount wata_order_id (field members "user_address") (field members "order_comment").

(** What the handler sends to the provider for an admitted request. *)
Definition request_of `{PyRuntime} (w : world) (s : store)
    (members : list (string * json)) (amount : float) : json :=
  let wata_order_id := generate_order_id w (committed s) 0 9 in
  link_request w amount wata_order_id (order_number_of w wata_order_id)
    (field members "success_url") (field members "fail_url")
    (field members "user_email") (field members "user_phone").

(** The order of an admitted request and its cart are written to the
    transaction: the parameters of the order row adapt, the cart is
    the list of objects [items], and the four values of each item
    adapt. *)
Definition written `{PyRuntime} (w : world) (ev : event) (s : store) (token : string)
    (members : list (string * json)) (amount : float)
    (items : list (list (string * json))) : Prop :=
  admitted w ev token members amount /\
  adapt_all (order_parameters_of w s members amount) = None /\
  default (JArray []) (assoc "cart_items" members) = JArray (map JObject items) /\
  Forall (fun item => adapt_all (item_values item) = None) items.

(** The request is accepted: its order and cart are written, and the
    link request can be encoded. *)
Definition accepted `{PyRuntime} (w : world) (ev : event) (s : store) (token : string)
    (members : list (string * json)) (amount : float)
    (items : list (list (string * json))) : Prop :=
  written w ev s token members amount items /\
  encode_json (request_of w s members amount) = None.

(** The request passes validation, its order and cart can be written,
    and [request_data] is what the handler then sends to the provider:
    the request is a POST, the provider credential [token] is
    configured, the body is a JSON object whose amount converts to a
    float above zero, whose name and email are not empty and whose
    cart is a list of objects, the store [s] can be reached, the
    driver adapts the parameters of the order row and of each item
    row, and the body of the link request can be encoded. *)
Definition validated `{PyRuntime} (w : world) (ev : event) (s : store) (token : string)
    (request_data : json) : Prop :=
  exists members amount items,
    accepted w ev s token members amount items /\
    request_data = request_of w s members amount.

(** The provider's answer to the link request gives no link: its
    status is not 200, or it is a JSON object in which neither
    [paymentUrl] nor [url] is truthy. *)
Definition no_link `{PyRuntime} (answer : http_outcome) : Prop :=
  match answer with
  | Transport_failure => False
  | Response status_code text =>
      status_code <> 200 \/
      exists members,
        json_loads text = Some (JObject members) /\
        truthy (py_or (default JNull (assoc "paymentUrl" members))
                      (default JNull (assoc "url" members))) = false
  end.

End Intake.

(** * A concrete runtime and concrete requests

    An implementation of [PyRuntime] small enough to compute with, and
    the requests on which the statements below are run: a reader for
    JSON text without escapes, and RSA with a toy modulus in place of
    the provider's key. *)

Module Fixture.

Definition dq : string := String (ascii_of_N 34) EmptyString.

Definition quoted (s : string) : string := dq +:+ s +:+ dq.

Fixpoint read_string (cs acc : list Z) : option (string * list Z) :=
  match cs with
  | [] => None
  | c :: rest =>
      if c =? 34 then Some (string_of acc, rest) else read_string rest (acc ++ [c])
  end.

Fixpoint read_digits (cs : list Z) (acc : Z) : Z * list Z :=
  match cs with
  | c :: rest =>
      if is_digit c then read_digits rest (10 * acc + (c - 48)) else (acc, cs)
  | [] => (acc, [])
  end.

(** Values, the elements of an array after its bracket, and the
    members of an object after its brace. *)
Fixpoint read_value (fuel : nat) (cs : list Z) {struct fuel} : option (json * list Z) :=
  match fuel with
  | O => None
  | S fuel' =>
      match lstrip cs with
      | [] => None
      | c :: rest =>
          if c =? 34 then
            match read_string rest [] with
            | Some (str, rest1) => Some (JString str, rest1)
            | None => None
            end
          else if c =? 91 then
            match read_elements fuel' rest [] with
            | Some (items, rest1) => Some (JArray items, rest1)
            | None => None
            end
          else if c =? 123 then
            match read_members fuel' rest [] with
            | Some (members, rest1) => Some (JObject members, rest1)
            | None => None
            end
          else if is_digit c then
            let '(n, rest1) := read_digits (c :: rest) 0 in Some (JInt n, rest1)
          else None
      end
  end
with read_elements (fuel : nat) (cs : list Z) (acc : list json) {struct fuel}
    : option (list json * list Z) :=
  match fuel with
  | O => None
  | S fuel' =>
      match lstrip cs with
      | [] => None
      | c :: rest =>
          if c =? 93 then Some (acc, rest)
          else if c =? 44 then read_elements fuel' rest acc
          else
            match read_value fuel' (c :: rest) with
            | Some (v, rest1) => read_elements fuel' rest1 (acc ++ [v])
            | None => None
            end
      end
  end
with read_members (fuel : nat) (cs : list Z) (acc : list (string * json)) {struct fuel}
    : option (list (string * json) * list Z) :=
  match fuel with
  | O => None
  | S fuel' =>
      match lstrip cs with
      | [] => None
      | c :: rest =>
          if c =? 125 then Some (acc, rest)
          else if c =? 44 then read_members fuel' rest acc
          else if c =? 34 then
            match read_string rest [] with
            | Some (k, rest1) =>
                match lstrip rest1 with
                | c1 :: rest2 =>
                    if c1 =? 58 then
                      match read_value fuel' rest2 with
                      | Some (v, rest3) => read_members fuel' rest3 (acc ++ [(k, v)])
                      | None => None
                      end
                    else None
                | [] => None
                end
            | None => None
            end
          else None
      end
  end.

Definition read_json (text : string) : option json :=
  let cs := bytes_of text in
  match read_value (2 * List.length cs + 2) cs with
  | Some (v, rest) => match lstrip rest with [] => Some v | _ => None end
  | None => None
  end.

(** Toy RSA: modulus [3233 = 61 * 53], public exponent [17]. A
    signature is two bytes, the big-endian value [s] below the modulus
    with [s ^ 17 mod 3233] equal to the digest of the message. *)
Definition toy_pem : string := "-----BEGIN PUBLIC KEY-----toy-----END PUBLIC KEY-----".

Definition toy_digest (message : string) : Z :=
  fold_left (fun acc b => (acc * 31 + b) mod 3233) (bytes_of message) 7.

Definition toy_verify (key : Z * Z) (signature : list Z) (message : string) : bool :=
  match signature with
  | [hi; lo] =>
      let s := hi * 256 + lo in
      (s <? fst key) && ((s ^ snd key) mod fst key =? toy_digest message)
  | _ => false
  end.

#[export] Instance runtime : PyRuntime := {|
  json_loads := read_json;
  public_key := Z * Z;
  load_pem_public_key := fun pem => if String.eqb pem toy_pem then Some (3233, 17) else None;
  verify_pkcs1v15_sha512 := toy_verify;
  utf8_valid := fun bs => forallb (fun b => b <? 128) bs;
  unicode_lower := fun s => s;
  unicode_upper := fun s => s;
  unicode_int := fun _ => None;
  float_of_int := fun n =>
    if (0 <=? n) && (n <? 1000000) then Some (PrimFloat.of_uint63 (Uint63.of_Z n)) else None;
  float_of_str := fun s => if String.eqb s "nan" then Some PrimFloat.nan else None;
  int_of_float := fun _ => Raise ValueError;
  round2 := fun f => f;
  repr := fun _ => "<repr>";
  adapt_text := fun s => if existsb (Z.eqb 0) (bytes_of s) then Some ValueError else None;
  encode_json := fun v =>
    match v with
    | JObject (("amount", JFloat f) :: _) =>
        if PrimFloat.is_nan f || PrimFloat.is_infinity f then Some ValueError else None
    | _ => None
    end;
|}.

(** The environment of the deployed functions. *)
Definition environment : gmap string string :=
  {[ "DATABASE_URL" := "postgresql://store"; "WATA_API_TOKEN" := "secret" ]}.

(** A world in which the provider answers the key request with
    [key_answer] and the link request with [link_answer]. *)
Definition world_with (key_answer link_answer : http_outcome) : world :=
  {| environ := environment;
     http_get := fun url =>
       if String.eqb url "https://api.wata.pro/api/h2h/public-key" then key_answer
       else Response 404 "";
     http_post := fun _ _ _ => link_answer;
     db_connect := fun _ => true;
     CURRENT_TIMESTAMP := 1700000000;
     today := "20240101";
     expiration_time := "2024-01-02T00:00:00";
     randint := fun i => 100001 + Z.of_nat i |}.

Definition key_document : string := "{" +:+ quoted "value" +:+ ": " +:+ quoted toy_pem +:+ "}".

(** The provider is up: the key is served, links are created. *)
Definition provider_up : world :=
  world_with (Response 200 key_document)
    (Response 200 ("{" +:+ quoted "paymentUrl" +:+ ": " +:+ quoted "https://pay/x" +:+ ", "
                   +:+ quoted "id" +:+ ": " +:+ quoted "tx1" +:+ "}")).

(** The provider is unreachable. *)
Definition provider_down : world := world_with Transport_failure Transport_failure.

(** The provider answers every request with a 503. *)
Definition provider_unavailable : world :=
  world_with (Response 503 "unavailable") (Response 503 "unavailable").

(** The provider answers with a page that is not JSON. *)
Definition provider_garbled : world :=
  world_with (Response 200 "<html>") (Response 200 "<html>").

(** The provider serves its key and answers the link request with an
    object that holds no link. *)
Definition provider_without_link : world :=
  world_with (Response 200 key_document)
    (Response 200 ("{" +:+ quoted "id" +:+ ": " +:+ quoted "tx1" +:+ "}")).

(** A callback body: the object with members [orderId] and
    [transactionStatus]. *)
Definition callback (oid st : string) : string :=
  "{" +:+ quoted "orderId" +:+ ": " +:+ quoted oid +:+ ", "
      +:+ quoted "transactionStatus" +:+ ": " +:+ quoted st +:+ "}".

(** A webhook delivery: the body, and its signature under a header
    of the given name. *)
Definition delivery (header signature payload : string) : event :=
  {| httpMethod := Some "POST";
     body := Some payload;
     isBase64Encoded := Some false;
     headers := Some {[ header := signature ]} |}.

(** Signed callbacks for the order with provider id 100001, and for
    ids that the store does not hold or that are not numbers. *)
Definition paid_callback : event :=
  delivery "X-Signature" "AGE=" (callback "100001" "Paid").

Definition failed_callback : event :=
  delivery "x-wata-signature" "ApQ=" (callback "100001" "FAILED").

Definition unknown_order_callback : event :=
  delivery "X-Signature" "BA4=" (callback "424242" "Paid").

Definition bad_id_callback : event :=
  delivery "X-Signature" "Ar8=" (callback "abc" "Paid").

Definition not_json_callback : event :=
  delivery "X-Signature" "AcM=" "not json".

Definition review_callback : event :=
  delivery "X-Signature" "AX4=" (callback "100001" "pending_review").

Definition sample_order (st : string) (paid_at : option Z) : order :=
  {| o_id := 1;
     o_order_number := "ORD-20240101-100001";
     o_user_name := "A";
     o_user_email := "a@x.com";
     o_user_phone := "";
     o_amount := 100%float;
     o_wata_order_id := 100001;
     o_status := st;
     o_delivery_address := "";
     o_order_comment := "";
     o_payment_url := JString "https://pay/x";
     o_wata_transaction_id := JString "tx1";
     o_paid_at := paid_at;
     o_updated_at := paid_at |}.

Definition store_with (os : list order) : store :=
  {| committed := {| orders := os; order_items := [] |}; orders_id_seq := 2 |}.

Definition empty_store : store :=
  {| committed := {| orders := []; order_items := [] |}; orders_id_seq := 1 |}.

(** A webhook process that has not fetched the key yet. *)
Definition cold (s : store) : Webhook.process :=
  {| Webhook.public_key_cache := JNull; Webhook.db := s |}.

(** The same process once the key is cached. *)
Definition warm (s : store) : Webhook.process :=
  {| Webhook.public_key_cache := JString toy_pem; Webhook.db := s |}.

(** Warm processes whose store holds the order 100001, pending and
    paid. *)
Definition with_pending_order : Webhook.process :=
  warm (store_with [sample_order "pending" None]).

Definition with_paid_order : Webhook.process :=
  warm (store_with [sample_order "paid" (Some 1600000000)]).

(** The process [with_pending_order] after the success callback. *)
Definition with_order_paid_now : Webhook.process :=
  warm (store_with [sample_order "paid" (Some 1700000000)]).

(** What [parse_webhook_data] makes of [callback oid st]. *)
Definition callback_data (oid st : string) : Webhook.webhook_data :=
  {| Webhook.transaction_id := JNull;
     Webhook.order_id := JString oid;
     Webhook.status := JString st;
     Webhook.amount := JNull;
     Webhook.currency := JNull;
     Webhook.error_code := JNull;
     Webhook.error_message := JNull;
     Webhook.payment_method := JNull;
     Webhook.payment_time := JNull;
     Webhook.terminal_name := JNull;
     Webhook.terminal_public_id := JNull;
     Webhook.commission := JNull;
     Webhook.email := JNull |}.

(** The members of the cart of [checkout_body]. *)
Definition widget : list (string * json) :=
  [("id", JInt 1); ("name", JString "Widget"); ("price", JInt 50); ("quantity", JInt 2)].

(** The checkout of the specification's end-to-end example. *)
Definition checkout_body : string :=
  "{" +:+ quoted "amount" +:+ ": 100, "
      +:+ quoted "user_name" +:+ ": " +:+ quoted "A" +:+ ", "
      +:+ quoted "user_email" +:+ ": " +:+ quoted "a@x.com" +:+ ", "
      +:+ quoted "cart_items" +:+ ": [{"
      +:+ quoted "id" +:+ ": 1, " +:+ quoted "name" +:+ ": " +:+ quoted "Widget" +:+ ", "
      +:+ quoted "price" +:+ ": 50, " +:+ quoted "quantity" +:+ ": 2}]}".

Definition checkout : event :=
  {| httpMethod := Some "POST";
     body := Some checkout_body;
     isBase64Encoded := None;
     headers := None |}.

(** What the handler asks of the provider for [checkout] on the empty
    store: the first value of the random source, 100001, is free. *)
Definition checkout_request : json :=
  JObject [ ("amount", JFloat 100%float);
            ("currency", JString "RUB");
            ("orderId", JString "100001");
            ("description", JString "Order ORD-20240101-100001");
            ("expirationDateTime", JString "2024-01-02T00:00:00Z");
            ("customerEmail", JString "a@x.com") ].

Definition not_json_checkout : event :=
  {| httpMethod := Some "post";
     body := Some "{amount: 100";
     isBase64Encoded := None;
     headers := None |}.

(** Signed callbacks that name no order, and whose body is a list. *)
Definition anonymous_callback : event :=
  delivery "X-Signature" "DC4=" ("{" +:+ quoted "transactionStatus" +:+ ": " +:+ quoted "Paid" +:+ "}").

Definition anonymous_data : Webhook.webhook_data :=
  {| Webhook.transaction_id := JNull;
     Webhook.order_id := JNull;
     Webhook.status := JString "Paid";
     Webhook.amount := JNull;
     Webhook.currency := JNull;
     Webhook.error_code := JNull;
     Webhook.error_message := JNull;
     Webhook.payment_method := JNull;
     Webhook.payment_time := JNull;
     Webhook.terminal_name := JNull;
     Webhook.terminal_public_id := JNull;
     Webhook.commission := JNull;
     Webhook.email := JNull |}.

Definition array_callback : event := delivery "X-Signature" "Bsc=" "[]".

(** Deliveries flagged as base64: one symbol, which is no base64, and
    the encoding of the byte 255, which is no UTF-8. *)
Definition encoded (payload : string) : event :=
  {| httpMethod := Some "POST";
     body := Some payload;
     isBase64Encoded := Some true;
     headers := Some {[ "X-Signature" := "AGE=" ]} |}.

(** The provider is up and [DATABASE_URL] is not set. *)
Definition store_unset : world :=
  {| environ := {[ "WATA_API_TOKEN" := "secret" ]};
     http_get := http_get provider_up;
     http_post := http_post provider_up;
     db_connect := db_connect provider_up;
     CURRENT_TIMESTAMP := CURRENT_TIMESTAMP provider_up;
     today := today provider_up;
     expiration_time := expiration_time provider_up;
     randint := randint provider_up |}.

(** The provider is up and the store refuses the connection. *)
Definition store_down : world :=
  {| environ := environment;
     http_get := http_get provider_up;
     http_post := http_post provider_up;
     db_connect := fun _ => false;
     CURRENT_TIMESTAMP := CURRENT_TIMESTAMP provider_up;
     today := today provider_up;
     expiration_time := expiration_time provider_up;
     randint := randint provider_up |}.

(** The provider credential is not set. *)
Definition token_unset : world :=
  {| environ := {[ "DATABASE_URL" := "postgresql://store" ]};
     http_get := http_get provider_up;
     http_post := http_post provider_up;
     db_connect := db_connect provider_up;
     CURRENT_TIMESTAMP := CURRENT_TIMESTAMP provider_up;
     today := today provider_up;
     expiration_time := expiration_time provider_up;
     randint := randint provider_up |}.

(** The provider answers the link request with a JSON list. *)
Definition provider_listing : world :=
  world_with (Response 200 key_document) (Response 200 "[]").

(** The store that holds the order 100001, pending. *)
Definition pending_store : store := store_with [sample_order "pending" None].

(** Requests to the intake handler: a method and a body. *)
Definition request (method payload : string) : event :=
  {| httpMethod := Some method;
     body := Some payload;
     isBase64Encoded := None;
     headers := None |}.

(** A checkout from [A] with the given amount and cart, as JSON text. *)
Definition checkout_of (name amount cart : string) : string :=
  "{" +:+ quoted "amount" +:+ ": " +:+ amount +:+ ", "
      +:+ quoted "user_name" +:+ ": " +:+ quoted name +:+ ", "
      +:+ quoted "user_email" +:+ ": " +:+ quoted "a@x.com" +:+ ", "
      +:+ quoted "cart_items" +:+ ": " +:+ cart +:+ "}".

(** What [json.loads] makes of [checkout_of name amount cart]. *)
Definition checkout_members (name : string) (amount cart : json) : list (string * json) :=
  [("amount", amount); ("user_name", JString name);
   ("user_email", JString "a@x.com"); ("cart_items", cart)].

(** The answer of [provider_up] to a link request. *)
Definition link_document : string :=
  "{" +:+ quoted "paymentUrl" +:+ ": " +:+ quoted "https://pay/x" +:+ ", "
      +:+ quoted "id" +:+ ": " +:+ quoted "tx1" +:+ "}".

Definition link_answer : list (string * json) :=
  [("paymentUrl", JString "https://pay/x"); ("id", JString "tx1")].

(** The provider serves, as its key, text that is no PEM key; and an
    object without a key. *)
Definition provider_with_bad_key : world :=
  world_with (Response 200 ("{" +:+ quoted "value" +:+ ": " +:+ quoted "junk" +:+ "}"))
    (Response 200 link_document).

Definition provider_without_key : world :=
  world_with (Response 200 "{}") (Response 200 link_document).

(** The provider answers the link request with a link that is an
    object. *)
Definition provider_with_object_link : world :=
  world_with (Response 200 key_document)
    (Response 200 ("{" +:+ quoted "paymentUrl" +:+ ": {" +:+ quoted "href" +:+ ": 1}}")).

(** A cart whose first item has an object as its [id], followed by a
    number. *)
Definition object_id_cart : string := "[{" +:+ quoted "id" +:+ ": {}}, 1]".

(** A name that holds a NUL character. *)
Definition nul_name : string := String (ascii_of_N 0) "A".

End Fixture.

(** * Properties *)

Import Webhook.

(** ** The public key and the verifier *)

Ltac unfold_calls :=
  unfold bind, ret, raise, lift, get_cache, set_cache, get_db, commit,
    loads, dict_get, dict_get_default in *.

(** Fetching the key leaves the store alone; the value it returns is
    [None] or truthy; when it raises, the process is as before. *)
Lemma get_wata_public_key_cases `{PyRuntime} (w : world) (p : process) :
  match get_wata_public_key w p with
  | (Ok v, p') => db p' = db p /\ (v = JNull \/ truthy v = true)
  | (Raise _, p') => p' = p
  end.
Proof.
  unfold get_wata_public_key; unfold_calls.
  destruct (truthy (public_key_cache p)) eqn:Hcache; [now auto|].
  destruct (http_get w (public_key_url w)) as [|status_code text]; [reflexivity|].
  destruct (negb (status_code =? 200)); [now auto|].
  destruct (json_loads text) as [data|]; [|reflexivity].
  destruct data as [| | | | |items|members]; try reflexivity.
  destruct (truthy (default JNull (assoc "value" members))) eqn:Hv; simpl; auto.
Qed.

Lemma get_wata_public_key_db `{PyRuntime} (w : world) (p p' : process) (r : result json) :
  get_wata_public_key w p = (r, p') -> db p' = db p.
Proof.
  intros Hk. pose proof (get_wata_public_key_cases w p) as Hc.
  rewrite Hk in Hc. destruct r; [tauto|now subst].
Qed.

(** The verifier never touches the store. *)
Lemma verify_webhook_signature_db `{PyRuntime} (w : world) (payload signature : string)
    (p p' : process) (r : result bool) :
  verify_webhook_signature w payload signature p = (r, p') -> db p' = db p.
Proof.
  unfold verify_webhook_signature, bind.
  destruct (get_wata_public_key w p) as [[v|e] p1] eqn:Hk;
    apply get_wata_public_key_db in Hk.
  - destruct (negb (truthy v)); [|destruct (load_key v); [destruct (b64decode signature)|]];
      unfold ret; intros [= <- <-]; exact Hk.
  - intros [= <- <-]. exact Hk.
Qed.

(** The verifier reads the signature through its decoding alone. *)
Lemma verify_webhook_signature_decoded `{PyRuntime} (w : world) (payload s s' : string)
    (p : process) :
  b64decode s' = b64decode s ->
  verify_webhook_signature w payload s' p = verify_webhook_signature w payload s p.
Proof.
  intros Hd. unfold verify_webhook_signature. now rewrite Hd.
Qed.

(** C1 (amended). The verifier returns true exactly when the key is
    available as a PEM string that loads, the signature decodes as
    base64, and the decoded bytes are a valid PKCS#1 v1.5 / SHA-512
    signature of the payload exactly as it was received. The signature
    text counts through its decoding alone: two texts with the same
    decoding get the same answer. *)
Theorem C1_verify_true_iff_decoded_signature_valid `{PyRuntime} (w : world)
    (p : process) (payload signature : string) :
  (fst (verify_webhook_signature w payload signature p) = Ok true <->
   exists pem key signature_bytes,
     fst (get_wata_public_key w p) = Ok (JString pem) /\
     load_pem_public_key pem = Some key /\
     b64decode signature = Ok signature_bytes /\
     verify_pkcs1v15_sha512 key signature_bytes payload = true)
  /\
  (forall signature',
     b64decode signature' = b64decode signature ->
     verify_webhook_signature w payload signature' p
     = verify_webhook_signature w payload signature p).
Proof.
  split; [|intros s' Hd; now apply verify_webhook_signature_decoded].
  pose proof (get_wata_public_key_cases w p) as Hc.
  unfold verify_webhook_signature, bind, ret.
  destruct (get_wata_public_key w p) as [[v|e] p1]; simpl; split.
  - destruct (truthy v) eqn:Hv; simpl; [|discriminate].
    destruct v as [| | | |pem| |]; simpl; try discriminate.
    destruct (load_pem_public_key pem) as [key|] eqn:Hkey; simpl; [|discriminate].
    destruct (b64decode signature) as [bs|] eqn:Hsig; simpl; [|discriminate].
    intros [= Hok]. now exists pem, key, bs.
  - intros (pem & key & bs & [= ->] & Hkey & Hsig & Hok).
    destruct Hc as [_ [Hnull|Hv]]; [discriminate|].
    rewrite Hv. simpl. now rewrite Hkey, Hsig, Hok.
  - discriminate.
  - intros (pem & key & bs & [=] & _).
Qed.

(** C2 (refuted by the code). With no key cached, a key request that
    fails in transport, or that is answered by a body that is not JSON
    or by JSON that is not an object, makes the verifier raise: the
    exception of [get_wata_public_key] passes through it. *)
Theorem C2_key_fetch_failure_escapes_verifier `{PyRuntime} (w : world) (p : process)
    (payload signature : string) :
  truthy (public_key_cache p) = false ->
  (http_get w (public_key_url w) = Transport_failure ->
   verify_webhook_signature w payload signature p = (Raise TransportError, p))
  /\
  (forall text,
     http_get w (public_key_url w) = Response 200 text ->
     json_loads text = None ->
     verify_webhook_signature w payload signature p = (Raise JSONDecodeError, p))
  /\
  (forall text items,
     http_get w (public_key_url w) = Response 200 text ->
     json_loads text = Some (JArray items) ->
     verify_webhook_signature w payload signature p = (Raise AttributeError, p)).
Proof.
  intros Hcache.
  unfold verify_webhook_signature, get_wata_public_key; unfold_calls.
  rewrite Hcache. repeat split.
  - intros ->. reflexivity.
  - intros text -> Hjson. simpl. now rewrite Hjson.
  - intros text items -> Hjson. simpl. now rewrite Hjson.
Qed.

(** ** The webhook handler *)

Lemma store_reachable_connection (w : world) (s : store) :
  store_reachable w -> get_db_connection w s = Ok (committed s).
Proof.
  intros (dsn & Hdsn & Hne & Hconn). unfold get_db_connection.
  apply String.eqb_neq in Hne. now rewrite Hdsn, Hne, Hconn.
Qed.

(** A delivery that reaches the resolver is answered by the resolver,
    run in the process that verification leaves, whose store is the
    one the delivery found. *)
Lemma handler_delivered `{PyRuntime} (w : world) (ev : event) (p p' : process)
    (data : webhook_data) :
  delivered w ev p p' data ->
  handler w ev p = resolve_order w data p' /\ db p' = db p.
Proof.
  intros (Hmethod & payload & document & Hbody & Hverify & Hjson & Hparse).
  split; [|now apply verify_webhook_signature_db in Hverify].
  unfold handler. apply String.eqb_neq in Hmethod. rewrite Hmethod.
  unfold bind, lift. rewrite Hbody, Hverify. simpl. now rewrite Hjson, Hparse.
Qed.

(** The resolver in direct style, for a callback that names an order
    while the store can be reached. *)
Lemma resolve_order_named `{PyRuntime} (w : world) (data : webhook_data) (p : process)
    (wata_id : Z) :
  store_reachable w ->
  names_order data wata_id ->
  resolve_order w data p =
    match select_order wata_id (committed (db p)) with
    | None => (Ok (error_response 404 "Order not found"), p)
    | Some (id, current_status) =>
        match normalized_status (status data) with
        | Raise e => (Raise e, p)
        | Ok s =>
            if is_success s then
              (Ok ok_response,
               if String.eqb current_status "paid" then p
               else with_tables p
                      (update_order (set_paid (CURRENT_TIMESTAMP w)) id (committed (db p))))
            else if is_failure s then
              (Ok ok_response,
               with_tables p
                 (update_order (set_failed (CURRENT_TIMESTAMP w)) id (committed (db p))))
            else (Ok ok_response, p)
        end
    end.
Proof.
  intros Hstore [Htruthy Hint]. unfold resolve_order. rewrite Htruthy. simpl.
  unfold_calls. rewrite (store_reachable_connection w (db p) Hstore), Hint.
  destruct (select_order wata_id (committed (db p))) as [[id current_status]|];
    [|reflexivity].
  destruct (normalized_status (status data)) as [s|e]; [|reflexivity].
  destruct (is_success s); [now destruct (String.eqb current_status "paid")|].
  now destruct (is_failure s).
Qed.

Lemma select_order_find (wata_id id : Z) (st : string) (t : tables) :
  select_order wata_id t = Some (id, st) <->
  exists o, find_order wata_id t = Some o /\ o_id o = id /\ o_status o = st.
Proof.
  unfold select_order. destruct (find_order wata_id t) as [o|]; split.
  - intros [= <- <-]. now exists o.
  - now intros (o' & [= <-] & <- & <-).
  - discriminate.
  - now intros (o' & [=] & _).
Qed.

(** An update by row id that keeps the provider order ids keeps the
    row that a lookup by provider order id finds, updated. *)
Lemma find_order_update (set : order -> order) (wata_id : Z) (t : tables) (o : order) :
  (forall x, o_wata_order_id (set x) = o_wata_order_id x) ->
  find_order wata_id t = Some o ->
  find_order wata_id (update_order set (o_id o) t) = Some (set o).
Proof.
  intros Hset. unfold find_order, update_order. simpl.
  induction (orders t) as [|x rows IH]; simpl; [discriminate|].
  destruct (o_wata_order_id x =? wata_id) eqn:Hx.
  - intros [= ->]. now rewrite Z.eqb_refl, Hset, Hx.
  - intros Hfind. destruct (o_id x =? o_id o); [rewrite Hset|]; rewrite Hx; auto.
Qed.

Lemma select_order_update (set : order -> order) (wata_id id : Z) (st : string)
    (t : tables) :
  (forall x, o_wata_order_id (set x) = o_wata_order_id x) ->
  (forall x, o_id (set x) = o_id x) ->
  select_order wata_id t = Some (id, st) ->
  exists o, find_order wata_id t = Some o /\
            find_order wata_id (update_order set id t) = Some (set o) /\
            select_order wata_id (update_order set id t) = Some (id, o_status (set o)).
Proof.
  intros Hwata Hid Hsel. apply select_order_find in Hsel as (o & Hfind & <- & <-).
  exists o. pose proof (find_order_update set wata_id t o Hwata Hfind) as Hupd.
  repeat split; auto. unfold select_order. now rewrite Hupd, Hid.
Qed.

(** What an update by row id does to the rows, one by one. *)
Lemma update_order_rows (set : order -> order) (id : Z) (t : tables)
    (R : order -> order -> Prop) :
  (forall o, R o o) ->
  (forall o, o_id o = id -> R o (set o)) ->
  Forall2 R (orders t) (orders (update_order set id t)).
Proof.
  intros Hrefl Hset. unfold update_order. simpl.
  induction (orders t) as [|x rows IH]; simpl; constructor; auto.
  destruct (o_id x =? id) eqn:Hx; auto. apply Hset. now apply Z.eqb_eq.
Qed.

(** The resolver's answer to a success callback, and the store after. *)
Lemma success_callback_applied `{PyRuntime} (w : world) (ev : event) (p p' : process)
    (wata_id id : Z) (st : string) :
  callback_for w ev p p' wata_id is_success ->
  select_order wata_id (committed (db p)) = Some (id, st) ->
  handler w ev p =
    (Ok ok_response,
     if String.eqb st "paid" then p'
     else with_tables p' (update_order (set_paid (CURRENT_TIMESTAMP w)) id (committed (db p))))
  /\ db p' = db p.
Proof.
  intros (Hstore & data & Hdel & Hnames & s & Hstatus & Hclass) Hsel.
  apply handler_delivered in Hdel as [-> Hdb]. split; [|exact Hdb].
  rewrite (resolve_order_named w data p' wata_id Hstore Hnames).
  now rewrite Hdb, Hsel, Hstatus, Hclass.
Qed.

(** The resolver's answer to a failure callback, and the store after. *)
Lemma failure_callback_applied `{PyRuntime} (w : world) (ev : event) (p p' : process)
    (wata_id id : Z) (st : string) :
  callback_for w ev p p' wata_id is_failure ->
  select_order wata_id (committed (db p)) = Some (id, st) ->
  handler w ev p =
    (Ok ok_response,
     with_tables p' (update_order (set_failed (CURRENT_TIMESTAMP w)) id (committed (db p))))
  /\ db p' = db p.
Proof.
  intros (Hstore & data & Hdel & Hnames & s & Hstatus & Hclass) Hsel.
  apply handler_delivered in Hdel as [-> Hdb]. split; [|exact Hdb].
  rewrite (resolve_order_named w data p' wata_id Hstore Hnames).
  rewrite Hdb, Hsel, Hstatus, Hclass.
  assert (is_success s = false) as ->; [|reflexivity].
  unfold is_failure in Hclass. unfold is_success.
  repeat (apply orb_true_iff in Hclass as [Hclass|Hclass]);
    apply String.eqb_eq in Hclass; now subst.
Qed.

(** After a success callback for an order of the store, a lookup by
    its provider id finds it paid. *)
Lemma success_callback_leaves_paid `{PyRuntime} (w : world) (ev : event) (p p' : process)
    (wata_id id : Z) (st : string) :
  callback_for w ev p p' wata_id is_success ->
  select_order wata_id (committed (db p)) = Some (id, st) ->
  select_order wata_id (committed (db (snd (handler w ev p)))) = Some (id, "paid").
Proof.
  intros Hcb Hsel.
  destruct (success_callback_applied w ev p p' wata_id id st Hcb Hsel) as [-> Hdb].
  simpl. destruct (String.eqb st "paid") eqn:Hst.
  - apply String.eqb_eq in Hst. now rewrite Hdb, Hsel, Hst.
  - simpl.
    destruct (select_order_update (set_paid (CURRENT_TIMESTAMP w)) wata_id id st
                (committed (db p))) as (o & _ & _ & Hupd); auto.
Qed.

(** C3. A verified callback whose status lower-cases to success,
    completed or paid, for an order of the store: when the order is
    already [paid] the handler answers 200 and the store is as it was
    (the status stays [paid], [paid_at] is not touched); and whatever
    the status was, a second delivery of the same callback is answered
    200 and leaves the store exactly as the first delivery left it,
    with the order [paid]. *)
Theorem C3_success_callback_idempotent `{PyRuntime} (w : world) (ev : event)
    (p p' : process) (wata_id id : Z) (st : string) :
  callback_for w ev p p' wata_id is_success ->
  select_order wata_id (committed (db p)) = Some (id, st) ->
  (st = "paid" -> handler w ev p = (Ok ok_response, p') /\ db p' = db p)
  /\
  (forall (w2 : world) (p2 : process),
     callback_for w2 ev (snd (handler w ev p)) p2 wata_id is_success ->
     handler w2 ev (snd (handler w ev p)) = (Ok ok_response, p2) /\
     db p2 = db (snd (handler w ev p)) /\
     select_order wata_id (committed (db p2)) = Some (id, "paid")).
Proof.
  intros Hcb Hsel. split.
  - intros ->.
    destruct (success_callback_applied w ev p p' wata_id id "paid" Hcb Hsel) as [Hrun Hdb].
    now split.
  - intros w2 p2 Hcb2.
    pose proof (success_callback_leaves_paid w ev p p' wata_id id st Hcb Hsel) as Hpaid.
    destruct (success_callback_applied w2 ev _ p2 wata_id id "paid" Hcb2 Hpaid)
      as [Hrun Hdb].
    simpl in Hrun. repeat split; auto. now rewrite Hdb.
Qed.

(** C4. A verified callback whose status lower-cases to failed, error
    or rejected, for an order of the store in whatever status, is
    answered with 200 and leaves that order with status [failed] and
    [updated_at] at the current timestamp. In particular, when the
    callback comes after a success callback for the same order, the
    order was [paid] and is [failed] afterwards. *)
Theorem C4_failure_callback_sets_failed `{PyRuntime} (w : world) (ev : event)
    (p p' : process) (wata_id id : Z) (st : string) :
  callback_for w ev p p' wata_id is_failure ->
  select_order wata_id (committed (db p)) = Some (id, st) ->
  (fst (handler w ev p) = Ok ok_response /\
   exists o,
     find_order wata_id (committed (db (snd (handler w ev p)))) = Some o /\
     o_id o = id /\
     o_status o = "failed" /\
     o_updated_at o = Some (CURRENT_TIMESTAMP w))
  /\
  (forall (w0 : world) (ev0 : event) (p0 p0' : process) (st0 : string),
     callback_for w0 ev0 p0 p0' wata_id is_success ->
     select_order wata_id (committed (db p0)) = Some (id, st0) ->
     snd (handler w0 ev0 p0) = p ->
     st = "paid" /\
     select_order wata_id (committed (db (snd (handler w ev p)))) = Some (id, "failed")).
Proof.
  intros Hcb Hsel.
  destruct (failure_callback_applied w ev p p' wata_id id st Hcb Hsel) as [Hrun Hdb].
  destruct (select_order_update (set_failed (CURRENT_TIMESTAMP w)) wata_id id st
              (committed (db p))) as (o & Hfind & Hfind' & Hsel'); auto.
  pose proof Hsel as Hsel0.
  apply select_order_find in Hsel0 as (o1 & Hfind1 & Hid & _).
  rewrite Hfind in Hfind1. injection Hfind1 as <-.
  rewrite Hrun. simpl. split.
  - split; [reflexivity|]. exists (set_failed (CURRENT_TIMESTAMP w) o). auto.
  - intros w0 ev0 p0 p0' st0 Hcb0 Hsel0 Hp. split; [|exact Hsel'].
    pose proof (success_callback_leaves_paid w0 ev0 p0 p0' wata_id id st0 Hcb0 Hsel0)
      as Hpaid.
    rewrite Hp, Hsel in Hpaid. now injection Hpaid.
Qed.

(** C8. A verified callback that names a provider order id the store
    does not hold is answered with 404 and the store is as it was. *)
Theorem C8_unknown_order_is_not_found `{PyRuntime} (w : world) (ev : event)
    (p p' : process) (data : webhook_data) (wata_id : Z) :
  delivered w ev p p' data ->
  store_reachable w ->
  names_order data wata_id ->
  select_order wata_id (committed (db p)) = None ->
  handler w ev p = (Ok (error_response 404 "Order not found"), p') /\
  db p' = db p /\
  statusCode (error_response 404 "Order not found") = 404.
Proof.
  intros Hdel Hstore Hnames Hsel.
  apply handler_delivered in Hdel as [-> Hdb]. repeat split; [|exact Hdb].
  rewrite (resolve_order_named w data p' wata_id Hstore Hnames).
  now rewrite Hdb, Hsel.
Qed.

(** C9. A delivery that passes verification and parsing and whose
    [orderId] is a string that is not empty and that [int] refuses is
    not answered: the handler raises, [ValueError] when the store can
    be reached, and the store is as it was. *)
Theorem C9_unparsable_order_id_raises `{PyRuntime} (w : world) (ev : event)
    (p p' : process) (data : webhook_data) (s : string) :
  delivered w ev p p' data ->
  order_id data = JString s ->
  s <> "" ->
  py_int (JString s) = Raise ValueError ->
  exists e,
    handler w ev p = (Raise e, p') /\
    db p' = db p /\
    (store_reachable w -> e = ValueError).
Proof.
  intros Hdel Hid Hne Hint.
  apply handler_delivered in Hdel as [-> Hdb].
  unfold resolve_order. rewrite Hid.
  change (truthy (JString s)) with (negb (String.eqb s "")).
  apply String.eqb_neq in Hne. rewrite Hne. cbn [negb]. unfold_calls.
  destruct (get_db_connection w (db p')) as [conn|e] eqn:Hconn.
  - rewrite Hint. exists ValueError. auto.
  - exists e. repeat split; auto. intros Hstore.
    now rewrite (store_reachable_connection w (db p') Hstore) in Hconn.
Qed.

(** C10. A verified failure callback for an order of the store changes
    nothing but [status] and [updated_at], and only in rows with the
    id of that order: every row keeps its other columns, [paid_at]
    among them, the other rows and the order items are as they were.
    An order that was [paid] is then [failed] with the [paid_at] the
    success callback recorded. *)
Theorem C10_failure_callback_frame `{PyRuntime} (w : world) (ev : event)
    (p p' : process) (wata_id id : Z) (st : string) :
  callback_for w ev p p' wata_id is_failure ->
  select_order wata_id (committed (db p)) = Some (id, st) ->
  let after := committed (db (snd (handler w ev p))) in
  Forall2 (fun o o' => same_but_status o o' /\ (o_id o <> id -> o' = o))
    (orders (committed (db p))) (orders after) /\
  order_items after = order_items (committed (db p)) /\
  orders_id_seq (db (snd (handler w ev p))) = orders_id_seq (db p) /\
  (forall o,
     find_order wata_id (committed (db p)) = Some o ->
     exists o',
       find_order wata_id after = Some o' /\
       o_status o' = "failed" /\
       o_paid_at o' = o_paid_at o).
Proof.
  intros Hcb Hsel after. subst after.
  destruct (failure_callback_applied w ev p p' wata_id id st Hcb Hsel) as [-> Hdb].
  simpl. rewrite Hdb. repeat split.
  - apply update_order_rows.
    + intros o. unfold same_but_status. tauto.
    + intros o Hid. unfold same_but_status. simpl. split; [tauto|]. congruence.
  - intros o Hfind.
    destruct (select_order_update (set_failed (CURRENT_TIMESTAMP w)) wata_id id st
                (committed (db p))) as (o1 & Hfind1 & Hfind' & _); auto.
    rewrite Hfind in Hfind1. injection Hfind1 as <-.
    exists (set_failed (CURRENT_TIMESTAMP w) o). auto.
Qed.

(** The handler reads the signature under four names and no other:
    the [or] chain is the first of them present with a value. *)
Lemma get_signature_first_present (hs : gmap string string) :
  get_signature hs = first_present signature_headers hs.
Proof.
  unfold get_signature, header_or, header_truthy, signature_headers.
  cbn [first_present].
  destruct (hs !! "X-Signature") as [a|]; [destruct (String.eqb a "") eqn:Ha|];
    (destruct (hs !! "x-signature") as [b|]; [destruct (String.eqb b "") eqn:Hb|]);
    (destruct (hs !! "X-Wata-Signature") as [c|]; [destruct (String.eqb c "") eqn:Hc|]);
    (destruct (hs !! "x-wata-signature") as [d|]; [destruct (String.eqb d "") eqn:Hd|]);
    repeat (progress (rewrite ?Ha, ?Hb, ?Hc, ?Hd; cbn [negb default]));
    reflexivity.
Qed.

(** C6 (amended). The signature is the value of the first of the
    headers [X-Signature], [x-signature], [X-Wata-Signature],
    [x-wata-signature] that is present and not empty, and the empty
    string when there is none. Names are compared exactly: a header
    under any other name, another casing of these included, is not
    read. *)
Theorem C6_signature_from_four_exact_names (hs : gmap string string) :
  get_signature hs = first_present signature_headers hs /\
  (forall name v,
     name ∉ signature_headers ->
     get_signature (<[name := v]> hs) = get_signature hs).
Proof.
  split; [apply get_signature_first_present|].
  intros name v Hname. rewrite !get_signature_first_present.
  unfold signature_headers in *. simpl.
  rewrite !lookup_insert_ne; [reflexivity| | | |];
    intros ->; apply Hname; set_solver.
Qed.

(** ** Order intake *)

(** A cart of objects whose values adapt is written item by item. *)
Lemma insert_items_objects `{PyRuntime} (order_id : Z) (items : list (list (string * json)))
    (conn : tables) :
  Forall (fun item => adapt_all (Intake.item_values item) = None) items ->
  Intake.insert_items order_id (map JObject items) conn
  = Ok {| orders := orders conn;
          order_items := order_items conn ++ map (Intake.item_row order_id) items |}.
Proof.
  intros Hitems. revert conn. induction Hitems as [|item rest Hitem _ IH]; intros conn.
  - simpl. rewrite app_nil_r. now destruct conn.
  - cbn [map Intake.insert_items Intake.insert_item]. unfold execute.
    cbn [adapt_all adapt]. rewrite Hitem, IH. cbn [orders order_items].
    now rewrite <- app_assoc.
Qed.

(** An admitted request, in direct style: the parameters of the order
    row are adapted, the order is inserted under the id drawn from the
    sequence, then the cart, then the link request is encoded and the
    provider is asked; the link is written and only then is anything
    committed. *)
Lemma intake_admitted `{PyRuntime} (w : world) (ev : event) (s : store) (token : string)
    (members : list (string * json)) (amount : float) :
  Intake.admitted w ev token members amount ->
  Intake.handler w ev s =
    let id := orders_id_seq s in
    let drawn := {| committed := committed s; orders_id_seq := id + 1 |} in
    let wata_order_id := Intake.generate_order_id w (committed s) 0 9 in
    let order_number := Intake.order_number_of w wata_order_id in
    let conn :=
      Intake.insert_order id order_number (Intake.field members "user_name")
        (Intake.field members "user_email") (Intake.field members "user_phone")
        amount wata_order_id (Intake.field members "user_address")
        (Intake.field members "order_comment") (committed s) in
    match adapt_all (Intake.order_parameters_of w s members amount) with
    | Some e => (Raise e, s)
    | None =>
    match Intake.py_iter (default (JArray []) (assoc "cart_items" members)) with
    | Raise e => (Raise e, drawn)
    | Ok items =>
        match Intake.insert_items id items conn with
        | Raise e => (Raise e, drawn)
        | Ok conn' =>
            match encode_json (Intake.request_of w s members amount) with
            | Some e => (Raise e, drawn)
            | None =>
            match http_post w (Intake.WATA_API_URL +:+ "/links") token
                    (Intake.request_of w s members amount) with
            | Transport_failure => (Raise TransportError, drawn)
            | Response status_code text =>
                if negb (status_code =? 200) then
                  (Ok (Intake.error_response 500 ("WATA API error: " +:+ text)), drawn)
                else
                  match json_loads text with
                  | None => (Raise JSONDecodeError, drawn)
                  | Some (JObject answer) =>
                      let payment_url :=
                        py_or (default JNull (assoc "paymentUrl" answer))
                              (default JNull (assoc "url" answer)) in
                      let wata_transaction_id := default JNull (assoc "id" answer) in
                      if negb (truthy payment_url) then
                        (Ok (Intake.error_response 500 "Invalid response from WATA API"),
                         drawn)
                      else
                        match adapt_all [payment_url; wata_transaction_id] with
                        | Some e => (Raise e, drawn)
                        | None =>
                            (Ok (Intake.respond 200 (Dumps (JObject
                                   [ ("payment_url", payment_url);
                                     ("order_id", JInt id);
                                     ("order_number", JString order_number);
                                     ("wata_transaction_id", wata_transaction_id) ]))),
                             {| committed :=
                                  update_order (set_link payment_url wata_transaction_id)
                                    id conn';
                                orders_id_seq := id + 1 |})
                        end
                  | Some _ => (Raise AttributeError, drawn)
                  end
            end
            end
        end
    end
    end.
Proof.
  intros ((Hmethod & Htoken & Hne & Hjson) & Hamount & Hpos & Hname & Hemail & Hstore).
  unfold Intake.field in Hname, Hemail.
  unfold Intake.handler. rewrite Hmethod, Htoken.
  cbn [String.eqb Ascii.eqb Bool.eqb negb from_option id].
  apply String.eqb_neq in Hne, Hname, Hemail. rewrite Hne.
  unfold bind, lift, loads, dict_get, dict_get_default. rewrite Hjson, Hamount, Hpos.
  rewrite Hname, Hemail. cbn [orb].
  rewrite (store_reachable_connection w s Hstore).
  unfold Intake.nextval, Intake.request_of, Intake.order_parameters_of, Intake.field, execute.
  cbv zeta.
  match goal with
  | |- context [adapt_all (Intake.order_parameters ?a ?b ?c ?d ?e ?f ?g ?h)] =>
      destruct (adapt_all (Intake.order_parameters a b c d e f g h)) as [e0|]
  end; [reflexivity|].
  destruct (Intake.py_iter (default (JArray []) (assoc "cart_items" members)))
    as [items|e]; [|reflexivity].
  match goal with
  | |- context [Intake.insert_items ?id items ?conn] =>
      destruct (Intake.insert_items id items conn) as [conn'|e]
  end; [|reflexivity].
  match goal with
  | |- context [encode_json ?req] => destruct (encode_json req) as [e0|]
  end; [reflexivity|].
  match goal with
  | |- context [http_post w ?url token ?req] =>
      destruct (http_post w url token req) as [|status_code text]
  end; [reflexivity|].
  destruct (negb (status_code =? 200)); [reflexivity|].
  destruct (json_loads text) as [data|]; [|reflexivity].
  destruct data as [| | | | | |answer]; try reflexivity.
  match goal with
  | |- context [if negb (truthy ?v) then _ else _] => destruct (negb (truthy v))
  end; [reflexivity|].
  cbn [adapt_all adapt].
  match goal with
  | |- context [adapt ?v] => destruct (adapt v) as [e0|]
  end; [reflexivity|].
  match goal with
  | |- context [adapt ?v] => destruct (adapt v) as [e0|]
  end; reflexivity.
Qed.

(** The run of an admitted request whose order and cart are written
    and whose link request is encoded: what is left is the provider's
    answer. *)
Lemma intake_accepted `{PyRuntime} (w : world) (ev : event) (s : store) (token : string)
    (members : list (string * json)) (amount : float)
    (items : list (list (string * json))) :
  Intake.accepted w ev s token members amount items ->
  Intake.handler w ev s =
    let id := orders_id_seq s in
    let drawn := {| committed := committed s; orders_id_seq := id + 1 |} in
    let wata_order_id := Intake.generate_order_id w (committed s) 0 9 in
    let order_number := Intake.order_number_of w wata_order_id in
    let conn :=
      Intake.insert_order id order_number (Intake.field members "user_name")
        (Intake.field members "user_email") (Intake.field members "user_phone")
        amount wata_order_id (Intake.field members "user_address")
        (Intake.field members "order_comment") (committed s) in
    match http_post w (Intake.WATA_API_URL +:+ "/links") token
            (Intake.request_of w s members amount) with
    | Transport_failure => (Raise TransportError, drawn)
    | Response status_code text =>
        if negb (status_code =? 200) then
          (Ok (Intake.error_response 500 ("WATA API error: " +:+ text)), drawn)
        else
          match json_loads text with
          | None => (Raise JSONDecodeError, drawn)
          | Some (JObject answer) =>
              let payment_url :=
                py_or (default JNull (assoc "paymentUrl" answer))
                      (default JNull (assoc "url" answer)) in
              let wata_transaction_id := default JNull (assoc "id" answer) in
              if negb (truthy payment_url) then
                (Ok (Intake.error_response 500 "Invalid response from WATA API"), drawn)
              else
                match adapt_all [payment_url; wata_transaction_id] with
                | Some e => (Raise e, drawn)
                | None =>
                    (Ok (Intake.respond 200 (Dumps (JObject
                           [ ("payment_url", payment_url);
                             ("order_id", JInt id);
                             ("order_number", JString order_number);
                             ("wata_transaction_id", wata_transaction_id) ]))),
                     {| committed :=
                          update_order (set_link payment_url wata_transaction_id) id
                            {| orders := orders conn;
                               order_items :=
                                 order_items (committed s)
                                 ++ map (Intake.item_row id) items |};
                        orders_id_seq := id + 1 |})
                end
          | Some _ => (Raise AttributeError, drawn)
          end
    end.
Proof.
  intros [(Hadmitted & Horder & Hcart & Hitems) Hencode].
  rewrite (intake_admitted w ev s token members amount Hadmitted).
  cbv zeta. rewrite Horder, Hcart. cbn [Intake.py_iter].
  rewrite (insert_items_objects _ items _ Hitems), Hencode.
  reflexivity.
Qed.

(** C5 (amended). For a request that passed validation, whose order
    and cart the driver can write and whose link request can be
    encoded, when the provider answers the link request with a status
    other than 200 or with an object that holds no link, the handler
    answers 500 and the committed tables are exactly as before the
    request: the order and its items were inserted in a transaction
    that is never committed, so no row of the order exists afterwards
    (only the id sequence has advanced). *)
Theorem C5_failed_link_leaves_no_order `{PyRuntime} (w : world) (ev : event)
    (s : store) (token : string) (request_data : json) :
  Intake.validated w ev s token request_data ->
  Intake.no_link (http_post w (Intake.WATA_API_URL +:+ "/links") token request_data) ->
  exists r,
    fst (Intake.handler w ev s) = Ok r /\
    statusCode r = 500 /\
    committed (snd (Intake.handler w ev s)) = committed s /\
    orders_id_seq (snd (Intake.handler w ev s)) = orders_id_seq s + 1.
Proof.
  intros (members & amount & items & Haccepted & ->) Hfail.
  rewrite (intake_accepted w ev s token members amount items Haccepted). cbv zeta.
  destruct (http_post w (Intake.WATA_API_URL +:+ "/links") token
              (Intake.request_of w s members amount))
    as [|status_code text]; [contradiction|].
  simpl in Hfail. destruct Hfail as [Hstatus|(answer & Hanswer & Hlink)].
  - apply Z.eqb_neq in Hstatus. rewrite Hstatus. cbn [negb].
    eexists. simpl. eauto.
  - destruct (status_code =? 200); cbn [negb]; [|eexists; simpl; now eauto].
    rewrite Hanswer, Hlink. cbn [negb]. eexists. simpl. eauto.
Qed.

(** C7 (refuted by the code for the intake handler). A POST to the
    intake handler with the credential configured and a body that is
    not JSON is not answered with 400: [json.loads] is not guarded and
    its [JSONDecodeError] leaves the handler; the store is as it was.
    The webhook handler does guard it: after a signature that
    verifies, a body that is not JSON is answered with 400 and the
    store is as it was. *)
Theorem C7_unparsable_json_raises_in_intake `{PyRuntime} (w : world) :
  (forall (ev : event) (s : store) (token : string),
     upper (default "GET" (httpMethod ev)) = "POST" ->
     environ w !! "WATA_API_TOKEN" = Some token ->
     token <> "" ->
     json_loads (default "{}" (body ev)) = None ->
     Intake.handler w ev s = (Raise JSONDecodeError, s))
  /\
  (forall (ev : event) (p p' : process) (payload : string),
     upper (default "GET" (httpMethod ev)) <> "OPTIONS" ->
     request_body ev = Ok payload ->
     verify_webhook_signature w payload (get_signature (default ∅ (headers ev))) p
       = (Ok true, p') ->
     json_loads payload = None ->
     handler w ev p = (Ok (error_response 400 "Invalid JSON"), p') /\
     db p' = db p).
Proof.
  split.
  - intros ev s token Hmethod Htoken Hne Hjson.
    unfold Intake.handler. rewrite Hmethod, Htoken.
    cbn [String.eqb Ascii.eqb Bool.eqb negb from_option id].
    apply String.eqb_neq in Hne. rewrite Hne.
    unfold bind, lift, loads. now rewrite Hjson.
  - intros ev p p' payload Hmethod Hbody Hverify Hjson.
    split; [|now apply verify_webhook_signature_db in Hverify].
    unfold handler. apply String.eqb_neq in Hmethod. rewrite Hmethod.
    unfold bind, lift. rewrite Hbody, Hverify. simpl. now rewrite Hjson.
Qed.

(** ** Further properties of the webhook handler *)

(** X1. A verified callback whose status is neither a success nor a
    failure word is answered with 200 and the store is as it was. *)
Theorem X1_unrecognized_status_is_ignored `{PyRuntime} (w : world) (ev : event)
    (p p' : process) (wata_id id : Z) (st : string) :
  callback_for w ev p p' wata_id is_unrecognized ->
  select_order wata_id (committed (db p)) = Some (id, st) ->
  handler w ev p = (Ok ok_response, p') /\ db p' = db p.
Proof.
  intros (Hstore & data & Hdel & Hnames & s & Hstatus & Hclass) Hsel.
  apply handler_delivered in Hdel as [-> Hdb]. split; [|exact Hdb].
  rewrite (resolve_order_named w data p' wata_id Hstore Hnames).
  rewrite Hdb, Hsel, Hstatus. unfold is_unrecognized in Hclass.
  apply andb_true_iff in Hclass as [Hs Hf].
  apply negb_true_iff in Hs, Hf. now rewrite Hs, Hf.
Qed.

(** X2. A delivery whose signature does not verify is answered with
    401 and the store is as it was. *)
Theorem X2_unverified_delivery_is_refused `{PyRuntime} (w : world) (ev : event)
    (p p' : process) (payload : string) :
  upper (default "GET" (httpMethod ev)) <> "OPTIONS" ->
  request_body ev = Ok payload ->
  verify_webhook_signature w payload (get_signature (default ∅ (headers ev))) p
    = (Ok false, p') ->
  handler w ev p = (Ok (error_response 401 "Invalid signature"), p') /\
  db p' = db p.
Proof.
  intros Hmethod Hbody Hverify.
  split; [|now apply verify_webhook_signature_db in Hverify].
  unfold handler. apply String.eqb_neq in Hmethod. rewrite Hmethod.
  unfold bind, lift. now rewrite Hbody, Hverify.
Qed.

(** X3. The key cache: a cached key is returned without a request,
    whatever the world; with no key cached, a 200 answer that is an
    object with a truthy [value] is returned and cached; a status
    other than 200 returns [None] and caches nothing. *)
Theorem X3_public_key_cache `{PyRuntime} (w : world) (p : process) :
  (truthy (public_key_cache p) = true ->
   get_wata_public_key w p = (Ok (public_key_cache p), p))
  /\
  (forall text members key,
     truthy (public_key_cache p) = false ->
     http_get w (public_key_url w) = Response 200 text ->
     json_loads text = Some (JObject members) ->
     assoc "value" members = Some key ->
     truthy key = true ->
     get_wata_public_key w p
     = (Ok key, {| public_key_cache := key; db := db p |}))
  /\
  (forall status_code text,
     truthy (public_key_cache p) = false ->
     http_get w (public_key_url w) = Response status_code text ->
     status_code <> 200 ->
     get_wata_public_key w p = (Ok JNull, p)).
Proof.
  unfold get_wata_public_key; unfold_calls. split; [|split].
  - now intros ->.
  - intros text members key -> -> Hjson Hvalue Hkey.
    cbn [negb Z.eqb Pos.eqb]. rewrite Hjson, Hvalue.
    cbn [from_option id]. now rewrite Hkey.
  - intros status_code text -> -> Hstatus. apply Z.eqb_neq in Hstatus.
    now rewrite Hstatus.
Qed.

(** ** The webhook handler on every input *)

Lemma get_wata_public_key_cache `{PyRuntime} (w : world) (p : process) :
  cache_kept p (snd (get_wata_public_key w p)).
Proof.
  unfold cache_kept, get_wata_public_key; unfold_calls.
  destruct (truthy (public_key_cache p)) eqn:Hcache; [now left|].
  destruct (http_get w (public_key_url w)) as [|status_code text]; [now left|].
  destruct (negb (status_code =? 200)); [now left|].
  destruct (json_loads text) as [data|]; [|now left].
  destruct data as [| | | | |items|members]; try (now left).
  destruct (truthy (default JNull (assoc "value" members))) eqn:Hv; simpl; auto.
Qed.

Lemma verify_webhook_signature_cache `{PyRuntime} (w : world) (payload signature : string)
    (p : process) :
  cache_kept p (snd (verify_webhook_signature w payload signature p)).
Proof.
  pose proof (get_wata_public_key_cache w p) as Hk.
  unfold verify_webhook_signature, bind.
  destruct (get_wata_public_key w p) as [[v|e] p1]; [|exact Hk].
  destruct (negb (truthy v)); [exact Hk|].
  destruct (load_key v); [|exact Hk].
  now destruct (b64decode signature).
Qed.

(** Every run of the handler: the cache is kept, the sequence is not
    drawn from, a response is one of the six, and the tables are as
    before or the response is [ok] after one [UPDATE] by row id. *)
Lemma handler_outcome `{PyRuntime} (w : world) (ev : event) (p : process) :
  let r := fst (handler w ev p) in
  let p' := snd (handler w ev p) in
  cache_kept p p' /\
  orders_id_seq (db p') = orders_id_seq (db p) /\
  match r with Ok x => In x responses | Raise _ => True end /\
  (committed (db p') = committed (db p) \/
   r = Ok ok_response /\
   exists id,
     committed (db p') = update_order (set_paid (CURRENT_TIMESTAMP w)) id (committed (db p)) \/
     committed (db p') = update_order (set_failed (CURRENT_TIMESTAMP w)) id (committed (db p))).
Proof.
  cbv zeta. remember (handler w ev p) as h eqn:Hh.
  unfold handler, responses in *.
  destruct (String.eqb (upper (default "GET" (httpMethod ev))) "OPTIONS").
  { subst h. simpl. unfold cache_kept. tauto. }
  unfold bind at 1 in Hh. unfold lift at 1 in Hh. cbv beta in Hh.
  destruct (request_body ev) as [payload|e].
  2:{ subst h. simpl. unfold cache_kept. tauto. }
  unfold bind at 1 in Hh. cbv beta in Hh.
  pose proof (verify_webhook_signature_cache w payload
                (get_signature (default ∅ (headers ev))) p) as Hcache.
  destruct (verify_webhook_signature w payload
              (get_signature (default ∅ (headers ev))) p) as [[verified|e] p1] eqn:Hverify.
  2:{ apply verify_webhook_signature_db in Hverify. subst h. simpl in *.
      rewrite Hverify. tauto. }
  apply verify_webhook_signature_db in Hverify. simpl in Hcache.
  destruct verified; cbn [negb] in Hh.
  2:{ subst h. simpl. rewrite Hverify. tauto. }
  destruct (json_loads payload) as [data|].
  2:{ subst h. simpl. rewrite Hverify. tauto. }
  unfold bind at 1 in Hh. unfold lift at 1 in Hh. cbv beta in Hh.
  destruct (parse_webhook_data data) as [parsed|e].
  2:{ subst h. simpl. rewrite Hverify. tauto. }
  unfold resolve_order in Hh.
  destruct (negb (truthy (order_id parsed))).
  { subst h. simpl. rewrite Hverify. tauto. }
  unfold_calls. cbv beta in Hh.
  destruct (get_db_connection w (db p1)) as [conn|e] eqn:Hconn.
  2:{ subst h. simpl. rewrite Hverify. tauto. }
  assert (conn = committed (db p)) as ->.
  { unfold get_db_connection in Hconn. rewrite Hverify in Hconn.
    destruct (environ w !! "DATABASE_URL") as [dsn|]; [|discriminate].
    destruct (String.eqb dsn ""); [discriminate|].
    destruct (db_connect w dsn); now inversion Hconn. }
  destruct (py_int (order_id parsed)) as [wata_id|e].
  2:{ subst h. simpl. rewrite Hverify. tauto. }
  destruct (select_order wata_id (committed (db p))) as [[id current_status]|].
  2:{ subst h. simpl. rewrite Hverify. tauto. }
  destruct (normalized_status (status parsed)) as [s|e].
  2:{ subst h. simpl. rewrite Hverify. tauto. }
  destruct (is_success s).
  { destruct (String.eqb current_status "paid"); subst h; simpl; rewrite ?Hverify.
    - tauto.
    - repeat split; auto 10. right. split; [reflexivity|]. exists id. now left. }
  destruct (is_failure s); subst h; simpl; rewrite ?Hverify.
  - repeat split; auto 10. right. split; [reflexivity|]. exists id. now right.
  - tauto.
Qed.

Lemma store_ext (s s' : store) :
  committed s' = committed s -> orders_id_seq s' = orders_id_seq s -> s' = s.
Proof. destruct s, s'. simpl. now intros -> ->. Qed.

Lemma rows_unchanged (now : Z) (rows : list order) :
  Forall2 (row_step now) rows rows.
Proof. induction rows; constructor; auto. now left. Qed.

(** X4. Whenever the webhook handler returns, its response is one of
    six: the empty 200 of the preflight, 401 for a signature that does
    not verify, 400 for a body that is not JSON or names no order, 404
    for an unknown order, and the 200 [ok]. All carry the CORS
    headers. *)
Theorem X4_webhook_responses `{PyRuntime} (w : world) (ev : event) (p : process)
    (r : response) :
  fst (handler w ev p) = Ok r ->
  In r responses /\
  In (statusCode r) [200; 400; 401; 404] /\
  response_headers r = HEADERS.
Proof.
  intros Hr. destruct (handler_outcome w ev p) as (_ & _ & Hin & _).
  rewrite Hr in Hin. split; [exact Hin|].
  unfold responses in Hin. simpl in Hin.
  destruct Hin as [<-|[<-|[<-|[<-|[<-|[<-|[]]]]]]]; simpl; tauto.
Qed.

(** X5. Whatever the delivery and however the handler ends, by a
    response or by an exception, it adds no row and removes none, and
    leaves the order items and the id sequence alone; each order row
    is as before, or as the success [UPDATE] or the failure [UPDATE]
    leaves it. The store changes at all only when the answer is the
    200 [ok]. *)
Theorem X5_webhook_store_frame `{PyRuntime} (w : world) (ev : event) (p : process) :
  let p' := snd (handler w ev p) in
  order_items (committed (db p')) = order_items (committed (db p)) /\
  orders_id_seq (db p') = orders_id_seq (db p) /\
  Forall2 (row_step (CURRENT_TIMESTAMP w))
    (orders (committed (db p))) (orders (committed (db p'))) /\
  (fst (handler w ev p) <> Ok ok_response -> db p' = db p).
Proof.
  cbv zeta. destruct (handler_outcome w ev p) as (_ & Hseq & _ & Hdb).
  split; [|split; [exact Hseq|split]].
  - destruct Hdb as [->|(_ & id & [-> | ->])]; reflexivity.
  - destruct Hdb as [->|(_ & id & [-> | ->])].
    + apply rows_unchanged.
    + apply update_order_rows; intros; [now left|right; now left].
    + apply update_order_rows; intros; [now left|right; now right].
  - intros Hr. destruct Hdb as [Hsame|(Hok & _)]; [|contradiction].
    now apply store_ext.
Qed.

(** X6. The handler never clears the key cache and never replaces a
    cached key: after any delivery the cache holds what it held, or it
    was empty and now holds a key. *)
Theorem X6_webhook_cache_kept `{PyRuntime} (w : world) (ev : event) (p : process) :
  cache_kept p (snd (handler w ev p)) /\
  (truthy (public_key_cache p) = true ->
   public_key_cache (snd (handler w ev p)) = public_key_cache p).
Proof.
  destruct (handler_outcome w ev p) as (Hcache & _). split; [exact Hcache|].
  intros Hwarm. destruct Hcache as [Hsame|[Hcold _]]; [exact Hsame|congruence].
Qed.

(** X7. The verifier raises exactly when no key is cached and the key
    request fails in transport or is answered 200 with a body that is
    not a JSON object; the exception is then that of the request and
    the process is as before. In particular, with a key cached the
    verifier always returns a boolean and asks nothing of the
    network. *)
Theorem X7_verifier_raises_iff `{PyRuntime} (w : world) (payload signature : string)
    (p : process) :
  (forall e,
     fst (verify_webhook_signature w payload signature p) = Raise e <->
     truthy (public_key_cache p) = false /\ fetch_raises w e) /\
  (forall e,
     fst (verify_webhook_signature w payload signature p) = Raise e ->
     snd (verify_webhook_signature w payload signature p) = p) /\
  (truthy (public_key_cache p) = true ->
   exists b, verify_webhook_signature w payload signature p = (Ok b, p)).
Proof.
  unfold verify_webhook_signature, get_wata_public_key, fetch_raises; unfold_calls.
  destruct (truthy (public_key_cache p)) eqn:Hcache.
  - rewrite Hcache. cbn [negb].
    destruct (load_key (public_key_cache p));
      [destruct (b64decode signature)|]; simpl;
      (split; [intros e0; split; [discriminate|intros [[=] _]]|]);
      (split; [discriminate|eauto]).
  - split; [|split; [|discriminate]].
    + intros e. destruct (http_get w (public_key_url w)) as [|status_code text].
      { simpl. split; [intros [= <-]; auto|intros [_ ->]; reflexivity]. }
      destruct (Z.eqb_spec status_code 200) as [->|Hne]; cbn [negb].
      2:{ simpl. split; [discriminate|intros [_ [? _]]; contradiction]. }
      destruct (json_loads text) as [data|].
      2:{ simpl. split; [intros [= <-]; auto|intros [_ [_ ->]]; reflexivity]. }
      destruct data as [| | | | |items|members]; simpl;
        try (split; [intros [= <-]; auto|intros [_ [_ ->]]; reflexivity]).
      destruct (truthy (default JNull (assoc "value" members))) eqn:Hv; simpl.
      * rewrite Hv. simpl.
        destruct (load_key (default JNull (assoc "value" members)));
          [destruct (b64decode signature)|]; simpl;
          (split; [discriminate|intros [_ [_ []]]]).
      * split; [discriminate|intros [_ [_ []]]].
    + intros e. destruct (http_get w (public_key_url w)) as [|status_code text];
        [reflexivity|].
      destruct (negb (status_code =? 200)); [discriminate|].
      destruct (json_loads text) as [data|]; [|reflexivity].
      destruct data as [| | | | |items|members]; try reflexivity.
      destruct (truthy (default JNull (assoc "value" members))) eqn:Hv; simpl.
      * rewrite Hv. simpl.
        destruct (load_key (default JNull (assoc "value" members)));
          [destruct (b64decode signature)|]; discriminate.
      * discriminate.
Qed.

(** X8. A verified callback that names no order ([orderId] absent,
    [null], empty, zero or otherwise falsy) is answered with 400 before
    the store is asked: the answer does not depend on the store being
    reachable, and the store is as it was. *)
Theorem X8_missing_order_id_is_bad_request `{PyRuntime} (w : world) (ev : event)
    (p p' : process) (data : webhook_data) :
  delivered w ev p p' data ->
  truthy (order_id data) = false ->
  handler w ev p = (Ok (error_response 400 "Missing order_id"), p') /\
  db p' = db p.
Proof.
  intros Hdel Hid. apply handler_delivered in Hdel as [-> Hdb]. split; [|exact Hdb].
  unfold resolve_order. now rewrite Hid.
Qed.

(** X9. A verified success callback for an order whose status is not
    [paid] (pending, or failed by an earlier callback) is answered 200
    and marks the order paid: the row found by the provider id has
    status [paid] and both [paid_at] and [updated_at] at the current
    timestamp; rows with another id are as they were. *)
Theorem X9_success_callback_pays `{PyRuntime} (w : world) (ev : event)
    (p p' : process) (wata_id id : Z) (st : string) :
  callback_for w ev p p' wata_id is_success ->
  select_order wata_id (committed (db p)) = Some (id, st) ->
  st <> "paid" ->
  let after := committed (db (snd (handler w ev p))) in
  fst (handler w ev p) = Ok ok_response /\
  (exists o,
     find_order wata_id after = Some o /\
     o_id o = id /\
     o_status o = "paid" /\
     o_paid_at o = Some (CURRENT_TIMESTAMP w) /\
     o_updated_at o = Some (CURRENT_TIMESTAMP w)) /\
  Forall2 (fun o o' => o_id o <> id -> o' = o) (orders (committed (db p))) (orders after).
Proof.
  intros Hcb Hsel Hst after. subst after.
  destruct (success_callback_applied w ev p p' wata_id id st Hcb Hsel) as [-> Hdb].
  apply String.eqb_neq in Hst. rewrite Hst. simpl. split; [reflexivity|]. split.
  - destruct (select_order_update (set_paid (CURRENT_TIMESTAMP w)) wata_id id st
                (committed (db p))) as (o & Hfind & Hfind' & _); auto.
    apply select_order_find in Hsel as (o1 & Hfind1 & Hid & _).
    rewrite Hfind in Hfind1. injection Hfind1 as <-.
    exists (set_paid (CURRENT_TIMESTAMP w) o). auto.
  - apply update_order_rows; [auto|]. intros o Hid Hne. contradiction.
Qed.

(** X10. The body of a delivery flagged [isBase64Encoded] is decoded
    outside any [try]: when the decoding fails, or the decoded bytes
    are not UTF-8, the handler raises before verifying anything and
    the process is as it was. *)
Theorem X10_undecodable_body_raises `{PyRuntime} (w : world) (ev : event) (p : process) :
  upper (default "GET" (httpMethod ev)) <> "OPTIONS" ->
  isBase64Encoded ev = Some true ->
  (forall e,
     b64decode (default "" (body ev)) = Raise e ->
     handler w ev p = (Raise e, p)) /\
  (forall bs,
     b64decode (default "" (body ev)) = Ok bs ->
     utf8_valid bs = false ->
     handler w ev p = (Raise UnicodeDecodeError, p)).
Proof.
  intros Hmethod Hflag. apply String.eqb_neq in Hmethod.
  unfold handler, request_body, decode_utf8, bind, lift. rewrite Hmethod, Hflag.
  cbn [from_option id]. split.
  - now intros e ->.
  - now intros bs -> ->.
Qed.

(** X11. A verified delivery whose body is JSON but not an object (an
    array, a string, a number, [null]) is not answered: the handler
    raises [AttributeError], and the store is as it was. *)
Theorem X11_non_object_body_raises `{PyRuntime} (w : world) (ev : event)
    (p p' : process) (payload : string) (document : json) :
  upper (default "GET" (httpMethod ev)) <> "OPTIONS" ->
  request_body ev = Ok payload ->
  verify_webhook_signature w payload (get_signature (default ∅ (headers ev))) p
    = (Ok true, p') ->
  json_loads payload = Some document ->
  (forall members, document <> JObject members) ->
  handler w ev p = (Raise AttributeError, p') /\ db p' = db p.
Proof.
  intros Hmethod Hbody Hverify Hjson Hshape.
  split; [|now apply verify_webhook_signature_db in Hverify].
  unfold handler. apply String.eqb_neq in Hmethod. rewrite Hmethod.
  unfold bind, lift. rewrite Hbody, Hverify. simpl. rewrite Hjson.
  destruct document; try reflexivity. now destruct (Hshape members).
Qed.

(** X12. A verified callback that names an order is not answered when
    the store cannot be opened: the handler raises [ValueError] when
    [DATABASE_URL] is unset or empty and [OperationalError] when the
    connection fails, before the order id is even converted. *)
Theorem X12_unreachable_store_raises `{PyRuntime} (w : world) (ev : event)
    (p p' : process) (data : webhook_data) :
  delivered w ev p p' data ->
  truthy (order_id data) = true ->
  (default "" (environ w !! "DATABASE_URL") = "" ->
   handler w ev p = (Raise ValueError, p')) /\
  (forall dsn,
     environ w !! "DATABASE_URL" = Some dsn ->
     dsn <> "" ->
     db_connect w dsn = false ->
     handler w ev p = (Raise OperationalError, p')).
Proof.
  intros Hdel Hid. apply handler_delivered in Hdel as [-> Hdb].
  unfold resolve_order, get_db_connection. rewrite Hid. cbn [negb]. unfold_calls.
  split.
  - destruct (environ w !! "DATABASE_URL") as [dsn|]; [|reflexivity].
    cbn [from_option id]. now intros ->.
  - intros dsn -> Hne Hconn. apply String.eqb_neq in Hne. now rewrite Hne, Hconn.
Qed.

(** ** The intake handler on every input *)

Lemma get_db_connection_committed (w : world) (s : store) (conn : tables) :
  get_db_connection w s = Ok conn -> conn = committed s.
Proof.
  unfold get_db_connection.
  destruct (environ w !! "DATABASE_URL") as [dsn|]; [|discriminate].
  destruct (String.eqb dsn ""); [discriminate|].
  destruct (db_connect w dsn); now intros [=].
Qed.

(** The cart items are written all or none, each as its row, and the
    orders are not touched. *)
Lemma insert_items_rows `{PyRuntime} (order_id : Z) (items : list json)
    (conn conn' : tables) :
  Intake.insert_items order_id items conn = Ok conn' ->
  orders conn' = orders conn /\
  exists objects,
    items = map JObject objects /\
    order_items conn' = order_items conn ++ map (Intake.item_row order_id) objects.
Proof.
  revert conn. induction items as [|item rest IH]; intros conn; simpl.
  - intros [= <-]. split; [reflexivity|]. exists []. now rewrite app_nil_r.
  - destruct item as [| | | | | |members]; simpl; try discriminate.
    destruct (execute (JInt order_id :: Intake.item_values members)); [|discriminate].
    intros Hrest. apply IH in Hrest as (Horders & objects & -> & Hitems).
    split; [exact Horders|]. exists (members :: objects). split; [reflexivity|].
    rewrite Hitems. simpl. now rewrite <- app_assoc.
Qed.

Lemma update_order_length (set : order -> order) (id : Z) (t : tables) :
  List.length (orders (update_order set id t)) = List.length (orders t).
Proof. unfold update_order. simpl. apply length_map. Qed.

(** Every run of the intake handler: it draws at most one id; a
    response carries one of four status codes and the CORS headers;
    and the committed tables are as before unless the response is a
    200, in which case exactly one order row was added, with the id
    drawn from the sequence. *)
Lemma intake_outcome `{PyRuntime} (w : world) (ev : event) (s : store) :
  let r := fst (Intake.handler w ev s) in
  let s' := snd (Intake.handler w ev s) in
  (orders_id_seq s' = orders_id_seq s \/ orders_id_seq s' = orders_id_seq s + 1) /\
  match r with
  | Ok x => In (statusCode x) Intake.statuses /\ response_headers x = Intake.HEADERS
  | Raise _ => True
  end /\
  (s' = s \/
   committed s' = committed s /\ orders_id_seq s' = orders_id_seq s + 1 \/
   (exists x, r = Ok x /\ statusCode x = 200) /\
   orders_id_seq s' = orders_id_seq s + 1 /\
   map o_id (orders (committed s')) = map o_id (orders (committed s)) ++ [orders_id_seq s]).
Proof.
  cbv zeta. remember (Intake.handler w ev s) as h eqn:Hh.
  unfold Intake.handler, Intake.statuses in Hh |- *.
  destruct (String.eqb (upper (default "GET" (httpMethod ev))) "OPTIONS");
    [subst h; simpl; tauto|].
  destruct (negb (String.eqb (upper (default "GET" (httpMethod ev))) "POST"));
    [subst h; simpl; tauto|].
  destruct (String.eqb (default "" (environ w !! "WATA_API_TOKEN")) "");
    [subst h; simpl; tauto|].
  unfold bind, lift, loads, dict_get, dict_get_default in Hh.
  destruct (json_loads (default "{}" (body ev))) as [payload|];
    [|subst h; simpl; tauto].
  destruct payload as [| | | | | |members]; try (subst h; simpl; tauto).
  destruct (Intake.py_float (default (JInt 0) (assoc "amount" members))) as [amount|e];
    [|subst h; simpl; tauto].
  destruct (PrimFloat.leb amount 0%float); [subst h; simpl; tauto|].
  match type of Hh with
  | context [if ?c then ret (Intake.error_response 400 _) else _] => destruct c
  end; [subst h; simpl; tauto|].
  destruct (get_db_connection w s) as [conn|e] eqn:Hconn; [|subst h; simpl; tauto].
  apply get_db_connection_committed in Hconn. subst conn.
  unfold Intake.nextval in Hh.
  match type of Hh with
  | context [execute ?params] => destruct (execute params) as [written|e]
  end; [|subst h; simpl; tauto].
  match type of Hh with
  | context [Intake.py_iter ?c] => destruct (Intake.py_iter c) as [items|e]
  end; [|subst h; simpl; tauto].
  match type of Hh with
  | context [Intake.insert_items ?id items ?c] =>
      destruct (Intake.insert_items id items c) as [conn'|e] eqn:Hitems
  end; [|subst h; simpl; tauto].
  apply insert_items_rows in Hitems as [Horders _].
  match type of Hh with
  | context [encode_json ?req] => destruct (encode_json req) as [e|]
  end; [subst h; simpl; tauto|].
  match type of Hh with
  | context [http_post w ?url ?token ?req] =>
      destruct (http_post w url token req) as [|status_code text]
  end; [subst h; simpl; tauto|].
  destruct (negb (status_code =? 200)); [subst h; simpl; tauto|].
  destruct (json_loads text) as [data|]; [|subst h; simpl; tauto].
  destruct data as [| | | | | |answer]; try (subst h; simpl; tauto).
  match type of Hh with
  | context [if negb (truthy ?v) then _ else _] => destruct (negb (truthy v))
  end; [subst h; simpl; tauto|].
  match type of Hh with
  | context [execute ?params] => destruct (execute params) as [linked|e]
  end; [|subst h; simpl; tauto].
  subst h. unfold Intake.commit. simpl. split; [tauto|]. split; [tauto|].
  right. right. split; [eauto|]. split; [reflexivity|].
  rewrite map_map, Horders. simpl. rewrite map_app. simpl.
  rewrite Z.eqb_refl. simpl. f_equal.
  apply map_ext. intros o. now destruct (o_id o =? orders_id_seq s).
Qed.

(** X13. Whenever the intake handler returns, the status of its
    response is 200, 400, 405 or 500 and the response carries the
    CORS headers. *)
Theorem X13_intake_responses `{PyRuntime} (w : world) (ev : event) (s : store)
    (r : response) :
  fst (Intake.handler w ev s) = Ok r ->
  In (statusCode r) Intake.statuses /\ response_headers r = Intake.HEADERS.
Proof.
  intros Hr. destruct (intake_outcome w ev s) as (_ & Hin & _).
  now rewrite Hr in Hin.
Qed.

(** X14. The intake handler stores an order entirely or not at all:
    whatever the request and however the handler ends, by a response
    or by an exception, the committed tables are exactly as before,
    unless the response is a 200, and then exactly one order row was
    added, whose id is the value drawn from the sequence. The sequence
    advances by at most one. *)
Theorem X14_intake_all_or_nothing `{PyRuntime} (w : world) (ev : event) (s : store) :
  let s' := snd (Intake.handler w ev s) in
  (committed s' = committed s \/
   (exists r, fst (Intake.handler w ev s) = Ok r /\ statusCode r = 200) /\
   map o_id (orders (committed s')) = map o_id (orders (committed s)) ++ [orders_id_seq s]) /\
  (orders_id_seq s' = orders_id_seq s \/ orders_id_seq s' = orders_id_seq s + 1).
Proof.
  cbv zeta. destruct (intake_outcome w ev s) as (Hseq & _ & Hdb).
  split; [|exact Hseq].
  destruct Hdb as [->|[[Hsame _]|(Hok & _ & Hids)]]; auto.
Qed.

(** X15. The order in which the intake handler turns a request down,
    each time with the store untouched: a preflight is answered 200
    whatever else the request holds; any method but POST is answered
    405; a POST without the provider credential is answered 500 before
    its body is read; a posted object whose amount is not above zero
    is answered 400; one whose amount is above zero and whose name or
    email is empty is answered 400. *)
Theorem X15_intake_rejections `{PyRuntime} (w : world) (ev : event) (s : store) :
  let method := upper (default "GET" (httpMethod ev)) in
  (method = "OPTIONS" ->
   Intake.handler w ev s = (Ok (Intake.respond 200 Empty_body), s)) /\
  (method <> "OPTIONS" -> method <> "POST" ->
   Intake.handler w ev s = (Ok (Intake.error_response 405 "Method not allowed"), s)) /\
  (method = "POST" -> default "" (environ w !! "WATA_API_TOKEN") = "" ->
   Intake.handler w ev s
   = (Ok (Intake.error_response 500 "WATA credentials not configured"), s)) /\
  (forall token members amount,
     Intake.posted w ev token members ->
     Intake.py_float (default (JInt 0) (assoc "amount" members)) = Ok amount ->
     (PrimFloat.leb amount 0%float = true ->
      Intake.handler w ev s
      = (Ok (Intake.error_response 400 "Amount must be greater than 0"), s)) /\
     (PrimFloat.leb amount 0%float = false ->
      Intake.field members "user_name" = "" \/ Intake.field members "user_email" = "" ->
      Intake.handler w ev s
      = (Ok (Intake.error_response 400 "user_name and user_email required"), s))).
Proof.
  cbv zeta. unfold Intake.handler.
  split; [|split; [|split; [|intros token members amount
                                (Hmethod & Htoken & Hne & Hjson) Hamount; split]]].
  - now intros ->.
  - intros Hopt Hpost. apply String.eqb_neq in Hopt, Hpost. now rewrite Hopt, Hpost.
  - intros -> Htoken. cbn [String.eqb Ascii.eqb Bool.eqb negb]. now rewrite Htoken.
  - intros Hle.
    rewrite Hmethod, Htoken. cbn [String.eqb Ascii.eqb Bool.eqb negb from_option id].
    apply String.eqb_neq in Hne. rewrite Hne.
    unfold bind, lift, loads, dict_get_default. now rewrite Hjson, Hamount, Hle.
  - intros Hle Hempty.
    rewrite Hmethod, Htoken. cbn [String.eqb Ascii.eqb Bool.eqb negb from_option id].
    apply String.eqb_neq in Hne. rewrite Hne.
    unfold bind, lift, loads, dict_get_default. rewrite Hjson, Hamount, Hle.
    unfold Intake.field in Hempty.
    destruct Hempty as [-> | ->]; cbn [String.eqb orb]; [reflexivity|].
    now rewrite orb_true_r.
Qed.

Lemma update_order_other (set : order -> order) (id : Z) (rows : list order) :
  Forall (fun o => o_id o <> id) rows ->
  map (fun o => if o_id o =? id then set o else o) rows = rows.
Proof.
  induction 1 as [|o rows Ho _ IH]; simpl; [reflexivity|].
  apply Z.eqb_neq in Ho. now rewrite Ho, IH.
Qed.

(** The run of an accepted request to which the provider answers 200
    with a link that the driver adapts: the order row is inserted,
    then the cart, then the link is written to the row with the id
    drawn, and all of it is committed. *)
Lemma intake_accepted_run `{PyRuntime} (w : world) (ev : event) (s : store)
    (token text : string) (members answer : list (string * json)) (amount : float)
    (items : list (list (string * json))) :
  Intake.accepted w ev s token members amount items ->
  http_post w (Intake.WATA_API_URL +:+ "/links") token (Intake.request_of w s members amount)
    = Response 200 text ->
  json_loads text = Some (JObject answer) ->
  let payment_url :=
    py_or (default JNull (assoc "paymentUrl" answer)) (default JNull (assoc "url" answer)) in
  let wata_transaction_id := default JNull (assoc "id" answer) in
  let wata_order_id := Intake.generate_order_id w (committed s) 0 9 in
  let order_number := Intake.order_number_of w wata_order_id in
  let id := orders_id_seq s in
  truthy payment_url = true ->
  adapt_all [payment_url; wata_transaction_id] = None ->
  Intake.handler w ev s =
    (Ok (Intake.respond 200 (Dumps (JObject
           [ ("payment_url", payment_url);
             ("order_id", JInt id);
             ("order_number", JString order_number);
             ("wata_transaction_id", wata_transaction_id) ]))),
     {| committed :=
          update_order (set_link payment_url wata_transaction_id) id
            {| orders :=
                 orders (Intake.insert_order id order_number
                           (Intake.field members "user_name")
                           (Intake.field members "user_email")
                           (Intake.field members "user_phone")
                           amount wata_order_id
                           (Intake.field members "user_address")
                           (Intake.field members "order_comment") (committed s));
               order_items :=
                 order_items (committed s) ++ map (Intake.item_row id) items |};
        orders_id_seq := id + 1 |}).
Proof.
  intros Haccepted Hpost Hjson payment_url wata_transaction_id
    wata_order_id order_number id Hurl Hlink.
  rewrite (intake_accepted w ev s token members amount items Haccepted).
  cbv zeta. rewrite Hpost. cbn [Z.eqb Pos.eqb negb]. rewrite Hjson.
  fold payment_url wata_transaction_id wata_order_id. now rewrite Hurl, Hlink.
Qed.

(** Writing to the row with the id [id], when it is the last row and
    the rows before it have other ids. *)
Lemma update_order_appended (set : order -> order) (id : Z) (rows : list order) (o : order)
    (items : list order_item) :
  Forall (fun x => o_id x <> id) rows ->
  o_id o = id ->
  update_order set id {| orders := rows ++ [o]; order_items := items |}
  = {| orders := rows ++ [set o]; order_items := items |}.
Proof.
  intros Hrows Hid. unfold update_order. cbn [orders order_items].
  rewrite map_app, (update_order_other set id rows Hrows). cbn [map].
  apply Z.eqb_eq in Hid. now rewrite Hid.
Qed.

Lemma ids_fresh_other (s : store) :
  ids_fresh s -> Forall (fun x => o_id x <> orders_id_seq s) (orders (committed s)).
Proof.
  intros [_ Hbelow]. eapply List.Forall_impl; [|exact Hbelow]. simpl. intros o Ho. lia.
Qed.

(** X16. An accepted request (it passes validation, the driver adapts
    the parameters of its order row and of its item rows, and the
    link request can be encoded) to which the provider answers 200
    with a link that the driver adapts, on a store whose ids are below
    its sequence: the response is 200 with the link, the id drawn from
    the sequence, the order number and the provider's transaction id;
    the committed tables are the former ones with one order row
    appended, [pending], carrying the fields of the request, the
    generated provider order id and the link, and with one item row
    per cart item; the sequence has advanced by one. *)
Theorem X16_intake_stores_the_order `{PyRuntime} (w : world) (ev : event) (s : store)
    (token text : string) (members answer : list (string * json)) (amount : float)
    (items : list (list (string * json))) :
  Intake.accepted w ev s token members amount items ->
  ids_fresh s ->
  http_post w (Intake.WATA_API_URL +:+ "/links") token (Intake.request_of w s members amount)
    = Response 200 text ->
  json_loads text = Some (JObject answer) ->
  let payment_url :=
    py_or (default JNull (assoc "paymentUrl" answer)) (default JNull (assoc "url" answer)) in
  let wata_transaction_id := default JNull (assoc "id" answer) in
  let wata_order_id := Intake.generate_order_id w (committed s) 0 9 in
  let s' := snd (Intake.handler w ev s) in
  truthy payment_url = true ->
  adapt_all [payment_url; wata_transaction_id] = None ->
  fst (Intake.handler w ev s)
  = Ok (Intake.respond 200 (Dumps (JObject
          [ ("payment_url", payment_url);
            ("order_id", JInt (orders_id_seq s));
            ("order_number", JString (Intake.order_number_of w wata_order_id));
            ("wata_transaction_id", wata_transaction_id) ]))) /\
  orders_id_seq s' = orders_id_seq s + 1 /\
  order_items (committed s')
  = order_items (committed s) ++ map (Intake.item_row (orders_id_seq s)) items /\
  exists o,
    orders (committed s') = orders (committed s) ++ [o] /\
    o_id o = orders_id_seq s /\
    o_wata_order_id o = wata_order_id /\
    o_order_number o = Intake.order_number_of w wata_order_id /\
    o_status o = "pending" /\
    o_payment_url o = payment_url /\
    o_wata_transaction_id o = wata_transaction_id /\
    o_user_name o = Intake.field members "user_name" /\
    o_user_email o = Intake.field members "user_email" /\
    o_user_phone o = Intake.field members "user_phone" /\
    o_delivery_address o = Intake.field members "user_address" /\
    o_order_comment o = Intake.field members "order_comment" /\
    o_amount o = round2 amount /\
    o_paid_at o = None /\
    o_updated_at o = None.
Proof.
  intros Haccepted Hfresh Hpost Hjson payment_url wata_transaction_id
    wata_order_id s' Hurl Hlink.
  subst s'.
  rewrite (intake_accepted_run w ev s token text members answer amount items
             Haccepted Hpost Hjson Hurl Hlink).
  cbn [fst snd committed orders_id_seq Intake.insert_order orders].
  rewrite update_order_appended by (auto using ids_fresh_other).
  cbn [orders order_items].
  split; [reflexivity|]. split; [reflexivity|]. split; [reflexivity|].
  eexists. split; [reflexivity|]. simpl. repeat split; reflexivity.
Qed.

(** The cart is written up to its first item that is not an object or
    whose values do not adapt; that item raises. *)
Lemma insert_items_stops `{PyRuntime} (order_id : Z) (written : list (list (string * json)))
    (unwritten : json) (rest : list json) (e : exn) (conn : tables) :
  Forall (fun item => adapt_all (Intake.item_values item) = None) written ->
  (forall conn', Intake.insert_item order_id unwritten conn' = Raise e) ->
  Intake.insert_items order_id (map JObject written ++ unwritten :: rest) conn = Raise e.
Proof.
  intros Hwritten Hstop. revert conn.
  induction Hwritten as [|item items Hitem _ IH]; intros conn.
  - cbn [map app Intake.insert_items]. now rewrite Hstop.
  - cbn [map app Intake.insert_items Intake.insert_item]. unfold execute.
    cbn [adapt_all adapt]. rewrite Hitem. apply IH.
Qed.

(** X17. An order or a cart that cannot be written stops an admitted
    request before the provider is asked. When the driver cannot
    adapt a parameter of the order row, its exception leaves the
    handler and the store is as it was. Otherwise the order row is
    inserted, and then: a cart that is not iterable raises
    [TypeError]; the first cart item that is not an object raises
    [AttributeError]; the first item with a value that the driver
    cannot adapt raises the driver's exception, which is
    [ProgrammingError] when the [id] of the item is an object. In
    these cases nothing is committed and the id drawn is lost. *)
Theorem X17_unwritable_cart_raises `{PyRuntime} (w : world) (ev : event) (s : store)
    (token : string) (members : list (string * json)) (amount : float) :
  Intake.admitted w ev token members amount ->
  let cart := default (JArray []) (assoc "cart_items" members) in
  let drawn := {| committed := committed s; orders_id_seq := orders_id_seq s + 1 |} in
  (forall e,
     adapt_all (Intake.order_parameters_of w s members amount) = Some e ->
     Intake.handler w ev s = (Raise e, s)) /\
  (adapt_all (Intake.order_parameters_of w s members amount) = None ->
   (Intake.py_iter cart = Raise TypeError ->
    Intake.handler w ev s = (Raise TypeError, drawn)) /\
   (forall written unwritten rest,
      Intake.py_iter cart = Ok (map JObject written ++ unwritten :: rest) ->
      Forall (fun item => adapt_all (Intake.item_values item) = None) written ->
      ((forall fields, unwritten <> JObject fields) ->
       Intake.handler w ev s = (Raise AttributeError, drawn)) /\
      (forall fields e,
         unwritten = JObject fields ->
         adapt_all (Intake.item_values fields) = Some e ->
         Intake.handler w ev s = (Raise e, drawn)) /\
      (forall fields inner,
         unwritten = JObject fields ->
         assoc "id" fields = Some (JObject inner) ->
         Intake.handler w ev s = (Raise ProgrammingError, drawn)))).
Proof.
  intros Hadmitted cart drawn. subst cart drawn.
  rewrite (intake_admitted w ev s token members amount Hadmitted). cbv zeta. split.
  - now intros e ->.
  - intros ->. split; [now intros ->|].
    intros written unwritten rest -> Hwritten.
    assert (Hstop : forall fields e,
               unwritten = JObject fields ->
               adapt_all (Intake.item_values fields) = Some e ->
               forall conn', Intake.insert_item (orders_id_seq s) unwritten conn' = Raise e).
    { intros fields e -> Hvalues conn'. cbn [Intake.insert_item]. unfold execute.
      cbn [adapt_all adapt]. now rewrite Hvalues. }
    split; [|split].
    + intros Hshape.
      rewrite (insert_items_stops _ written unwritten rest AttributeError); [reflexivity|
        exact Hwritten|].
      intros conn'. destruct unwritten; try reflexivity. now destruct (Hshape members0).
    + intros fields e Hfields Hvalues.
      now rewrite (insert_items_stops _ written unwritten rest e _ Hwritten
                     (Hstop fields e Hfields Hvalues)).
    + intros fields inner Hfields Hid.
      rewrite (insert_items_stops _ written unwritten rest ProgrammingError);
        [reflexivity|exact Hwritten|].
      apply (Hstop fields); [exact Hfields|].
      unfold Intake.item_values. cbn [adapt_all]. rewrite Hid. reflexivity.
Qed.

Lemma generate_order_id_draw (w : world) (conn : tables) (n i : nat) :
  exists k,
    (k <= n)%nat /\
    Intake.generate_order_id w conn i n = randint w (i + k)%nat /\
    (forall j, (j < k)%nat -> count_orders (randint w (i + j)%nat) conn <> 0%nat) /\
    ((k < n)%nat -> count_orders (randint w (i + k)%nat) conn = 0%nat).
Proof.
  revert i. induction n as [|n IH]; intros i.
  - exists 0%nat. cbn [Intake.generate_order_id]. rewrite Nat.add_0_r.
    split; [lia|]. split; [reflexivity|]. split; intros; lia.
  - cbn [Intake.generate_order_id].
    destruct (Nat.eqb_spec (count_orders (randint w i) conn) 0) as [Hfree|Htaken].
    + exists 0%nat. rewrite Nat.add_0_r.
      split; [lia|]. split; [reflexivity|]. split; [intros; lia|auto].
    + destruct (IH (S i)) as (k & Hk & Hid & Hbefore & Hat).
      exists (S k). replace (i + S k)%nat with (S i + k)%nat by lia.
      split; [lia|]. split; [exact Hid|]. split; [|intros; apply Hat; lia].
      intros [|j] Hj; [now rewrite Nat.add_0_r|].
      replace (i + S j)%nat with (S i + j)%nat by lia. apply Hbefore. lia.
Qed.

(** X18. The provider order id of a new order is one of the first ten
    values of the random source: the first of the first nine that no
    order carries, and the tenth when all nine are taken. So the id
    collides with an existing order exactly when all ten values do,
    and it lies within any bounds that hold for these ten values. *)
Theorem X18_generated_order_id (w : world) (conn : tables) :
  let wata_order_id := Intake.generate_order_id w conn 0 9 in
  (exists k,
     (k < 10)%nat /\
     wata_order_id = randint w k /\
     (forall j, (j < k)%nat -> count_orders (randint w j) conn <> 0%nat) /\
     ((k < 9)%nat -> count_orders wata_order_id conn = 0%nat)) /\
  (count_orders wata_order_id conn <> 0%nat <->
   forall j, (j < 10)%nat -> count_orders (randint w j) conn <> 0%nat) /\
  (forall lo hi,
     (forall j, (j < 10)%nat -> lo <= randint w j <= hi) -> lo <= wata_order_id <= hi).
Proof.
  cbv zeta. destruct (generate_order_id_draw w conn 9 0) as (k & Hk & Hid & Hbefore & Hat).
  cbn [Nat.add] in Hid, Hbefore, Hat. rewrite Hid. split; [|split].
  - exists k. split; [lia|]. split; [reflexivity|]. split; [exact Hbefore|exact Hat].
  - split.
    + intros Htaken j Hj. destruct (Nat.lt_ge_cases j k) as [Hlt|Hge]; [auto|].
      destruct (Nat.eq_dec k 9%nat) as [->|Hne]; [|now rewrite Hat in Htaken by lia].
      now replace j with 9%nat by lia.
    + intros Hall. apply Hall. lia.
  - intros lo hi Hrange. apply Hrange. lia.
Qed.

Lemma update_order_ids (set : order -> order) (id : Z) (t : tables) :
  (forall x, o_id (set x) = o_id x) ->
  map o_id (orders (update_order set id t)) = map o_id (orders t).
Proof.
  intros Hset. unfold update_order. simpl. rewrite map_map. apply map_ext.
  intros o. now destruct (o_id o =? id).
Qed.

Lemma ids_fresh_ids (s s' : store) :
  map o_id (orders (committed s')) = map o_id (orders (committed s)) ->
  orders_id_seq s <= orders_id_seq s' ->
  ids_fresh s -> ids_fresh s'.
Proof.
  unfold ids_fresh. intros Hids Hseq [Hdup Hbelow]. rewrite Hids. split; [exact Hdup|].
  rewrite <- (List.Forall_map o_id (fun i => i < orders_id_seq s')) , Hids.
  rewrite <- (List.Forall_map o_id (fun i => i < orders_id_seq s)) in Hbelow.
  eapply List.Forall_impl; [|exact Hbelow]. simpl. intros. lia.
Qed.

(** X19. Both handlers keep the store well formed: when the ids of
    the order rows are distinct and below the next value of the
    sequence, they still are after any request to the intake handler
    and after any delivery to the webhook handler, however these
    end. *)
Theorem X19_ids_stay_fresh `{PyRuntime} (w : world) (ev : event) :
  (forall s, ids_fresh s -> ids_fresh (snd (Intake.handler w ev s))) /\
  (forall p, ids_fresh (db p) -> ids_fresh (db (snd (handler w ev p)))).
Proof.
  split.
  - intros s Hfresh. destruct (intake_outcome w ev s) as (_ & _ & Hdb).
    destruct Hdb as [->|[[Hsame Hseq]|(_ & Hseq & Hids)]]; [exact Hfresh| |].
    + apply (ids_fresh_ids s); [now rewrite Hsame|lia|exact Hfresh].
    + destruct Hfresh as [Hdup Hbelow]. unfold ids_fresh. rewrite Hids, Hseq. split.
      * apply NoDup_app. split; [exact Hdup|]. split; [|apply NoDup_singleton].
        intros i Hi. rewrite <- (List.Forall_map o_id (fun i => i < orders_id_seq s)) in Hbelow.
        rewrite List.Forall_forall in Hbelow.
        apply list_elem_of_In, Hbelow in Hi. intros Hin.
        apply list_elem_of_singleton in Hin. lia.
      * rewrite <- (List.Forall_map o_id (fun i => i < orders_id_seq s + 1)), Hids.
        rewrite <- (List.Forall_map o_id (fun i => i < orders_id_seq s)) in Hbelow.
        apply Forall_app. split; [|repeat constructor; lia].
        eapply List.Forall_impl; [|exact Hbelow]. simpl. intros. lia.
  - intros p Hfresh. destruct (handler_outcome w ev p) as (_ & Hseq & _ & Hdb).
    apply (ids_fresh_ids (db p)); [|lia|exact Hfresh].
    destruct Hdb as [->|(_ & id & [-> | ->])]; [reflexivity| |];
      now apply update_order_ids.
Qed.

(** ** The provider order id from intake to webhook *)

Lemma pretty_N_char_code (x : N) :
  (x < 10)%N -> code (pretty_N_char x) = 48 + Z.of_N x.
Proof.
  intros Hx.
  assert (x = 0 \/ x = 1 \/ x = 2 \/ x = 3 \/ x = 4 \/ x = 5 \/ x = 6 \/ x = 7
          \/ x = 8 \/ x = 9)%N as Hcases by lia.
  repeat (destruct Hcases as [->|Hcases]; [reflexivity|]). now subst.
Qed.

Lemma digit_range (c : Z) : is_digit c = true <-> 48 <= c <= 57.
Proof. unfold is_digit. rewrite andb_true_iff, !Z.leb_le. tauto. Qed.

Lemma lstrip_digits (cs : list Z) :
  Forall (fun c => is_digit c = true) cs -> lstrip cs = cs.
Proof.
  destruct 1 as [|c cs Hc _]; [reflexivity|]. simpl.
  apply digit_range in Hc. unfold is_space.
  destruct (Z.eqb_spec c 32); [lia|].
  destruct (Z.leb_spec 9 c); destruct (Z.leb_spec c 13); simpl; auto; lia.
Qed.

Lemma strip_digits (cs : list Z) :
  Forall (fun c => is_digit c = true) cs -> strip cs = cs.
Proof.
  intros Hcs. unfold strip. rewrite (lstrip_digits cs Hcs).
  rewrite lstrip_digits; [apply rev_involutive|]. now apply List.Forall_rev.
Qed.

(** A string of digits carries no sign. *)
Lemma int_of_ascii_digits (s : string) :
  Forall (fun c => is_digit c = true) (bytes_of s) ->
  int_of_ascii s = unsigned_value (bytes_of s).
Proof.
  intros Hcs. unfold int_of_ascii. rewrite (strip_digits _ Hcs).
  destruct (bytes_of s) as [|c cs]; [reflexivity|].
  inversion Hcs as [|? ? Hc _]; subst. apply digit_range in Hc.
  assert (c = 48 \/ c = 49 \/ c = 50 \/ c = 51 \/ c = 52 \/ c = 53 \/ c = 54
          \/ c = 55 \/ c = 56 \/ c = 57) as Hcases by lia.
  repeat (destruct Hcases as [->|Hcases]; [reflexivity|]). now subst.
Qed.

Lemma digits_value_digit (c : Z) (rest : list Z) (pd : bool) (acc : Z) (n : nat) :
  is_digit c = true ->
  digits_value (c :: rest) pd acc n = digits_value rest true (10 * acc + (c - 48)) (S n).
Proof. intros Hc. simpl. now rewrite Hc. Qed.

(** The digits that [str] writes for a positive number: they are
    digits, [int] reads the number back from them, and there are no
    more of them than the size of the number allows. *)
Lemma pretty_N_go_digits (x : N) :
  (0 < x)%N ->
  exists ds,
    (forall s, bytes_of (pretty_N_go x s) = ds ++ bytes_of s) /\
    Forall (fun c => is_digit c = true) ds /\
    (0 < List.length ds)%nat /\
    (forall rest pd,
       digits_value (ds ++ rest) pd 0 0 = digits_value rest true (Z.of_N x) (List.length ds)) /\
    10 ^ (Z.of_nat (List.length ds) - 1) <= Z.of_N x.
Proof.
  induction (N.lt_wf_0 x) as [x _ IH]. intros Hx.
  assert (Hmod : (x `mod` 10 < 10)%N) by (apply N.mod_lt; lia).
  pose proof (pretty_N_char_code _ Hmod) as Hcode.
  assert (Hdigit : is_digit (code (pretty_N_char (x `mod` 10))) = true).
  { apply digit_range. rewrite Hcode. clear -Hmod.
    generalize dependent (x `mod` 10)%N. intros d Hd. lia. }
  assert (Hsplit : Z.of_N x = 10 * Z.of_N (x `div` 10) + Z.of_N (x `mod` 10)).
  { rewrite (N.div_mod x 10) at 1 by lia. now rewrite N2Z.inj_add, N2Z.inj_mul. }
  destruct (N.eq_dec (x `div` 10)%N 0%N) as [Hsmall|Hlarge].
  - exists [code (pretty_N_char (x `mod` 10))].
    split; [|split; [|split; [|split]]].
    + intros s. rewrite pretty_N_go_step by exact Hx. now rewrite Hsmall, pretty_N_go_0.
    + now constructor.
    + simpl. lia.
    + intros rest pd. cbn [app]. rewrite digits_value_digit by exact Hdigit.
      f_equal. rewrite Hsplit, Hsmall, Hcode. lia.
    + simpl. lia.
  - destruct (IH (x `div` 10)%N) as (ds & Hbytes & Hds & Hlen & Hvalue & Hpow).
    { apply N.div_lt; lia. }
    { lia. }
    exists (ds ++ [code (pretty_N_char (x `mod` 10))]).
    split; [|split; [|split; [|split]]].
    + intros s. rewrite pretty_N_go_step by exact Hx. rewrite Hbytes.
      now rewrite <- app_assoc.
    + apply Forall_app. split; [exact Hds|now constructor].
    + rewrite length_app. simpl. lia.
    + intros rest pd. rewrite <- app_assoc. cbn [app]. rewrite Hvalue.
      rewrite digits_value_digit by exact Hdigit. rewrite length_app. cbn [List.length].
      replace (List.length ds + 1)%nat with (S (List.length ds)) by lia.
      f_equal. rewrite Hsplit, Hcode. lia.
    + rewrite length_app. cbn [List.length].
      replace (Z.of_nat (List.length ds + 1) - 1)
        with (Z.succ (Z.of_nat (List.length ds) - 1)) by lia.
      rewrite Z.pow_succ_r by lia.
      pose proof (N2Z.is_nonneg (x `mod` 10)) as Hnonneg. rewrite Hsplit.
      revert Hpow Hnonneg. generalize (10 ^ (Z.of_nat (List.length ds) - 1)).
      generalize (Z.of_N (x `div` 10)) (Z.of_N (x `mod` 10)). intros. lia.
Qed.

(** [int(str(n))] is [n] for a positive [n] within the interpreter's
    limit on the digits of an integer, and [str(n)] is not empty. *)
Lemma str_int_positive `{PyRuntime} (x : positive) :
  Z.pos x < 10 ^ 4300 ->
  truthy (JString (pretty (Z.pos x))) = true /\
  py_int (JString (pretty (Z.pos x))) = Ok (Z.pos x).
Proof.
  intros Hhi.
  assert (Hshort : forall k, 10 ^ k <= Z.pos x -> k < 4300).
  { intros k Hk. apply (Z.pow_lt_mono_r_iff 10); [reflexivity|discriminate|].
    eapply Z.le_lt_trans; [exact Hk|exact Hhi]. }
  clear Hhi.
  unfold pretty, pretty_Z, pretty_positive, pretty, pretty_N.
  destruct (decide (N.pos x = 0%N)) as [Hzero|_]; [discriminate|].
  destruct (pretty_N_go_digits (N.pos x)) as (ds & Hbytes & Hds & Hlen & Hvalue & Hpow);
    [lia|].
  specialize (Hbytes ""). change (bytes_of "") with (@nil Z) in Hbytes.
  rewrite app_nil_r in Hbytes. split.
  - simpl. destruct (pretty_N_go (N.pos x) "") eqn:Hs; [|reflexivity].
    rewrite <- Hbytes in Hlen. simpl in Hlen. lia.
  - unfold py_int.
    assert (is_ascii (pretty_N_go (N.pos x) "") = true) as ->.
    { unfold is_ascii. rewrite Hbytes. apply forallb_forall. intros c Hc.
      rewrite List.Forall_forall in Hds. apply Hds, digit_range in Hc.
      apply Z.ltb_lt. lia. }
    rewrite int_of_ascii_digits by (now rewrite Hbytes). rewrite Hbytes.
    unfold unsigned_value. specialize (Hvalue [] false). rewrite app_nil_r in Hvalue.
    rewrite Hvalue. cbn [digits_value].
    assert ((List.length ds <=? MAX_STR_DIGITS)%nat = true) as ->; [|reflexivity].
    apply Nat.leb_le. unfold MAX_STR_DIGITS.
    apply Hshort in Hpow. clear Hshort. lia.
Qed.

(** X20. The provider order id survives the trip to the provider and
    back: the text that the intake handler sends as [orderId],
    [str(wata_order_id)], is read by the webhook handler's [int] as
    the same number, for every id from zero up to the interpreter's
    limit on the digits of an integer. *)
Theorem X20_order_id_round_trip `{PyRuntime} (n : Z) :
  0 <= n < 10 ^ 4300 ->
  truthy (JString (pretty n)) = true /\
  py_int (JString (pretty n)) = Ok n.
Proof.
  intros [Hlo Hhi].
  destruct n as [|x|x]; [split; reflexivity| |now contradict Hlo].
  now apply str_int_positive.
Qed.

(** ** From the checkout to the payment *)

(** A lookup by a provider order id that no earlier row carries finds
    the row appended with it. *)
Lemma find_order_appended (wata_id : Z) (t : tables) (o : order) (items : list order_item) :
  count_orders wata_id t = 0%nat ->
  o_wata_order_id o = wata_id ->
  find_order wata_id {| orders := orders t ++ [o]; order_items := items |} = Some o.
Proof.
  unfold count_orders, find_order. cbn [orders]. intros Hfree Ho.
  induction (orders t) as [|x rows IH]; simpl in *.
  - apply Z.eqb_eq in Ho. now rewrite Ho.
  - destruct (o_wata_order_id x =? wata_id); [discriminate|auto].
Qed.

(** X21. The two handlers composed. A checkout is accepted (its
    order and cart are written, its link request is encoded) and the
    provider answers it with a link that the driver adapts; the
    provider order id generated for it is within the range of
    [random.randint(100000, 2147483647)] and carried by no earlier
    order. When the provider later delivers
    a verified success callback whose [orderId] is the one the intake
    handler sent, as the text it sent or as the number, the webhook
    handler answers 200 [ok] and the store holds the former orders and
    the new one, [paid], with both timestamps set, together with its
    items. *)
Theorem X21_checkout_then_payment `{PyRuntime} (w w' : world) (ev ev' : event) (s : store)
    (token text : string) (members answer : list (string * json)) (amount : float)
    (items : list (list (string * json))) (p p' : process) (data : webhook_data) :
  Intake.accepted w ev s token members amount items ->
  ids_fresh s ->
  http_post w (Intake.WATA_API_URL +:+ "/links") token (Intake.request_of w s members amount)
    = Response 200 text ->
  json_loads text = Some (JObject answer) ->
  truthy (py_or (default JNull (assoc "paymentUrl" answer))
                (default JNull (assoc "url" answer))) = true ->
  adapt_all [py_or (default JNull (assoc "paymentUrl" answer))
                   (default JNull (assoc "url" answer));
             default JNull (assoc "id" answer)] = None ->
  (forall j, (j < 10)%nat -> 100000 <= randint w j <= 2147483647) ->
  let wata_order_id := Intake.generate_order_id w (committed s) 0 9 in
  count_orders wata_order_id (committed s) = 0%nat ->
  db p = snd (Intake.handler w ev s) ->
  store_reachable w' ->
  delivered w' ev' p p' data ->
  order_id data = JString (pretty wata_order_id) \/ order_id data = JInt wata_order_id ->
  classified data is_success ->
  let after := db (snd (handler w' ev' p)) in
  fst (handler w' ev' p) = Ok ok_response /\
  orders_id_seq after = orders_id_seq s + 1 /\
  order_items (committed after)
  = order_items (committed s) ++ map (Intake.item_row (orders_id_seq s)) items /\
  exists o,
    orders (committed after) = orders (committed s) ++ [o] /\
    o_id o = orders_id_seq s /\
    o_wata_order_id o = wata_order_id /\
    o_status o = "paid" /\
    o_paid_at o = Some (CURRENT_TIMESTAMP w') /\
    o_updated_at o = Some (CURRENT_TIMESTAMP w').
Proof.
  intros Haccepted Hfresh Hpost Hjson Hurl Hlink Hrange wata_order_id Hfree Hdb Hstore Hdel
    Hid Hclass after.
  assert (Hbounds : 100000 <= wata_order_id <= 2147483647).
  { destruct (generate_order_id_draw w (committed s) 9 0) as (k & Hk & Hdraw & _).
    cbn [Nat.add] in Hdraw. subst wata_order_id. rewrite Hdraw. apply Hrange. lia. }
  assert (Hnames : names_order data wata_order_id).
  { unfold names_order. destruct Hid as [-> | ->].
    - destruct wata_order_id as [|x|x]; [lia| |lia]. apply str_int_positive.
      apply Z.le_lt_trans with 2147483647; [lia|].
      apply Z.lt_le_trans with (10 ^ 10); [reflexivity|].
      apply Z.pow_le_mono_r; [reflexivity|discriminate].
    - split; [|reflexivity]. simpl. apply negb_true_iff, Z.eqb_neq. lia. }
  rewrite (intake_accepted_run w ev s token text members answer amount items
             Haccepted Hpost Hjson Hurl Hlink) in Hdb.
  cbn [snd Intake.insert_order orders] in Hdb.
  rewrite update_order_appended in Hdb by (auto using ids_fresh_other).
  fold wata_order_id in Hdb.
  assert (Hsel : select_order wata_order_id (committed (db p))
                 = Some (orders_id_seq s, "pending")).
  { rewrite Hdb. unfold select_order. cbn [committed].
    now rewrite (find_order_appended wata_order_id (committed s)) by auto. }
  assert (Hcb : callback_for w' ev' p p' wata_order_id is_success).
  { split; [exact Hstore|]. now exists data. }
  subst after.
  destruct (success_callback_applied w' ev' p p' wata_order_id (orders_id_seq s) "pending"
              Hcb Hsel) as [-> Hsame].
  cbn [String.eqb Ascii.eqb Bool.eqb fst snd with_tables db committed orders_id_seq].
  rewrite Hsame, Hdb. cbn [committed orders_id_seq].
  rewrite update_order_appended by (auto using ids_fresh_other).
  cbn [orders order_items].
  split; [reflexivity|]. split; [reflexivity|]. split; [reflexivity|].
  eexists. split; [reflexivity|]. simpl. repeat split; reflexivity.
Qed.

(** ** Requests and answers that the intake handler does not guard *)

(** X22. The intake handler reads its body outside any [try]: a
    configured POST whose body is JSON but not an object raises
    [AttributeError], and one whose [amount] does not convert with
    [float] ([null], a list, an object, text that is no number) raises
    the exception of the conversion. Neither is answered with a 400,
    and the store is as it was. *)
Theorem X22_unreadable_request_raises `{PyRuntime} (w : world) (ev : event) (s : store)
    (token : string) :
  upper (default "GET" (httpMethod ev)) = "POST" ->
  environ w !! "WATA_API_TOKEN" = Some token ->
  token <> "" ->
  (forall document,
     json_loads (default "{}" (body ev)) = Some document ->
     (forall members, document <> JObject members) ->
     Intake.handler w ev s = (Raise AttributeError, s)) /\
  (forall members e,
     json_loads (default "{}" (body ev)) = Some (JObject members) ->
     Intake.py_float (default (JInt 0) (assoc "amount" members)) = Raise e ->
     Intake.handler w ev s = (Raise e, s)) /\
  (forall members v,
     json_loads (default "{}" (body ev)) = Some (JObject members) ->
     assoc "amount" members = Some v ->
     v = JNull \/ (exists items, v = JArray items) \/ (exists fields, v = JObject fields) ->
     Intake.handler w ev s = (Raise TypeError, s)).
Proof.
  intros Hmethod Htoken Hne. apply String.eqb_neq in Hne.
  assert (Hbody : forall members e,
             json_loads (default "{}" (body ev)) = Some (JObject members) ->
             Intake.py_float (default (JInt 0) (assoc "amount" members)) = Raise e ->
             Intake.handler w ev s = (Raise e, s)).
  { intros members e Hjson Hamount. unfold Intake.handler. rewrite Hmethod, Htoken.
    cbn [String.eqb Ascii.eqb Bool.eqb negb from_option id]. rewrite Hne.
    unfold bind, lift, loads, dict_get_default. now rewrite Hjson, Hamount. }
  split; [|split; [exact Hbody|]].
  - intros document Hjson Hshape. unfold Intake.handler. rewrite Hmethod, Htoken.
    cbn [String.eqb Ascii.eqb Bool.eqb negb from_option id]. rewrite Hne.
    unfold bind, lift, loads, dict_get_default. rewrite Hjson.
    destruct document; try reflexivity. now destruct (Hshape members).
  - intros members v Hjson Hv Hshape. apply (Hbody members); [exact Hjson|].
    rewrite Hv. cbn [from_option id].
    destruct Hshape as [->|[[items ->]|[fields ->]]]; reflexivity.
Qed.

(** X23. Nor does it guard the link request. For an admitted request
    whose order and cart are written: when the body of the link
    request cannot be encoded, the encoder's exception leaves the
    handler; when it can, a request to the provider that fails in
    transport raises, and so does an answer with status 200 whose body
    is not JSON, or is JSON but not an object, or holds a link or a
    transaction id that the driver cannot adapt. The handler then
    answers nothing; the order and its items, inserted before the
    request, are not committed, and the id drawn from the sequence is
    lost. *)
Theorem X23_provider_failure_raises `{PyRuntime} (w : world) (ev : event) (s : store)
    (token : string) (members : list (string * json)) (amount : float)
    (items : list (list (string * json))) :
  Intake.written w ev s token members amount items ->
  let request := Intake.request_of w s members amount in
  let answer := http_post w (Intake.WATA_API_URL +:+ "/links") token request in
  let drawn := {| committed := committed s; orders_id_seq := orders_id_seq s + 1 |} in
  (forall e, encode_json request = Some e -> Intake.handler w ev s = (Raise e, drawn)) /\
  (encode_json request = None ->
   (answer = Transport_failure ->
    Intake.handler w ev s = (Raise TransportError, drawn)) /\
   (forall text,
      answer = Response 200 text ->
      json_loads text = None ->
      Intake.handler w ev s = (Raise JSONDecodeError, drawn)) /\
   (forall text document,
      answer = Response 200 text ->
      json_loads text = Some document ->
      (forall fields, document <> JObject fields) ->
      Intake.handler w ev s = (Raise AttributeError, drawn)) /\
   (forall text fields e,
      answer = Response 200 text ->
      json_loads text = Some (JObject fields) ->
      let payment_url :=
        py_or (default JNull (assoc "paymentUrl" fields))
              (default JNull (assoc "url" fields)) in
      truthy payment_url = true ->
      adapt_all [payment_url; default JNull (assoc "id" fields)] = Some e ->
      Intake.handler w ev s = (Raise e, drawn))).
Proof.
  intros (Hadmitted & Horder & Hcart & Hitems) request answer drawn.
  subst request answer drawn.
  rewrite (intake_admitted w ev s token members amount Hadmitted).
  cbv zeta. rewrite Horder, Hcart. cbn [Intake.py_iter].
  rewrite (insert_items_objects _ items _ Hitems).
  split; [now intros e ->|]. intros ->.
  split; [|split; [|split]].
  - now intros ->.
  - intros text -> Hjson. cbn [Z.eqb Pos.eqb negb]. now rewrite Hjson.
  - intros text document -> Hjson Hshape. cbn [Z.eqb Pos.eqb negb]. rewrite Hjson.
    destruct document; try reflexivity. now destruct (Hshape members0).
  - intros text fields e -> Hjson Hurl Hlink. cbn [Z.eqb Pos.eqb negb].
    now rewrite Hjson, Hurl, Hlink.
Qed.

(** ** The order number *)

Lemma append_inj_length (a a' b b' : string) :
  String.length a = String.length a' ->
  a +:+ b = a' +:+ b' -> a = a' /\ b = b'.
Proof.
  revert a'. induction a as [|c a IH]; intros [|c' a']; simpl; try discriminate.
  - auto.
  - intros [= Hlen] [= -> Happ]. destruct (IH a' Hlen Happ) as [-> ->]. auto.
Qed.

(** X24. Order numbers identify orders as well as provider order ids
    do: two order numbers whose dates have the same length, as those
    of [strftime('%Y%m%d')] have, are equal only when the dates are
    equal and the provider order ids are. *)
Theorem X24_order_numbers_distinct (w w' : world) (a b : Z) :
  String.length (today w) = String.length (today w') ->
  Intake.order_number_of w a = Intake.order_number_of w' b ->
  today w = today w' /\ a = b.
Proof.
  unfold Intake.order_number_of. intros Hlen Hequal.
  apply (append_inj_length "ORD-" "ORD-") in Hequal as [_ Hequal]; [|reflexivity].
  apply append_inj_length in Hequal as [Htoday Hequal]; [|exact Hlen].
  apply (append_inj_length "-" "-") in Hequal as [_ Hequal]; [|reflexivity].
  split; [exact Htoday|]. now apply (inj pretty).
Qed.

(** ** Deliveries without a usable key *)

(** X25. When no key is cached and the provider answers the key
    request without a key (a status other than 200, or an object whose
    [value] is absent or falsy), a delivery whose body can be read is
    refused with 401 whatever its signature, and the process is as it
    was: nothing is cached and the store is untouched. *)
Theorem X25_unavailable_key_refuses `{PyRuntime} (w : world) (ev : event) (p : process)
    (payload : string) :
  upper (default "GET" (httpMethod ev)) <> "OPTIONS" ->
  request_body ev = Ok payload ->
  truthy (public_key_cache p) = false ->
  key_unavailable w ->
  handler w ev p = (Ok (error_response 401 "Invalid signature"), p).
Proof.
  intros Hmethod Hbody Hcold Hkey. apply String.eqb_neq in Hmethod.
  unfold handler. rewrite Hmethod. unfold bind at 1. unfold lift at 1. rewrite Hbody.
  unfold verify_webhook_signature, get_wata_public_key, key_unavailable in *; unfold_calls.
  rewrite Hcold.
  destruct (http_get w (public_key_url w)) as [|status_code text]; [contradiction|].
  destruct Hkey as [Hstatus|(members & Hjson & Hvalue)].
  - apply Z.eqb_neq in Hstatus. now rewrite Hstatus.
  - destruct (negb (status_code =? 200)); [reflexivity|].
    now rewrite Hjson, Hvalue.
Qed.

(** X26. The cache takes whatever truthy [value] the provider serves,
    before the value is loaded as a key. When the value does not load
    (it is no PEM key, or no string), the delivery that fetched it is
    refused with 401 and the value stays cached; from then on the
    process refuses every delivery whose body can be read, whatever
    its signature, the store and the provider's later answers: the
    key is not asked for again. *)
Theorem X26_unloadable_key_stays_cached `{PyRuntime} (w : world) (ev : event) (p : process)
    (payload text : string) (members : list (string * json)) (v : json) :
  upper (default "GET" (httpMethod ev)) <> "OPTIONS" ->
  request_body ev = Ok payload ->
  truthy (public_key_cache p) = false ->
  http_get w (public_key_url w) = Response 200 text ->
  json_loads text = Some (JObject members) ->
  assoc "value" members = Some v ->
  truthy v = true ->
  load_key v = None ->
  handler w ev p = (Ok (error_response 401 "Invalid signature"), caching v p) /\
  (forall w' ev' payload' p',
     upper (default "GET" (httpMethod ev')) <> "OPTIONS" ->
     request_body ev' = Ok payload' ->
     public_key_cache p' = v ->
     handler w' ev' p' = (Ok (error_response 401 "Invalid signature"), p')).
Proof.
  intros Hmethod Hbody Hcold Hget Hjson Hvalue Htruthy Hload. split.
  - apply String.eqb_neq in Hmethod.
    unfold handler. rewrite Hmethod. unfold bind at 1. unfold lift at 1. rewrite Hbody.
    unfold verify_webhook_signature, get_wata_public_key; unfold_calls.
    rewrite Hcold, Hget. cbn [Z.eqb Pos.eqb negb]. rewrite Hjson, Hvalue.
    cbn [from_option id]. rewrite Htruthy. cbv beta iota. now rewrite ?Htruthy, Hload.
  - intros w' ev' payload' p' Hmethod' Hbody' <-. apply String.eqb_neq in Hmethod'.
    unfold handler. rewrite Hmethod'. unfold bind at 1. unfold lift at 1. rewrite Hbody'.
    unfold verify_webhook_signature, get_wata_public_key; unfold_calls.
    rewrite Htruthy. cbv beta iota. now rewrite ?Htruthy, Hload.
Qed.

(** * Concrete runs

    The statements above at the requests of [Fixture], and the
    requests at which a sentence of the specification fails. *)

Module Examples.

Import Fixture.

(** Goals that are settled by running the model. *)
Ltac computed := vm_compute; first [reflexivity | discriminate | tauto].

Ltac differs := let E := fresh in intros E; vm_compute in E; discriminate.

Ltac reaches payload document :=
  split;
  [ differs
  | exists payload, document;
    split; [computed | split; [computed | split; computed]] ].

Ltac posts :=
  split; [computed | split; [computed | split; [discriminate | computed]]].

Ltac adapts := repeat first [apply List.Forall_nil | apply List.Forall_cons; [computed|]].

(** C1, at a signed callback: the signature is accepted, a signature
    that decodes differently is refused, and a re-encoding of the
    accepted one is accepted as well. *)
Lemma C1_verify_true_iff_decoded_signature_valid_witness :
  let payload := callback "100001" "Paid" in
  let p := cold empty_store in
  fst (verify_webhook_signature provider_up payload "AGE=" p) = Ok true /\
  fst (verify_webhook_signature provider_up payload "AGU=" p) = Ok false /\
  verify_webhook_signature provider_up payload "AGE= " p
  = verify_webhook_signature provider_up payload "AGE=" p.
Proof.
  cbv zeta. split; [|split].
  - apply C1_verify_true_iff_decoded_signature_valid.
    exists toy_pem, (3233, 17), [0; 97]. now vm_compute.
  - now vm_compute.
  - apply C1_verify_true_iff_decoded_signature_valid.
    now vm_compute.
Defined.

(** C1 (as stated, refuted). [AGG=] is [AGE=] with one byte changed
    (one bit of it), in the bits of the last symbol that the decoder
    drops: both decode to the same two bytes, and the verifier accepts
    both for the same payload. *)
Lemma C1_changed_signature_byte_still_accepted :
  one_byte_changed "AGE=" "AGG=" = true /\
  b64decode "AGE=" = Ok [0; 97] /\
  b64decode "AGG=" = Ok [0; 97] /\
  fst (verify_webhook_signature provider_up (callback "100001" "Paid")
         "AGE=" (cold empty_store)) = Ok true /\
  fst (verify_webhook_signature provider_up (callback "100001" "Paid")
         "AGG=" (cold empty_store)) = Ok true.
Proof. now vm_compute. Qed.

(** C2, at an unreachable provider and at one that answers with a
    page that is not JSON. *)
Lemma C2_key_fetch_failure_escapes_verifier_witness :
  verify_webhook_signature provider_down "{}" "AGE="
    (cold empty_store)
  = (Raise TransportError, cold empty_store)
  /\
  verify_webhook_signature provider_garbled "{}" "AGE="
    (cold empty_store)
  = (Raise JSONDecodeError, cold empty_store).
Proof.
  split.
  - apply C2_key_fetch_failure_escapes_verifier; computed.
  - assert (truthy (public_key_cache (cold empty_store)) = false) as Hcold by computed.
    apply (C2_key_fetch_failure_escapes_verifier provider_garbled (cold empty_store)
             "{}" "AGE=" Hcold) with (text := "<html>"); computed.
Defined.

(** The deliveries of [Fixture] reach the resolver. *)

Lemma fixture_store_reachable (key_answer link_answer : http_outcome) :
  store_reachable (world_with key_answer link_answer).
Proof.
  exists "postgresql://store". split; [computed|]. split; [discriminate|computed].
Qed.

Lemma paid_callback_for (s : store) :
  callback_for provider_up paid_callback (warm s) (warm s) 100001 is_success.
Proof.
  split; [apply fixture_store_reachable|]. exists (callback_data "100001" "Paid").
  split; [|split].
  - reaches (callback "100001" "Paid")
      (JObject [("orderId", JString "100001"); ("transactionStatus", JString "Paid")]).
  - split; computed.
  - exists "paid". split; computed.
Qed.

Lemma failed_callback_for (s : store) :
  callback_for provider_up failed_callback (warm s) (warm s) 100001 is_failure.
Proof.
  split; [apply fixture_store_reachable|]. exists (callback_data "100001" "FAILED").
  split; [|split].
  - reaches (callback "100001" "FAILED")
      (JObject [("orderId", JString "100001"); ("transactionStatus", JString "FAILED")]).
  - split; computed.
  - exists "failed". split; computed.
Qed.

Lemma first_delivery_pays :
  handler provider_up paid_callback with_pending_order
  = (Ok ok_response, with_order_paid_now).
Proof. computed. Qed.

(** C3, at the order 100001: delivered to the paid order, the success
    callback changes nothing; delivered to the pending order, it
    leaves the order paid, and a second delivery changes nothing
    more. *)
Lemma C3_success_callback_idempotent_witness :
  (handler provider_up paid_callback with_paid_order = (Ok ok_response, with_paid_order) /\
   db with_paid_order = db with_paid_order) /\
  (handler provider_up paid_callback with_order_paid_now
   = (Ok ok_response, with_order_paid_now) /\
   db with_order_paid_now = db with_order_paid_now /\
   select_order 100001 (committed (db with_order_paid_now)) = Some (1, "paid")).
Proof.
  split.
  - apply (C3_success_callback_idempotent provider_up paid_callback
             with_paid_order with_paid_order 100001 1 "paid");
      [apply paid_callback_for|computed|reflexivity].
  - assert (select_order 100001 (committed (db with_pending_order))
            = Some (1, "pending")) as Hfound by computed.
    pose proof (C3_success_callback_idempotent provider_up paid_callback
                  with_pending_order with_pending_order 100001 1 "pending"
                  (paid_callback_for _) Hfound) as [_ Htwice].
    rewrite first_delivery_pays in Htwice.
    apply (Htwice provider_up with_order_paid_now), paid_callback_for.
Defined.

(** C4, at the order 100001: the failure callback after the success
    callback leaves the order failed. *)
Lemma C4_failure_callback_sets_failed_witness :
  (fst (handler provider_up failed_callback with_order_paid_now) = Ok ok_response /\
   exists o,
     find_order 100001
       (committed (db (snd (handler provider_up failed_callback with_order_paid_now))))
     = Some o /\
     o_id o = 1 /\ o_status o = "failed" /\ o_updated_at o = Some 1700000000) /\
  ("paid" = "paid" /\
   select_order 100001
     (committed (db (snd (handler provider_up failed_callback with_order_paid_now))))
   = Some (1, "failed")).
Proof.
  assert (select_order 100001 (committed (db with_order_paid_now))
          = Some (1, "paid")) as Hpaid by computed.
  assert (select_order 100001 (committed (db with_pending_order))
          = Some (1, "pending")) as Hpending by computed.
  pose proof (C4_failure_callback_sets_failed provider_up failed_callback
                with_order_paid_now with_order_paid_now 100001 1 "paid"
                (failed_callback_for _) Hpaid) as [Hset Hafter].
  split; [exact Hset|].
  apply (Hafter provider_up paid_callback with_pending_order with_pending_order
           "pending" (paid_callback_for _) Hpending).
  now rewrite first_delivery_pays.
Defined.

(** C8, at a callback for the order 424242 that the store does not
    hold. *)
Lemma C8_unknown_order_is_not_found_witness :
  handler provider_up unknown_order_callback with_pending_order
  = (Ok (error_response 404 "Order not found"), with_pending_order) /\
  db with_pending_order = db with_pending_order /\
  statusCode (error_response 404 "Order not found") = 404.
Proof.
  apply (C8_unknown_order_is_not_found provider_up unknown_order_callback
           with_pending_order with_pending_order (callback_data "424242" "Paid") 424242).
  - reaches (callback "424242" "Paid")
      (JObject [("orderId", JString "424242"); ("transactionStatus", JString "Paid")]).
  - apply fixture_store_reachable.
  - split; computed.
  - computed.
Defined.

(** C9, at a callback whose order id is [abc]. *)
Lemma C9_unparsable_order_id_raises_witness :
  exists e,
    handler provider_up bad_id_callback with_pending_order = (Raise e, with_pending_order) /\
    db with_pending_order = db with_pending_order /\
    (store_reachable provider_up -> e = ValueError).
Proof.
  apply (C9_unparsable_order_id_raises provider_up bad_id_callback
           with_pending_order with_pending_order (callback_data "abc" "Paid") "abc").
  - reaches (callback "abc" "Paid")
      (JObject [("orderId", JString "abc"); ("transactionStatus", JString "Paid")]).
  - reflexivity.
  - discriminate.
  - computed.
Defined.

(** C10, at the failure callback for the paid order 100001: the row
    is failed and keeps its [paid_at]. *)
Lemma C10_failure_callback_frame_witness :
  let p := with_paid_order in
  let after := committed (db (snd (handler provider_up failed_callback p))) in
  Forall2 (fun o o' => same_but_status o o' /\ (o_id o <> 1 -> o' = o))
    (orders (committed (db p))) (orders after) /\
  order_items after = order_items (committed (db p)) /\
  orders_id_seq (db (snd (handler provider_up failed_callback p))) = orders_id_seq (db p) /\
  (forall o,
     find_order 100001 (committed (db p)) = Some o ->
     exists o',
       find_order 100001 after = Some o' /\
       o_status o' = "failed" /\
       o_paid_at o' = o_paid_at o).
Proof.
  assert (select_order 100001 (committed (db with_paid_order))
          = Some (1, "paid")) as Hpaid by computed.
  exact (C10_failure_callback_frame provider_up failed_callback
           with_paid_order with_paid_order 100001 1 "paid"
           (failed_callback_for _) Hpaid).
Defined.

(** C6, at a request that carries both [X-SIGNATURE] and
    [x-signature]: the first is not read. *)
Lemma C6_signature_from_four_exact_names_witness :
  get_signature (<["X-SIGNATURE" := "AGE="]> {["x-signature" := "ApQ="]}) = "ApQ=".
Proof.
  rewrite (proj2 (C6_signature_from_four_exact_names {["x-signature" := "ApQ="]}));
    [computed|].
  unfold signature_headers. rewrite !not_elem_of_cons.
  repeat split; try discriminate. apply not_elem_of_nil.
Defined.

(** C6 (as stated, refuted). A callback whose valid signature is sent
    under [X-SIGNATURE] is refused with 401: the handler finds no
    signature. The same callback with the header spelled [X-Signature]
    is accepted. *)
Lemma C6_upper_case_header_not_read :
  get_signature {["X-SIGNATURE" := "AGE="]} = "" /\
  fst (handler provider_up (delivery "X-SIGNATURE" "AGE=" (callback "100001" "Paid"))
         (cold (store_with [sample_order "pending" None])))
  = Ok (error_response 401 "Invalid signature") /\
  fst (handler provider_up (delivery "X-Signature" "AGE=" (callback "100001" "Paid"))
         (cold (store_with [sample_order "pending" None])))
  = Ok ok_response.
Proof. split; [|split]; computed. Qed.

(** The store of [Fixture] can be reached, and its checkouts are
    admitted, written and accepted. *)

Ltac admits :=
  split;
  [ posts
  | split; [computed | split; [computed | split; [differs | split;
      [differs | apply fixture_store_reachable]]]] ].

Ltac writes := split; [admits | split; [computed | split; [computed | adapts]]].

Ltac accepts := split; [writes | computed].

Lemma checkout_accepted (key_answer link_answer : http_outcome) :
  Intake.accepted (world_with key_answer link_answer) checkout empty_store "secret"
    (checkout_members "A" (JInt 100) (JArray [JObject widget])) 100%float [widget].
Proof. accepts. Qed.

Lemma empty_store_fresh : ids_fresh empty_store.
Proof. split; constructor. Qed.

Lemma pending_store_fresh : ids_fresh pending_store.
Proof. split; [apply NoDup_singleton|repeat constructor]. Qed.

Lemma checkout_validated (key_answer link_answer : http_outcome) :
  Intake.validated (world_with key_answer link_answer) checkout empty_store "secret"
    checkout_request.
Proof.
  exists (checkout_members "A" (JInt 100) (JArray [JObject widget])), 100%float, [widget].
  split; [apply checkout_accepted|computed].
Qed.

(** C5, at the checkout of the specification with a provider that
    answers 503. *)
Lemma C5_failed_link_leaves_no_order_witness :
  exists r,
    fst (Intake.handler provider_unavailable checkout empty_store) = Ok r /\
    statusCode r = 500 /\
    committed (snd (Intake.handler provider_unavailable checkout empty_store))
    = committed empty_store /\
    orders_id_seq (snd (Intake.handler provider_unavailable checkout empty_store))
    = orders_id_seq empty_store + 1.
Proof.
  apply (C5_failed_link_leaves_no_order provider_unavailable checkout empty_store "secret"
           checkout_request).
  - apply checkout_validated.
  - cbv [Intake.no_link http_post provider_unavailable world_with].
    left. discriminate.
Defined.

(** C5 (as stated, refuted). The checkout of the specification passes
    validation: with the provider up it is answered 200 and its order
    is stored as [pending]. With a provider that answers
    503, or 200 without a link, the handler answers 500 and the store
    holds no order and no item: the row the claim expects is not
    there. *)
Lemma C5_no_order_row_after_failed_link :
  map o_status (orders (committed (snd (Intake.handler provider_up checkout empty_store))))
  = ["pending"] /\
  fst (Intake.handler provider_unavailable checkout empty_store)
  = Ok (Intake.error_response 500 "WATA API error: unavailable") /\
  committed (snd (Intake.handler provider_unavailable checkout empty_store))
  = {| orders := []; order_items := [] |} /\
  fst (Intake.handler provider_without_link checkout empty_store)
  = Ok (Intake.error_response 500 "Invalid response from WATA API") /\
  committed (snd (Intake.handler provider_without_link checkout empty_store))
  = {| orders := []; order_items := [] |}.
Proof.
  split; [computed|]. split; [computed|]. split; [computed|]. split; computed.
Qed.

(** C7, at a POST whose body is not JSON: the intake handler raises,
    the webhook handler answers 400. *)
Lemma C7_unparsable_json_raises_in_intake_witness :
  Intake.handler provider_up not_json_checkout empty_store
  = (Raise JSONDecodeError, empty_store) /\
  (handler provider_up not_json_callback (warm empty_store)
   = (Ok (error_response 400 "Invalid JSON"), warm empty_store) /\
   db (warm empty_store) = db (warm empty_store)).
Proof.
  split.
  - apply (proj1 (C7_unparsable_json_raises_in_intake provider_up)) with (token := "secret");
      [computed|computed|discriminate|computed].
  - apply (proj2 (C7_unparsable_json_raises_in_intake provider_up)) with (payload := "not json");
      [differs|computed|computed|computed].
Defined.

(** X1, at a callback with the status [pending_review]. *)
Lemma X1_unrecognized_status_is_ignored_witness :
  handler provider_up review_callback with_paid_order = (Ok ok_response, with_paid_order) /\
  db with_paid_order = db with_paid_order.
Proof.
  apply (X1_unrecognized_status_is_ignored provider_up review_callback
           with_paid_order with_paid_order 100001 1 "paid"); [|computed].
  split; [apply fixture_store_reachable|].
  exists (callback_data "100001" "pending_review"). split; [|split].
  - reaches (callback "100001" "pending_review")
      (JObject [("orderId", JString "100001");
                ("transactionStatus", JString "pending_review")]).
  - split; computed.
  - exists "pending_review". split; computed.
Defined.

(** X2, at the paid callback with the signature of another body. *)
Lemma X2_unverified_delivery_is_refused_witness :
  handler provider_up (delivery "X-Signature" "ApQ=" (callback "100001" "Paid"))
    with_pending_order
  = (Ok (error_response 401 "Invalid signature"), with_pending_order) /\
  db with_pending_order = db with_pending_order.
Proof.
  apply (X2_unverified_delivery_is_refused provider_up
           (delivery "X-Signature" "ApQ=" (callback "100001" "Paid"))
           with_pending_order with_pending_order (callback "100001" "Paid"));
    [differs|computed|computed].
Defined.

(** X3, at a warm process with the provider down, and at a cold one
    with the provider up. *)
Lemma X3_public_key_cache_witness :
  get_wata_public_key provider_down (warm empty_store)
  = (Ok (JString toy_pem), warm empty_store) /\
  get_wata_public_key provider_up (cold empty_store)
  = (Ok (JString toy_pem), warm empty_store).
Proof.
  split.
  - apply (proj1 (X3_public_key_cache provider_down (warm empty_store))). computed.
  - apply (proj1 (proj2 (X3_public_key_cache provider_up (cold empty_store))))
      with (text := key_document) (members := [("value", JString toy_pem)]);
      computed.
Defined.

(** X4, at the first delivery of the success callback. *)
Lemma X4_webhook_responses_witness :
  In ok_response responses /\
  In (statusCode ok_response) [200; 400; 401; 404] /\
  response_headers ok_response = HEADERS.
Proof.
  apply (X4_webhook_responses provider_up paid_callback with_pending_order).
  computed.
Defined.

(** X5, at a callback for an order that the store does not hold. *)
Lemma X5_webhook_store_frame_witness :
  db (snd (handler provider_up unknown_order_callback with_pending_order))
  = db with_pending_order.
Proof.
  pose proof (X5_webhook_store_frame provider_up unknown_order_callback with_pending_order)
    as Hframe.
  cbv zeta in Hframe. apply Hframe. differs.
Defined.

(** X6, at a delivery to a warm process while the provider is down. *)
Lemma X6_webhook_cache_kept_witness :
  public_key_cache (snd (handler provider_down paid_callback with_pending_order))
  = public_key_cache with_pending_order.
Proof.
  apply (proj2 (X6_webhook_cache_kept provider_down paid_callback with_pending_order)).
  computed.
Defined.

(** X7, with the provider down: a cold verifier raises, a warm one
    answers. *)
Lemma X7_verifier_raises_iff_witness :
  fst (verify_webhook_signature provider_down "{}" "AGE=" (cold empty_store))
  = Raise TransportError /\
  exists b,
    verify_webhook_signature provider_down "{}" "AGE=" (warm empty_store)
    = (Ok b, warm empty_store).
Proof.
  split.
  - apply (proj1 (X7_verifier_raises_iff provider_down "{}" "AGE=" (cold empty_store))).
    split; computed.
  - apply (proj2 (proj2 (X7_verifier_raises_iff provider_down "{}" "AGE="
                           (warm empty_store)))).
    computed.
Defined.

(** X8, at a signed callback without [orderId], with [DATABASE_URL]
    unset. *)
Lemma X8_missing_order_id_is_bad_request_witness :
  handler store_unset anonymous_callback with_pending_order
  = (Ok (error_response 400 "Missing order_id"), with_pending_order) /\
  db with_pending_order = db with_pending_order.
Proof.
  apply (X8_missing_order_id_is_bad_request store_unset anonymous_callback
           with_pending_order with_pending_order anonymous_data); [|computed].
  reaches ("{" +:+ quoted "transactionStatus" +:+ ": " +:+ quoted "Paid" +:+ "}")
    (JObject [("transactionStatus", JString "Paid")]).
Defined.

(** X9, at the first delivery of the success callback for the pending
    order 100001. *)
Lemma X9_success_callback_pays_witness :
  let after := committed (db (snd (handler provider_up paid_callback with_pending_order))) in
  fst (handler provider_up paid_callback with_pending_order) = Ok ok_response /\
  (exists o,
     find_order 100001 after = Some o /\
     o_id o = 1 /\
     o_status o = "paid" /\
     o_paid_at o = Some (CURRENT_TIMESTAMP provider_up) /\
     o_updated_at o = Some (CURRENT_TIMESTAMP provider_up)) /\
  Forall2 (fun o o' => o_id o <> 1 -> o' = o)
    (orders (committed (db with_pending_order))) (orders after).
Proof.
  assert (select_order 100001 (committed (db with_pending_order))
          = Some (1, "pending")) as Hpending by computed.
  assert ("pending" <> "paid") as Hstatus by discriminate.
  exact (X9_success_callback_pays provider_up paid_callback
           with_pending_order with_pending_order 100001 1 "pending"
           (paid_callback_for _) Hpending Hstatus).
Defined.

(** X10, at a body of one symbol and at the encoding of the byte
    255. *)
Lemma X10_undecodable_body_raises_witness :
  handler provider_up (encoded "A") with_pending_order
  = (Raise BinasciiError, with_pending_order) /\
  handler provider_up (encoded "/w==") with_pending_order
  = (Raise UnicodeDecodeError, with_pending_order).
Proof.
  split.
  - apply (X10_undecodable_body_raises provider_up (encoded "A") with_pending_order);
      [differs|reflexivity|computed].
  - apply (proj2 (X10_undecodable_body_raises provider_up (encoded "/w==")
                    with_pending_order ltac:(differs) eq_refl)) with (bs := [255]);
      computed.
Defined.

(** X11, at a signed callback whose body is the empty list. *)
Lemma X11_non_object_body_raises_witness :
  handler provider_up array_callback with_pending_order
  = (Raise AttributeError, with_pending_order) /\
  db with_pending_order = db with_pending_order.
Proof.
  apply (X11_non_object_body_raises provider_up array_callback
           with_pending_order with_pending_order "[]" (JArray []));
    [differs|computed|computed|computed|discriminate].
Defined.

(** X12, at the success callback with [DATABASE_URL] unset, and with
    a store that refuses the connection. *)
Lemma X12_unreachable_store_raises_witness :
  handler store_unset paid_callback with_pending_order
  = (Raise ValueError, with_pending_order) /\
  handler store_down paid_callback with_pending_order
  = (Raise OperationalError, with_pending_order).
Proof.
  split.
  - apply (X12_unreachable_store_raises store_unset paid_callback
             with_pending_order with_pending_order (callback_data "100001" "Paid"));
      [|computed|computed].
    reaches (callback "100001" "Paid")
      (JObject [("orderId", JString "100001"); ("transactionStatus", JString "Paid")]).
  - apply (proj2 (X12_unreachable_store_raises store_down paid_callback
                    with_pending_order with_pending_order (callback_data "100001" "Paid")
                    ltac:(reaches (callback "100001" "Paid")
                            (JObject [("orderId", JString "100001");
                                      ("transactionStatus", JString "Paid")]))
                    ltac:(computed)))
      with (dsn := "postgresql://store"); [computed|discriminate|computed].
Defined.

(** X13, at the checkout of the specification with a provider that
    answers 503. *)
Lemma X13_intake_responses_witness :
  In (statusCode (Intake.error_response 500 "WATA API error: unavailable")) Intake.statuses /\
  response_headers (Intake.error_response 500 "WATA API error: unavailable")
  = Intake.HEADERS.
Proof.
  apply (X13_intake_responses provider_unavailable checkout empty_store).
  computed.
Defined.

(** X15, at a preflight and a GET whose bodies are not read, at a POST
    without the credential, and at checkouts with the amount zero and
    with an empty name. *)
Lemma X15_intake_rejections_witness :
  Intake.handler provider_up (request "OPTIONS" "not json") empty_store
  = (Ok (Intake.respond 200 Empty_body), empty_store) /\
  Intake.handler provider_up (request "GET" "not json") empty_store
  = (Ok (Intake.error_response 405 "Method not allowed"), empty_store) /\
  Intake.handler token_unset (request "POST" "not json") empty_store
  = (Ok (Intake.error_response 500 "WATA credentials not configured"), empty_store) /\
  Intake.handler provider_up (request "POST" (checkout_of "A" "0" "[]")) empty_store
  = (Ok (Intake.error_response 400 "Amount must be greater than 0"), empty_store) /\
  Intake.handler provider_up (request "POST" (checkout_of "" "100" "[]")) empty_store
  = (Ok (Intake.error_response 400 "user_name and user_email required"), empty_store).
Proof.
  split; [|split; [|split; [|split]]].
  - pose proof (X15_intake_rejections provider_up (request "OPTIONS" "not json") empty_store)
      as Hrejections.
    cbv zeta in Hrejections. apply Hrejections. computed.
  - pose proof (X15_intake_rejections provider_up (request "GET" "not json") empty_store)
      as Hrejections.
    cbv zeta in Hrejections. apply Hrejections; differs.
  - pose proof (X15_intake_rejections token_unset (request "POST" "not json") empty_store)
      as Hrejections.
    cbv zeta in Hrejections. apply Hrejections; computed.
  - pose proof (X15_intake_rejections provider_up
                  (request "POST" (checkout_of "A" "0" "[]")) empty_store) as Hrejections.
    cbv zeta in Hrejections. destruct Hrejections as (_ & _ & _ & Hbody).
    apply (Hbody "secret" (checkout_members "A" (JInt 0) (JArray [])) 0%float);
      [posts|computed|computed].
  - pose proof (X15_intake_rejections provider_up
                  (request "POST" (checkout_of "" "100" "[]")) empty_store) as Hrejections.
    cbv zeta in Hrejections. destruct Hrejections as (_ & _ & _ & Hbody).
    apply (Hbody "secret" (checkout_members "" (JInt 100) (JArray [])) 100%float);
      [posts|computed|computed|left; computed].
Defined.

(** X16, at the checkout of the specification with the provider up. *)
Lemma X16_intake_stores_the_order_witness :
  let members := checkout_members "A" (JInt 100) (JArray [JObject widget]) in
  let s' := snd (Intake.handler provider_up checkout empty_store) in
  fst (Intake.handler provider_up checkout empty_store)
  = Ok (Intake.respond 200 (Dumps (JObject
          [ ("payment_url", JString "https://pay/x");
            ("order_id", JInt 1);
            ("order_number", JString "ORD-20240101-100001");
            ("wata_transaction_id", JString "tx1") ]))) /\
  orders_id_seq s' = 2 /\
  order_items (committed s') = [Intake.item_row 1 widget] /\
  exists o,
    orders (committed s') = [o] /\
    o_id o = 1 /\
    o_wata_order_id o = 100001 /\
    o_order_number o = "ORD-20240101-100001" /\
    o_status o = "pending" /\
    o_payment_url o = JString "https://pay/x" /\
    o_wata_transaction_id o = JString "tx1" /\
    o_user_name o = "A" /\
    o_user_email o = "a@x.com" /\
    o_user_phone o = "" /\
    o_delivery_address o = "" /\
    o_order_comment o = "" /\
    o_amount o = 100%float /\
    o_paid_at o = None /\
    o_updated_at o = None.
Proof.
  assert (http_post provider_up (Intake.WATA_API_URL +:+ "/links") "secret"
            (Intake.request_of provider_up empty_store
               (checkout_members "A" (JInt 100) (JArray [JObject widget])) 100%float)
          = Response 200 link_document) as Hpost by computed.
  assert (json_loads link_document = Some (JObject link_answer)) as Hjson by computed.
  assert (truthy (py_or (default JNull (assoc "paymentUrl" link_answer))
                        (default JNull (assoc "url" link_answer))) = true)
    as Hurl by computed.
  assert (adapt_all [py_or (default JNull (assoc "paymentUrl" link_answer))
                           (default JNull (assoc "url" link_answer));
                     default JNull (assoc "id" link_answer)] = None)
    as Hlink by computed.
  pose proof (X16_intake_stores_the_order provider_up checkout empty_store "secret"
                link_document (checkout_members "A" (JInt 100) (JArray [JObject widget]))
                link_answer 100%float [widget]
                (checkout_accepted _ _) empty_store_fresh Hpost Hjson Hurl Hlink) as Hstored.
  vm_compute in Hstored. vm_compute. exact Hstored.
Defined.

(** X17, at checkouts whose name holds a NUL character, whose cart is
    a number, whose cart holds a number, and whose cart holds an item
    with an object as its [id] before a number. *)
Lemma X17_unwritable_cart_raises_witness :
  let drawn :=
    {| committed := committed empty_store; orders_id_seq := orders_id_seq empty_store + 1 |} in
  Intake.handler provider_up (request "POST" (checkout_of nul_name "100" "[]")) empty_store
  = (Raise ValueError, empty_store) /\
  Intake.handler provider_up (request "POST" (checkout_of "A" "100" "5")) empty_store
  = (Raise TypeError, drawn) /\
  Intake.handler provider_up (request "POST" (checkout_of "A" "100" "[1]")) empty_store
  = (Raise AttributeError, drawn) /\
  Intake.handler provider_up (request "POST" (checkout_of "A" "100" object_id_cart)) empty_store
  = (Raise ProgrammingError, drawn).
Proof.
  cbv zeta. split; [|split; [|split]].
  - assert (Intake.admitted provider_up (request "POST" (checkout_of nul_name "100" "[]"))
              "secret" (checkout_members nul_name (JInt 100) (JArray [])) 100%float)
      as Hadmitted by admits.
    pose proof (X17_unwritable_cart_raises provider_up _ empty_store _ _ _ Hadmitted)
      as Hrows.
    cbv zeta in Hrows. apply (proj1 Hrows). computed.
  - assert (Intake.admitted provider_up (request "POST" (checkout_of "A" "100" "5")) "secret"
              (checkout_members "A" (JInt 100) (JInt 5)) 100%float) as Hadmitted by admits.
    pose proof (X17_unwritable_cart_raises provider_up _ empty_store _ _ _ Hadmitted)
      as Hrows.
    cbv zeta in Hrows. apply (proj2 Hrows); computed.
  - assert (Intake.admitted provider_up (request "POST" (checkout_of "A" "100" "[1]")) "secret"
              (checkout_members "A" (JInt 100) (JArray [JInt 1])) 100%float)
      as Hadmitted by admits.
    pose proof (X17_unwritable_cart_raises provider_up _ empty_store _ _ _ Hadmitted)
      as Hrows.
    cbv zeta in Hrows. destruct Hrows as [_ Hcart].
    specialize (Hcart ltac:(computed)). destruct Hcart as [_ Hcart].
    apply (Hcart [] (JInt 1) []); [computed|constructor|discriminate].
  - assert (Intake.admitted provider_up
              (request "POST" (checkout_of "A" "100" object_id_cart)) "secret"
              (checkout_members "A" (JInt 100)
                 (JArray [JObject [("id", JObject [])]; JInt 1])) 100%float)
      as Hadmitted by admits.
    pose proof (X17_unwritable_cart_raises provider_up _ empty_store _ _ _ Hadmitted)
      as Hrows.
    cbv zeta in Hrows. destruct Hrows as [_ Hcart].
    specialize (Hcart ltac:(computed)). destruct Hcart as [_ Hcart].
    apply (Hcart [] (JObject [("id", JObject [])]) [JInt 1] ltac:(computed)
             ltac:(constructor)) with (fields := [("id", JObject [])]) (inner := []);
      reflexivity.
Defined.

(** X18, at a store that holds the first value of the random source:
    the id generated is within the range of the source. *)
Lemma X18_generated_order_id_witness :
  100000 <= Intake.generate_order_id provider_up (committed pending_store) 0 9 <= 2147483647.
Proof.
  pose proof (X18_generated_order_id provider_up (committed pending_store)) as Hid.
  cbv zeta in Hid. apply Hid. intros j Hj.
  change (100000 <= 100001 + Z.of_nat j <= 2147483647). lia.
Defined.

(** X19, at the checkout of the specification and at the success
    callback for the pending order. *)
Lemma X19_ids_stay_fresh_witness :
  ids_fresh (snd (Intake.handler provider_up checkout empty_store)) /\
  ids_fresh (db (snd (handler provider_up paid_callback with_pending_order))).
Proof.
  split.
  - apply (proj1 (X19_ids_stay_fresh provider_up checkout)), empty_store_fresh.
  - apply (proj2 (X19_ids_stay_fresh provider_up paid_callback)), pending_store_fresh.
Defined.

(** X20, at the provider order id 100001. *)
Lemma X20_order_id_round_trip_witness :
  truthy (JString (pretty 100001)) = true /\
  py_int (JString (pretty 100001)) = Ok 100001.
Proof.
  apply X20_order_id_round_trip. split; [lia|].
  apply Z.lt_le_trans with (10 ^ 6); [reflexivity|].
  apply Z.pow_le_mono_r; lia.
Defined.

(** X21, at the checkout of the specification followed by the success
    callback for the provider order id 100001, the first value of the
    random source. *)
Lemma X21_checkout_then_payment_witness :
  let p := warm (snd (Intake.handler provider_up checkout empty_store)) in
  let after := db (snd (handler provider_up paid_callback p)) in
  fst (handler provider_up paid_callback p) = Ok ok_response /\
  orders_id_seq after = 2 /\
  order_items (committed after) = [Intake.item_row 1 widget] /\
  exists o,
    orders (committed after) = [o] /\
    o_id o = 1 /\
    o_wata_order_id o = 100001 /\
    o_status o = "paid" /\
    o_paid_at o = Some 1700000000 /\
    o_updated_at o = Some 1700000000.
Proof.
  assert (http_post provider_up (Intake.WATA_API_URL +:+ "/links") "secret"
            (Intake.request_of provider_up empty_store
               (checkout_members "A" (JInt 100) (JArray [JObject widget])) 100%float)
          = Response 200 link_document) as Hpost by computed.
  assert (json_loads link_document = Some (JObject link_answer)) as Hjson by computed.
  assert (truthy (py_or (default JNull (assoc "paymentUrl" link_answer))
                        (default JNull (assoc "url" link_answer))) = true)
    as Hurl by computed.
  assert (adapt_all [py_or (default JNull (assoc "paymentUrl" link_answer))
                           (default JNull (assoc "url" link_answer));
                     default JNull (assoc "id" link_answer)] = None)
    as Hlink by computed.
  assert (forall j, (j < 10)%nat -> 100000 <= randint provider_up j <= 2147483647) as Hrange.
  { intros j Hj. change (100000 <= 100001 + Z.of_nat j <= 2147483647). lia. }
  assert (count_orders (Intake.generate_order_id provider_up (committed empty_store) 0 9)
            (committed empty_store) = 0%nat) as Hfree by computed.
  assert (delivered provider_up paid_callback
            (warm (snd (Intake.handler provider_up checkout empty_store)))
            (warm (snd (Intake.handler provider_up checkout empty_store)))
            (callback_data "100001" "Paid")) as Hdelivered.
  { reaches (callback "100001" "Paid")
      (JObject [("orderId", JString "100001"); ("transactionStatus", JString "Paid")]). }
  assert (classified (callback_data "100001" "Paid") is_success) as Hsuccess.
  { exists "paid". split; computed. }
  assert (order_id (callback_data "100001" "Paid")
          = JString (pretty (Intake.generate_order_id provider_up (committed empty_store) 0 9)))
    as Hid by computed.
  pose proof (X21_checkout_then_payment provider_up provider_up checkout paid_callback
                empty_store "secret" link_document
                (checkout_members "A" (JInt 100) (JArray [JObject widget]))
                link_answer 100%float [widget]
                (warm (snd (Intake.handler provider_up checkout empty_store)))
                (warm (snd (Intake.handler provider_up checkout empty_store)))
                (callback_data "100001" "Paid")
                (checkout_accepted _ _) empty_store_fresh Hpost Hjson Hurl Hlink Hrange Hfree)
    as Hpaid.
  cbv zeta in Hpaid.
  specialize (Hpaid eq_refl (fixture_store_reachable _ _) Hdelivered (or_introl Hid) Hsuccess).
  vm_compute in Hpaid. vm_compute. exact Hpaid.
Defined.

(** X22, at a POST whose body is a list, and at checkouts whose amount
    is the text [abc] and the empty list. *)
Lemma X22_unreadable_request_raises_witness :
  Intake.handler provider_up (request "POST" "[]") empty_store
  = (Raise AttributeError, empty_store) /\
  Intake.handler provider_up (request "POST" (checkout_of "A" (quoted "abc") "[]")) empty_store
  = (Raise ValueError, empty_store) /\
  Intake.handler provider_up (request "POST" (checkout_of "A" "[]" "[]")) empty_store
  = (Raise TypeError, empty_store).
Proof.
  assert (environ provider_up !! "WATA_API_TOKEN" = Some "secret") as Htoken by computed.
  assert ("secret" <> "") as Hsecret by discriminate.
  split; [|split].
  - assert (upper (default "GET" (httpMethod (request "POST" "[]"))) = "POST")
      as Hmethod by computed.
    pose proof (X22_unreadable_request_raises provider_up (request "POST" "[]") empty_store
                  "secret" Hmethod Htoken Hsecret) as (Hshape & _).
    apply (Hshape (JArray [])); [computed|discriminate].
  - assert (upper (default "GET"
                     (httpMethod (request "POST" (checkout_of "A" (quoted "abc") "[]"))))
            = "POST") as Hmethod by computed.
    pose proof (X22_unreadable_request_raises provider_up
                  (request "POST" (checkout_of "A" (quoted "abc") "[]")) empty_store
                  "secret" Hmethod Htoken Hsecret) as (_ & Hamount & _).
    apply (Hamount (checkout_members "A" (JString "abc") (JArray []))); computed.
  - assert (upper (default "GET" (httpMethod (request "POST" (checkout_of "A" "[]" "[]"))))
            = "POST") as Hmethod by computed.
    pose proof (X22_unreadable_request_raises provider_up
                  (request "POST" (checkout_of "A" "[]" "[]")) empty_store
                  "secret" Hmethod Htoken Hsecret) as (_ & _ & Hamount).
    apply (Hamount (checkout_members "A" (JArray []) (JArray [])) (JArray []));
      [computed|computed|right; left; now exists []].
Defined.

Lemma checkout_written (key_answer link_answer : http_outcome) :
  Intake.written (world_with key_answer link_answer) checkout empty_store "secret"
    (checkout_members "A" (JInt 100) (JArray [JObject widget])) 100%float [widget].
Proof. apply checkout_accepted. Qed.

(** X23, at a checkout whose amount is not a number, and at the
    checkout of the specification with the provider unreachable,
    answering with a page, answering with a list, and answering with
    a link that is an object. *)
Lemma X23_provider_failure_raises_witness :
  let drawn :=
    {| committed := committed empty_store; orders_id_seq := orders_id_seq empty_store + 1 |} in
  Intake.handler provider_up (request "POST" (checkout_of "A" (quoted "nan") "[]")) empty_store
  = (Raise ValueError, drawn) /\
  Intake.handler provider_down checkout empty_store = (Raise TransportError, drawn) /\
  Intake.handler provider_garbled checkout empty_store = (Raise JSONDecodeError, drawn) /\
  Intake.handler provider_listing checkout empty_store = (Raise AttributeError, drawn) /\
  Intake.handler provider_with_object_link checkout empty_store
  = (Raise ProgrammingError, drawn).
Proof.
  cbv zeta. split; [|split; [|split; [|split]]].
  - assert (Intake.written provider_up
              (request "POST" (checkout_of "A" (quoted "nan") "[]")) empty_store "secret"
              (checkout_members "A" (JString "nan") (JArray [])) PrimFloat.nan [])
      as Hwritten by writes.
    pose proof (X23_provider_failure_raises provider_up _ empty_store _ _ _ _ Hwritten)
      as Hfailure.
    cbv zeta in Hfailure. apply (proj1 Hfailure). computed.
  - pose proof (X23_provider_failure_raises provider_down checkout empty_store _ _ _ _
                  (checkout_written _ _)) as Hfailure.
    cbv zeta in Hfailure. destruct Hfailure as [_ Hfailure].
    specialize (Hfailure ltac:(computed)). apply Hfailure. computed.
  - pose proof (X23_provider_failure_raises provider_garbled checkout empty_store _ _ _ _
                  (checkout_written _ _)) as Hfailure.
    cbv zeta in Hfailure. destruct Hfailure as [_ Hfailure].
    specialize (Hfailure ltac:(computed)). destruct Hfailure as (_ & Hpage & _).
    apply (Hpage "<html>"); computed.
  - pose proof (X23_provider_failure_raises provider_listing checkout empty_store _ _ _ _
                  (checkout_written _ _)) as Hfailure.
    cbv zeta in Hfailure. destruct Hfailure as [_ Hfailure].
    specialize (Hfailure ltac:(computed)). destruct Hfailure as (_ & _ & Hlist & _).
    apply (Hlist "[]" (JArray [])); [computed|computed|discriminate].
  - pose proof (X23_provider_failure_raises provider_with_object_link checkout empty_store
                  _ _ _ _ (checkout_written _ _)) as Hfailure.
    cbv zeta in Hfailure. destruct Hfailure as [_ Hfailure].
    specialize (Hfailure ltac:(computed)). destruct Hfailure as (_ & _ & _ & Hlink).
    apply (Hlink ("{" +:+ quoted "paymentUrl" +:+ ": {" +:+ quoted "href" +:+ ": 1}}")
             [("paymentUrl", JObject [("href", JInt 1)])]); computed.
Defined.

(** X24, at two order numbers of the same day. *)
Lemma X24_order_numbers_distinct_witness :
  today provider_up = today provider_down /\ 100001 = 100001.
Proof.
  apply X24_order_numbers_distinct; computed.
Defined.

(** X25, at the signed success callback delivered to a cold process
    while the provider answers the key request with a 503, and with
    an object without a key. *)
Lemma X25_unavailable_key_refuses_witness :
  handler provider_unavailable paid_callback (cold pending_store)
  = (Ok (error_response 401 "Invalid signature"), cold pending_store) /\
  handler provider_without_key paid_callback (cold pending_store)
  = (Ok (error_response 401 "Invalid signature"), cold pending_store).
Proof.
  split.
  - apply (X25_unavailable_key_refuses provider_unavailable paid_callback
             (cold pending_store) (callback "100001" "Paid"));
      [differs|computed|computed|].
    left. discriminate.
  - apply (X25_unavailable_key_refuses provider_without_key paid_callback
             (cold pending_store) (callback "100001" "Paid"));
      [differs|computed|computed|].
    right. exists []. split; computed.
Defined.

(** X26, at a provider that serves [junk] as its key: the delivery is
    refused and [junk] is cached; the same delivery is then refused
    even when the provider serves its key again. *)
Lemma X26_unloadable_key_stays_cached_witness :
  handler provider_with_bad_key paid_callback (cold pending_store)
  = (Ok (error_response 401 "Invalid signature"),
     caching (JString "junk") (cold pending_store)) /\
  handler provider_up paid_callback (caching (JString "junk") (cold pending_store))
  = (Ok (error_response 401 "Invalid signature"),
     caching (JString "junk") (cold pending_store)).
Proof.
  assert (upper (default "GET" (httpMethod paid_callback)) <> "OPTIONS") as Hmethod by differs.
  assert (request_body paid_callback = Ok (callback "100001" "Paid")) as Hbody by computed.
  assert (truthy (public_key_cache (cold pending_store)) = false) as Hcold by computed.
  assert (http_get provider_with_bad_key (public_key_url provider_with_bad_key)
          = Response 200 ("{" +:+ quoted "value" +:+ ": " +:+ quoted "junk" +:+ "}"))
    as Hget by computed.
  assert (json_loads ("{" +:+ quoted "value" +:+ ": " +:+ quoted "junk" +:+ "}")
          = Some (JObject [("value", JString "junk")])) as Hjson by computed.
  assert (assoc "value" [("value", JString "junk")] = Some (JString "junk"))
    as Hvalue by computed.
  assert (truthy (JString "junk") = true) as Htruthy by computed.
  assert (load_key (JString "junk") = None) as Hload by computed.
  pose proof (X26_unloadable_key_stays_cached provider_with_bad_key paid_callback
                (cold pending_store) _ _ _ _
                Hmethod Hbody Hcold Hget Hjson Hvalue Htruthy Hload) as [Hfirst Hlater].
  split; [exact Hfirst|].
  apply (Hlater provider_up paid_callback (callback "100001" "Paid"));
    [exact Hmethod|exact Hbody|reflexivity].
Defined.

End Examples.
